(** * FORGE: task evaluation and sandboxed grading engine

  A shallow embedding of the grading core of the repository:
  the failure registry ([src/lib/rules/registry.ts]), the static
  evaluator's connectivity scoring and the final evaluator
  ([src/lib/eval/static-eval.ts]), the runtime evaluator
  ([runtime-eval]), the parsing gate ([model-output-parser]), the
  sandbox runner ([src/lib/runtime/sandbox-runner.ts]) and the
  orchestrator ([src/lib/exec.ts]).

  Conventions of the embedding.
  - A JavaScript string is the [string] of its UTF-8 encoding, one
    [ascii] per byte (well-formed text, no lone surrogate).  Prefix,
    suffix and substring tests are the same on the encoding; [trim]
    and [\s] recognise the white space of one, two and three bytes;
    [length] counts UTF-16 code units; [toLowerCase] is the runtime's
    and is a parameter of the functions that call it.
  - JavaScript numbers that carry scores are exact rationals [Q]:
    sums, products and quotients are those of the real numbers, which
    the doubles of the runtime approximate, and [Math.round] is
    applied to the exact value.  Counters and penalties are [Z].
  - A plain object used as a map keeps its insertion order, so the
    file maps are association lists; the registry, which is only ever
    looked up, is a [gmap] of own properties in front of
    [Object.prototype].
  - Exceptions and promises are explicit: [Completion] for a
    synchronous call that may throw, [Settled] for a promise. *)

From Stdlib Require Import ZArith QArith Qround Lia Lqa List Bool Ascii String.
From Stdlib Require Import Permutation Sorted.
From stdpp Require Import gmap strings pretty.
Import ListNotations.

Local Open Scope string_scope.
Local Open Scope Z_scope.

(* ===================================================================== *)
(** ** JavaScript string primitives *)
(* ===================================================================== *)

Module JsString.

(** [s.startsWith(p)] *)
Definition startsWith (s p : string) : bool := String.prefix p s.

(** [s.includes(sub)] *)
Fixpoint includes (s sub : string) : bool :=
  String.prefix sub s ||
  match s with
  | EmptyString => false
  | String _ rest => includes rest sub
  end.

Fixpoint rev_onto (s acc : string) : string :=
  match s with
  | EmptyString => acc
  | String c rest => rev_onto rest (String c acc)
  end.

Definition reverse (s : string) : string := rev_onto s EmptyString.

(** [s.endsWith(suffix)] *)
Definition endsWith (s suffix : string) : bool :=
  String.prefix (reverse suffix) (reverse s).

(** [s.toLowerCase()] on text whose letters are all in the ASCII
    range: the instance of the runtime's [toLowerCase] at the bundles
    written out below. *)
Definition lower_ascii (c : ascii) : ascii :=
  let n := nat_of_ascii c in
  if (65 <=? n)%nat && (n <=? 90)%nat then ascii_of_nat (n + 32) else c.

Fixpoint toLowerCase_ascii (s : string) : string :=
  match s with
  | EmptyString => EmptyString
  | String c rest => String (lower_ascii c) (toLowerCase_ascii rest)
  end.

(** White space and line terminators, which [trim] strips and [\s]
    matches: U+0009 to U+000D, U+0020, U+00A0, U+1680, U+2000 to
    U+200A, U+2028, U+2029, U+202F, U+205F, U+3000 and U+FEFF.  In
    UTF-8 the first six take one byte, U+00A0 takes two ([C2 A0]) and
    the others three. *)
Definition is_space (c : ascii) : bool :=
  let n := nat_of_ascii c in
  ((9 <=? n)%nat && (n <=? 13)%nat) || (n =? 32)%nat.

Definition is_space2 (c d : ascii) : bool :=
  (nat_of_ascii c =? 194)%nat && (nat_of_ascii d =? 160)%nat.

Definition is_space3 (c d e : ascii) : bool :=
  let c := nat_of_ascii c in
  let d := nat_of_ascii d in
  let e := nat_of_ascii e in
  ((c =? 225) && (d =? 154) && (e =? 128))%nat
  || ((c =? 226) && (d =? 128)
      && (((128 <=? e) && (e <=? 138)) || (e =? 168) || (e =? 169) || (e =? 175)))%nat
  || ((c =? 226) && (d =? 129) && (e =? 159))%nat
  || ((c =? 227) && (d =? 128) && (e =? 128))%nat
  || ((c =? 239) && (d =? 187) && (e =? 191))%nat.

Fixpoint all_space (s : string) : bool :=
  match s with
  | EmptyString => true
  | String c rest =>
      if is_space c then all_space rest
      else
        match rest with
        | String d rest2 =>
            if is_space2 c d then all_space rest2
            else
              match rest2 with
              | String e rest3 => is_space3 c d e && all_space rest3
              | EmptyString => false
              end
        | EmptyString => false
        end
  end.

(** [s.trim().length === 0] *)
Definition trim_is_empty (s : string) : bool := all_space s.

(** [s.length]: a character of one to three bytes is one UTF-16 code
    unit, a character of four bytes is two; continuation bytes
    ([10xxxxxx]) count for nothing. *)
Fixpoint length_utf16 (s : string) : nat :=
  match s with
  | EmptyString => 0
  | String c rest =>
      let b := nat_of_ascii c in
      ((if (128 <=? b) && (b <? 192) then 0 else if 240 <=? b then 2 else 1)
       + length_utf16 rest)%nat
  end.

(** [xs.join(sep)] *)
Fixpoint join (sep : string) (xs : list string) : string :=
  match xs with
  | [] => EmptyString
  | [x] => x
  | x :: rest => x ++ sep ++ join sep rest
  end.

End JsString.

(** A synchronous call either returns or throws. *)
Inductive Completion (A : Type) : Type :=
| Returned (a : A)
| Thrown (message : string).
Arguments Returned {A} a.
Arguments Thrown {A} message.

(* ===================================================================== *)
(** ** Failure registry ([src/lib/rules/registry.ts]) *)
(* ===================================================================== *)

Module Registry.

(** [FailureSeverity] *)
Inductive FailureSeverity := critical | error | warning | info.

(** [FailureCategory] *)
Inductive FailureCategory :=
  connectivity | lint | runtime | parse | model.

(** [FailureDefinition]; the layer stays a string because the
    evaluators inspect it with [startsWith]. *)
Record FailureDefinition := mkDef {
  def_ruleId : string;
  def_layer : string;
  def_category : FailureCategory;
  def_severity : FailureSeverity;
  def_message : string
}.

(** [RULE_IDS] *)
Definition RUNTIME_CRASH := "runtime/crash".
Definition RUNTIME_CONSOLE_ERROR := "runtime/console".
Definition RUNTIME_NETWORK_FAIL := "runtime/network".
Definition RUNTIME_TIMEOUT := "runtime/timeout".
Definition RUNTIME_MANIFEST_MISMATCH := "runtime/manifest-mismatch".
Definition RUNTIME_EXTERNAL_ACCESS := "runtime/external-access".
Definition PARSE_INVALID_JSON := "parse/json".
Definition PARSE_MISSING_TREE := "parse/tree".
Definition PARSE_MISSING_ARTIFACTS := "parse/artifacts".
Definition CONNECTIVITY_BROKEN_LINK := "connectivity/link".
Definition CONNECTIVITY_BROKEN_BINDING := "connectivity/binding".
Definition CONNECTIVITY_SCHEMA_MISMATCH := "connectivity/schema".
Definition CONNECTIVITY_ROUTE_CONSISTENCY := "connectivity/route".
Definition LINT_ESLINT_A := "lint/level-a".
Definition LINT_ESLINT_B := "lint/level-b".
Definition LINT_ESLINT_C := "lint/level-c".
Definition MODEL_NO_OUTPUT := "model/no-output".

(** The definitions of the object literal [FAILURE_REGISTRY], in source
    order. *)
Definition def_RUNTIME_CRASH : FailureDefinition :=
  mkDef RUNTIME_CRASH "L5/BrowserRuntime" runtime critical
    "Browser page crashed or encountered a fatal error".
Definition def_RUNTIME_CONSOLE_ERROR : FailureDefinition :=
  mkDef RUNTIME_CONSOLE_ERROR "L5/BrowserRuntime" runtime error
    "Console error detected".
Definition def_RUNTIME_NETWORK_FAIL : FailureDefinition :=
  mkDef RUNTIME_NETWORK_FAIL "L5/BrowserRuntime" runtime error
    "Critical network resource failed to load".
Definition def_RUNTIME_TIMEOUT : FailureDefinition :=
  mkDef RUNTIME_TIMEOUT "L5/BrowserRuntime" runtime error
    "Execution timed out".
Definition def_RUNTIME_MANIFEST_MISMATCH : FailureDefinition :=
  mkDef RUNTIME_MANIFEST_MISMATCH "L5/BrowserRuntime" runtime error
    "Runtime artifacts do not match sandbox manifest".
Definition def_RUNTIME_EXTERNAL_ACCESS : FailureDefinition :=
  mkDef RUNTIME_EXTERNAL_ACCESS "L1/Warnings" runtime warning
    "External resource accessed".
Definition def_PARSE_INVALID_JSON : FailureDefinition :=
  mkDef PARSE_INVALID_JSON "L4/Parse" parse error
    "File includes invalid JSON".
Definition def_PARSE_MISSING_TREE : FailureDefinition :=
  mkDef PARSE_MISSING_TREE "L4/Parse" parse error
    "Required file structure missing".
Definition def_PARSE_MISSING_ARTIFACTS : FailureDefinition :=
  mkDef PARSE_MISSING_ARTIFACTS "L4/Parse" parse warning
    "Required artifact files are empty or missing content".
Definition def_CONNECTIVITY_BROKEN_LINK : FailureDefinition :=
  mkDef CONNECTIVITY_BROKEN_LINK "L3/StaticValidation" connectivity error
    "File reference or link is broken".
Definition def_CONNECTIVITY_BROKEN_BINDING : FailureDefinition :=
  mkDef CONNECTIVITY_BROKEN_BINDING "L3/StaticValidation" connectivity error
    "HTML/JS data binding mismatch".
Definition def_CONNECTIVITY_SCHEMA_MISMATCH : FailureDefinition :=
  mkDef CONNECTIVITY_SCHEMA_MISMATCH "L3/StaticValidation" connectivity error
    "API Schema not correctly implemented in code".
Definition def_CONNECTIVITY_ROUTE_CONSISTENCY : FailureDefinition :=
  mkDef CONNECTIVITY_ROUTE_CONSISTENCY "L3/StaticValidation" connectivity error
    "Route configuration is inconsistent".
Definition def_LINT_ESLINT_A : FailureDefinition :=
  mkDef LINT_ESLINT_A "L2/CodeQuality" lint error
    "Critical code quality issue (Level A)".
Definition def_LINT_ESLINT_B : FailureDefinition :=
  mkDef LINT_ESLINT_B "L2/CodeQuality" lint warning
    "Code quality warning (Level B)".
Definition def_LINT_ESLINT_C : FailureDefinition :=
  mkDef LINT_ESLINT_C "L2/CodeQuality" lint info
    "Style suggestion (Level C)".
Definition def_MODEL_NO_OUTPUT : FailureDefinition :=
  mkDef MODEL_NO_OUTPUT "L1/Model" model error
    "Model failed to generate output".

Definition registry_entries : list FailureDefinition :=
  [ def_RUNTIME_CRASH;
    def_RUNTIME_CONSOLE_ERROR;
    def_RUNTIME_NETWORK_FAIL;
    def_RUNTIME_TIMEOUT;
    def_RUNTIME_MANIFEST_MISMATCH;
    def_RUNTIME_EXTERNAL_ACCESS;
    def_PARSE_INVALID_JSON;
    def_PARSE_MISSING_TREE;
    def_PARSE_MISSING_ARTIFACTS;
    def_CONNECTIVITY_BROKEN_LINK;
    def_CONNECTIVITY_BROKEN_BINDING;
    def_CONNECTIVITY_SCHEMA_MISMATCH;
    def_CONNECTIVITY_ROUTE_CONSISTENCY;
    def_LINT_ESLINT_A;
    def_LINT_ESLINT_B;
    def_LINT_ESLINT_C;
    def_MODEL_NO_OUTPUT ].

(** Own properties of [FAILURE_REGISTRY], keyed by rule id. *)
Definition FAILURE_REGISTRY : gmap string FailureDefinition :=
  list_to_map (map (fun d => (def_ruleId d, d)) registry_entries).

(** [FAILURE_REGISTRY] is written as an object literal, so its
    prototype is [Object.prototype]: a bracket read that finds no own
    property continues there.  These are the property names
    [Object.prototype] carries; each holds a function, and
    [__proto__] holds the prototype object itself, so every one of
    them is truthy. *)
Definition Object_prototype_keys : list string :=
  [ "constructor"; "hasOwnProperty"; "isPrototypeOf";
    "propertyIsEnumerable"; "toLocaleString"; "toString"; "valueOf";
    "__defineGetter__"; "__defineSetter__"; "__lookupGetter__";
    "__lookupSetter__"; "__proto__" ].

(** What a bracket read on the registry can produce. *)
Inductive PropertyValue :=
| OwnDefinition (d : FailureDefinition)
| Inherited (name : string).

Definition inherited_key (k : string) : bool :=
  existsb (String.eqb k) Object_prototype_keys.

(** [FAILURE_REGISTRY[ruleId]]; [None] is [undefined]. *)
Definition registry_get (ruleId : string) : option PropertyValue :=
  match FAILURE_REGISTRY !! ruleId with
  | Some d => Some (OwnDefinition d)
  | None => if inherited_key ruleId then Some (Inherited ruleId) else None
  end.

(** [getFailureDef]: [if (!def) throw ...; return def]. *)
Definition getFailureDef (ruleId : string) : Completion PropertyValue :=
  match registry_get ruleId with
  | Some v => Returned v
  | None => Thrown ("[FailureRegistry] Unknown Rule ID: " ++ ruleId)
  end.

End Registry.


(* ===================================================================== *)
(** ** Shared types ([src/lib/types.ts]) *)
(* ===================================================================== *)

Module Types.
Import Registry.

(** [Difficulty] *)
Inductive Difficulty := XS | S | M | L | XL.

(** [DIFFICULTY_WEIGHTS] ([src/lib/difficulty.ts]) *)
Definition DIFFICULTY_WEIGHTS (d : Difficulty) : Q :=
  match d with
  | XS => 6 # 10
  | S => 8 # 10
  | M => 1
  | L => 12 # 10
  | XL => 14 # 10
  end.

(** [RuntimeExternalAccess], kept to the field the evaluators read
    and the flag the browser runner sets. *)
Record RuntimeExternalAccess := mkAccess {
  access_target : string;
  access_resolved : bool
}.

(** The shapes of [FailureEvidence] that the evaluators build. *)
Inductive FailureEvidence :=
| EvMissingFiles (missingFiles : list string)
| EvEntry (entry : string) (filesMounted : list string)
| EvAccess (access : RuntimeExternalAccess) (filesMounted : option (list string))
| EvUrl (url : option string) (stack : option string)
| EvExpected (expected : string) (observed : option string).

(** [FailureAnnotation]: a registry definition with its contextual
    fields overlaid. *)
Record FailureAnnotation := mkAnnotation {
  ruleId : string;
  severity : FailureSeverity;
  layer : string;
  category : FailureCategory;
  message : string;
  filePath : option string;
  timestamp : option Z;
  evidence : option FailureEvidence
}.

(** [{ ...def, message: msg }] *)
Definition spread_def (d : FailureDefinition) (msg : string) : FailureAnnotation :=
  {| ruleId := def_ruleId d; severity := def_severity d; layer := def_layer d;
     category := def_category d; message := msg;
     filePath := None; timestamp := None; evidence := None |}.

Definition with_severity (s : FailureSeverity) (a : FailureAnnotation) :=
  {| ruleId := ruleId a; severity := s; layer := layer a;
     category := category a; message := message a;
     filePath := filePath a; timestamp := timestamp a; evidence := evidence a |}.

Definition with_evidence (e : FailureEvidence) (a : FailureAnnotation) :=
  {| ruleId := ruleId a; severity := severity a; layer := layer a;
     category := category a; message := message a;
     filePath := filePath a; timestamp := timestamp a; evidence := Some e |}.

Definition with_timestamp (t : Z) (a : FailureAnnotation) :=
  {| ruleId := ruleId a; severity := severity a; layer := layer a;
     category := category a; message := message a;
     filePath := filePath a; timestamp := Some t; evidence := evidence a |}.

(** [makeFail] / [makeFailHelper] at a member of [RULE_IDS]:
    [{ ...getFailureDef(rule), message: msg }].  The argument is the
    definition that the lookup returns for that member (lemma
    [rule_ids_resolve]), so the lookup cannot throw here. *)
Definition makeFail (d : FailureDefinition) (msg : string) : FailureAnnotation :=
  spread_def d msg.

(** [BrowserError]; [type] stays a string: the runtime evaluator has a
    branch for shapes it does not know. *)
Record BrowserError := mkBrowserError {
  be_type : string;
  be_timestamp : Z;
  be_message : string;
  be_url : option string
}.

(** [BrowserLog] *)
Record BrowserLog := mkBrowserLog {
  bl_type : string;
  bl_timestamp : Z;
  bl_message : string
}.

(** [SandboxManifest] *)
Record SandboxManifest := mkManifest {
  entry : string;
  filesMounted : list string;
  fileHashes : list (string * string);
  generatedAt : string
}.

(** [SandboxResult] as the runner builds it. *)
Record SandboxResult := mkSandboxResult {
  success : bool;
  logs : list string;
  manifest : option SandboxManifest;
  browserErrors : option (list BrowserError);
  browserLogs : option (list BrowserLog);
  externalAccess : option (list RuntimeExternalAccess)
}.

(** The runtime part of [TaskSpec]. *)
Inductive RuntimeType := browser | node.

Record RuntimeSpec := mkRuntime {
  rt_type : option RuntimeType;
  rt_buildCommand : option string;
  rt_entry : option string
}.

(** [TaskSpec]: the fields the grading core reads. *)
Record TaskSpec := mkTaskSpec {
  id : string;
  size : Difficulty;
  description : string;
  expectedArtifacts : list string;
  requiredFiles : list string;
  runtime : option RuntimeSpec;
  timeBudgetMs : option Z
}.

(** [ScoreBreakdown]: the sub-scores and the evidence; the lint lists
    only travel through. *)
Record ScoreBreakdown := mkBreakdown {
  completeness : Q;
  structure : Q;
  survivability : Q;
  connectivity : Q;
  failureAnnotations : list FailureAnnotation
}.

End Types.

(* ===================================================================== *)
(** ** Final evaluator ([evaluateFinal], [getScoreCap]) *)
(* ===================================================================== *)

Module FinalEval.
Import Registry Types JsString.

Inductive ParseStatus := VALID | INVALID.

(** [FailureMetadata]: the fields [evaluateFinal] reads. *)
Record FailureMetadata := mkMetadata {
  difficulty : option Difficulty;
  parseStatus : option ParseStatus;
  meta_browserErrors : option (list BrowserError);
  meta_runtimeErrors : option (list BrowserError);
  meta_runtimeWarnings : option (list BrowserLog);
  meta_failureAnnotations : option (list FailureAnnotation)
}.

(** The literal [{}] passed on the generation-failure paths. *)
Definition no_metadata : FailureMetadata :=
  mkMetadata None None None None None None.

Record RuntimeReport := mkReport {
  errorCount : nat;
  warningCount : nat;
  examples : list string
}.

(** [FinalEvaluationResult] *)
Record FinalEvaluationResult := mkFinal {
  totalScore : Z;
  breakdown_static : ScoreBreakdown;
  breakdown_runtime : option Q;
  notes : list string;
  errors : list string;
  recommendedFixes : list string;
  failureLayer : option string;
  infrastructureTimeout : bool;
  runtimeReport : RuntimeReport;
  final_failureAnnotations : list FailureAnnotation
}.

(** [getScoreCap]; the first test is [!failureLayer], which also
    holds for the empty string. *)
Definition getScoreCap (failureLayer : option string) : Z :=
  match failureLayer with
  | None => 100
  | Some l =>
      if String.eqb l EmptyString then 100
      else if startsWith l "L5" then 30
      else if startsWith l "L4" then 50
      else if startsWith l "L3" then 70
      else if startsWith l "L2" then 85
      else 100
  end.

(** [getPriority] *)
Definition getPriority (layer : string) : Z :=
  if startsWith layer "L5" then 5
  else if startsWith layer "L4" then 4
  else if startsWith layer "L3" then 3
  else if startsWith layer "L2" then 2
  else 1.

Definition is_failure_severity (s : FailureSeverity) : bool :=
  match s with
  | critical | error => true
  | warning | info => false
  end.

(** [annotations.filter(a => a.severity === 'critical' || a.severity === 'error')] *)
Definition failureCandidates (annotations : list FailureAnnotation) :=
  List.filter (fun a => is_failure_severity (severity a)) annotations.

(** [Array.prototype.sort] is stable; with the comparator
    [getPriority(b.layer) - getPriority(a.layer)] an element stays in
    front of every later element of the same or a lower priority. *)
Fixpoint insert_by_priority (x : FailureAnnotation) (sorted : list FailureAnnotation) :=
  match sorted with
  | [] => [x]
  | y :: rest =>
      if getPriority (layer y) <=? getPriority (layer x)
      then x :: y :: rest
      else y :: insert_by_priority x rest
  end.

Fixpoint sort_by_priority (l : list FailureAnnotation) :=
  match l with
  | [] => []
  | x :: rest => insert_by_priority x (sort_by_priority rest)
  end.

(** The "failure layer" block: the layer of [failureCandidates[0]]
    after the sort and the line pushed on [errors], or the legacy
    fallback on [parseStatus]. *)
Definition resolveFailureLayer (annotations : list FailureAnnotation)
    (ps : option ParseStatus) : option string * list string :=
  match sort_by_priority (failureCandidates annotations) with
  | worst :: _ =>
      (Some (layer worst), [layer worst ++ ": " ++ message worst])
  | [] =>
      match ps with
      | Some INVALID =>
          (Some "L4/Parse", ["Model output parsing failed (Legacy Fallback)"])
      | _ => (None, [])
      end
  end.

(** [baseScore01] *)
Definition baseScore01 (staticScore : ScoreBreakdown) (runtimeScore : option Q) : Q :=
  match runtimeScore with
  | None =>
      (6 # 10) * completeness staticScore +
      (3 # 10) * structure staticScore +
      (1 # 10) * survivability staticScore
  | Some r =>
      (4 # 10) * completeness staticScore +
      (2 # 10) * structure staticScore +
      (1 # 10) * survivability staticScore +
      (3 # 10) * r
  end%Q.

(** One turn of the loop [for (const note of annotations)]. *)
Definition penalty_step (penalty : Z) (note : FailureAnnotation) : Z :=
  if startsWith (layer note) "L5" then penalty + 15
  else if startsWith (layer note) "L4" then penalty + 20
  else if startsWith (layer note) "L3" then penalty
  else if startsWith (layer note) "L2" then
    let p := match severity note with error => penalty + 5 | _ => penalty end in
    match severity note with warning => p + 2 | _ => p end
  else penalty.

Definition penalty_of (annotations : list FailureAnnotation) : Z :=
  fold_left penalty_step annotations 0.

(** [Math.round] on a finite number: the nearest integer, a tie going
    up.  Its argument here is the exact value of the expression; the
    runtime rounds the double nearest to it, which can fall on the
    other side of a tie. *)
Definition Math_round (x : Q) : Z := Qfloor (x + (1 # 2)).

(** [Math.max(0, Math.min(cap, Math.round(penalizedScore)))] *)
Definition clampScore (cap : Z) (penalizedScore : Q) : Z :=
  Z.max 0 (Z.min cap (Math_round penalizedScore)).

Definition nth_message {A} (msg : A -> string) (l : list A) : string :=
  match l with
  | x :: _ => msg x
  | [] => EmptyString
  end.

(** The "runtime disclosure" block. *)
Definition buildRuntimeReport (metadata : FailureMetadata) : RuntimeReport :=
  let runtimeErrors :=
    match meta_runtimeErrors metadata with
    | Some l => l
    | None => match meta_browserErrors metadata with Some l => l | None => [] end
    end in
  let runtimeWarnings :=
    match meta_runtimeWarnings metadata with Some l => l | None => [] end in
  let errorCount := length runtimeErrors in
  let warningCount := length runtimeWarnings in
  let e1 := if (0 <? errorCount)%nat
            then ["Error: " ++ nth_message be_message runtimeErrors] else [] in
  let e2 := if (0 <? warningCount)%nat
            then ["Warning: " ++ nth_message bl_message runtimeWarnings] else [] in
  let e3 := if (1 <? errorCount)%nat
            then ["...and " ++ pretty (errorCount - 1)%nat ++ " more errors"]
            else if (1 <? warningCount)%nat
            then ["...and " ++ pretty (warningCount - 1)%nat ++ " more warnings"]
            else [] in
  mkReport errorCount warningCount (e1 ++ e2 ++ e3).

Definition is_falsy_layer (failureLayer : option string) : bool :=
  match failureLayer with
  | None => true
  | Some l => String.eqb l EmptyString
  end.

(** [evaluateFinal] *)
Definition evaluateFinal (staticScore : ScoreBreakdown)
    (runtimeScore : option Q) (metadata : FailureMetadata)
    : FinalEvaluationResult :=
  let difficulty := match difficulty metadata with Some d => d | None => M end in
  let weight := DIFFICULTY_WEIGHTS difficulty in
  let annotations :=
    match meta_failureAnnotations metadata with Some l => l | None => [] end in
  let '(failureLayer, errors) :=
    resolveFailureLayer annotations (parseStatus metadata) in
  let baseScore100 := (baseScore01 staticScore runtimeScore * 100)%Q in
  let weightedScore := (baseScore100 * weight)%Q in
  let penalty := penalty_of annotations in
  let penalizedScore := (weightedScore - inject_Z penalty)%Q in
  let cap := getScoreCap failureLayer in
  let totalScore := clampScore cap penalizedScore in
  let notes :=
    if is_falsy_layer failureLayer
    then ["All validation checks passed"]
    else ["Failure classified as " ++ default EmptyString failureLayer;
          "Score capped at " ++ pretty cap] in
  {| totalScore := totalScore;
     breakdown_static := staticScore;
     breakdown_runtime := runtimeScore;
     notes := notes;
     errors := errors;
     recommendedFixes := [];
     failureLayer := failureLayer;
     infrastructureTimeout := false;
     runtimeReport := buildRuntimeReport metadata;
     final_failureAnnotations := annotations |}.

(** The spec's reading of the penalty: a count per qualifying class. *)
Definition count_where (p : FailureAnnotation -> bool)
    (annotations : list FailureAnnotation) : Z :=
  Z.of_nat (length (List.filter p annotations)).

Definition in_layer (tag : string) (a : FailureAnnotation) : bool :=
  startsWith (layer a) tag.

Definition has_severity (s : FailureSeverity) (a : FailureAnnotation) : bool :=
  match s, severity a with
  | critical, critical | error, error | warning, warning | info, info => true
  | _, _ => false
  end.

Definition spec_penalty (annotations : list FailureAnnotation) : Z :=
  15 * count_where (in_layer "L5") annotations +
  20 * count_where (in_layer "L4") annotations +
  5 * count_where (fun a => in_layer "L2" a && has_severity error a) annotations +
  2 * count_where (fun a => in_layer "L2" a && has_severity warning a) annotations.

End FinalEval.

(* ===================================================================== *)
(** ** Static evaluator: connectivity ([evaluateStatic], [evaluateFileReference]) *)
(* ===================================================================== *)

Module StaticEval.
Import Registry Types JsString.

(** [Record<string, string>] in key order, as [Object.keys] and
    [Object.entries] enumerate it. *)
Definition Files := list (string * string).

(** [files[f]] *)
Fixpoint file_content (files : Files) (f : string) : string :=
  match files with
  | [] => EmptyString
  | (k, v) :: rest => if String.eqb k f then v else file_content rest f
  end.

(** The result type [0 | 0.5 | 1] of a connectivity sub-check. *)
Inductive SubScore := score0 | score05 | score1.

Definition subscore_value (s : SubScore) : Q :=
  match s with
  | score0 => 0
  | score05 => 1 # 2
  | score1 => 1
  end.

Definition is_score0 (s : SubScore) : bool :=
  match s with score0 => true | _ => false end.

Definition newline : string := String (ascii_of_nat 10) EmptyString.

Definition genericFallback (joined : string) : bool :=
  includes joined "<script" || includes joined "<link" ||
  includes joined "href=" || includes joined "src=".

Section LowerCase.

(** [String.prototype.toLowerCase]: the Unicode lower-case mapping of
    the runtime. *)
Variable toLowerCase : string -> string.

(** [htmlFiles.map(f => files[f]).join('\n').toLowerCase()] *)
Definition joinedHtml (files : Files) : string :=
  let htmlFiles := List.filter (fun f => endsWith f ".html") (map fst files) in
  toLowerCase (join newline (map (file_content files) htmlFiles)).

(** [requiredFiles.filter(f => !f.endsWith('.html'))] *)
Definition targetFiles (requiredFiles : list string) : list string :=
  List.filter (fun f => negb (endsWith f ".html")) requiredFiles.

(** The test of the loop body: [joinedHtml.includes(target.toLowerCase())] *)
Definition mentions (joined target : string) : bool :=
  includes joined (toLowerCase target).

(** [evaluateFileReference]: the score and the annotations it pushes. *)
Definition evaluateFileReference (files : Files) (requiredFiles : list string)
    : SubScore * list FailureAnnotation :=
  let htmlFiles := List.filter (fun f => endsWith f ".html") (map fst files) in
  if (length htmlFiles =? 0)%nat then
    (score0, [makeFail def_CONNECTIVITY_BROKEN_LINK
                "No HTML files found to reference content"])
  else
    let targets := targetFiles requiredFiles in
    if (length targets =? 0)%nat then (score1, [])
    else
      let joined := joinedHtml files in
      let '(found, missingTargets) := List.partition (mentions joined) targets in
      let foundCount := length found in
      if (foundCount =? length targets)%nat then (score1, [])
      else
        let score := if (0 <? foundCount)%nat then score05 else score0 in
        if is_score0 score && genericFallback joined then
          (score05,
           [with_severity warning
              (makeFail def_CONNECTIVITY_BROKEN_LINK
                 ("No explicit references to required files found, but generic links exist. Missing: "
                  ++ join ", " missingTargets))])
        else
          (score,
           [with_evidence (EvMissingFiles missingTargets)
              (makeFail def_CONNECTIVITY_BROKEN_LINK
                 ("Missing references to required files: "
                  ++ join ", " missingTargets))]).

Section Connectivity.

(** The three other sub-checks scan the files with regular
    expressions and [JSON.parse]; the tier gating below only uses
    their results. *)
Variable evaluateScriptBinding : Files -> SubScore * list FailureAnnotation.
Variable evaluateApiSchemaLinkage : Files -> SubScore * list FailureAnnotation.
Variable evaluateRouteConsistency : Files -> SubScore * list FailureAnnotation.

Definition enables_scriptBinding (size : Difficulty) : bool :=
  match size with S | M | L | XL => true | XS => false end.

Definition enables_apiSchemaLinkage (size : Difficulty) : bool :=
  match size with M | L | XL => true | XS | S => false end.

Definition enables_routeConsistency (size : Difficulty) : bool :=
  match size with L | XL => true | XS | S | M => false end.

(** [enabledComponents] after the three [if (size === ...)] pushes. *)
Definition enabledComponents (size : Difficulty)
    (fileReference scriptBinding apiSchemaLinkage routeConsistency : SubScore)
    : list SubScore :=
  [fileReference]
  ++ (if enables_scriptBinding size then [scriptBinding] else [])
  ++ (if enables_apiSchemaLinkage size then [apiSchemaLinkage] else [])
  ++ (if enables_routeConsistency size then [routeConsistency] else []).

(** [enabledComponents.reduce((acc, val) => acc + val, 0)] and the
    division by [enabledComponents.length]. *)
Definition average (components : list SubScore) : Q :=
  let sum := fold_left (fun acc val => acc + subscore_value val)%Q components 0%Q in
  if (0 <? length components)%nat
  then (sum / inject_Z (Z.of_nat (length components)))%Q
  else 1%Q.

Record ConnectivityResult := mkConnectivity {
  connectivityScore : Q;
  fileReference : SubScore;
  scriptBinding : SubScore;
  apiSchemaLinkage : SubScore;
  routeConsistency : SubScore;
  connectivityAnnotations : list FailureAnnotation
}.

(** Section 3 of [evaluateStatic]. *)
Definition evaluateConnectivity (files : Files) (taskSpec : TaskSpec)
    : ConnectivityResult :=
  let '(fr, a1) := evaluateFileReference files (requiredFiles taskSpec) in
  let '(sb, a2) := evaluateScriptBinding files in
  let '(api, a3) := evaluateApiSchemaLinkage files in
  let '(rc, a4) := evaluateRouteConsistency files in
  {| connectivityScore := average (enabledComponents (size taskSpec) fr sb api rc);
     fileReference := fr;
     scriptBinding := sb;
     apiSchemaLinkage := api;
     routeConsistency := rc;
     connectivityAnnotations := a1 ++ a2 ++ a3 ++ a4 |}.

End Connectivity.

End LowerCase.

End StaticEval.


(* ===================================================================== *)
(** ** Runtime evaluator ([evaluateRuntime]) *)
(* ===================================================================== *)

Module RuntimeEval.
Import Registry Types JsString.

(** What [evaluateRuntime] returns, together with the two lists it
    writes back into its [sandboxResult] argument. *)
Record RuntimeEvaluation := mkRuntimeEvaluation {
  score : Z;
  rt_failureAnnotations : list FailureAnnotation;
  runtimeErrors : list BrowserError;
  runtimeWarnings : list BrowserLog
}.

(** [checkIsInternal] *)
Definition checkIsInternal (target : string) (internalFiles : list string) : bool :=
  if negb (startsWith target "file://") then false
  else existsb (fun file => includes target file) internalFiles.

(** [entry && !filesMounted.includes(entry)] *)
Definition manifest_mismatch (m : SandboxManifest) : bool :=
  negb (String.eqb (entry m) EmptyString) &&
  negb (existsb (String.eqb (entry m)) (filesMounted m)).

(** Step 0: the manifest alignment check. *)
Definition manifestAnnotations (r : SandboxResult) : list FailureAnnotation :=
  match manifest r with
  | Some m =>
      if manifest_mismatch m then
        [with_evidence (EvEntry (entry m) (filesMounted m))
           (makeFail def_RUNTIME_MANIFEST_MISMATCH
              ("Runtime entry point '" ++ entry m ++ "' not found in mounted files"))]
      else []
  | None => []
  end.

(** Step 0.1: one turn of the loop over [externalAccess]. *)
Definition auditAccess (internalPaths : list string)
    (access : RuntimeExternalAccess) : list FailureAnnotation :=
  let target := access_target access in
  let isFile := startsWith target "file://" in
  let isInternal := checkIsInternal target internalPaths in
  if isFile && negb isInternal then
    [with_evidence (EvAccess access (Some internalPaths))
       (makeFail def_RUNTIME_MANIFEST_MISMATCH
          ("Runtime accessed unmounted file: " ++ target))]
  else if negb isFile && negb isInternal && negb (String.eqb target "about:blank") then
    if negb (startsWith target "data:") then
      [with_evidence (EvAccess access None)
         (makeFail def_RUNTIME_EXTERNAL_ACCESS
            ("External resource accessed: " ++ target))]
    else []
  else [].

Definition accessAnnotations (r : SandboxResult) : list FailureAnnotation :=
  match externalAccess r with
  | Some accesses =>
      let internalPaths :=
        match manifest r with Some m => filesMounted m | None => [] end in
      flat_map (auditAccess internalPaths) accesses
  | None => []
  end.

(** The "critical resource" test of the [network] branch. *)
Definition criticalResource (err : BrowserError) : bool :=
  match be_url err with
  | Some url =>
      negb (String.eqb url EmptyString) && (endsWith url ".js" || endsWith url ".html")
  | None => false
  end
  || includes (be_message err) ".js"
  || includes (be_message err) ".html".

(** The state the classification loops write to. *)
Record Classified := mkClassified {
  c_annotations : list FailureAnnotation;
  c_errors : list BrowserError;
  c_warnings : list BrowserLog
}.

(** One turn of [for (const err of browserErrors)]. *)
Definition classifyError (st : Classified) (err : BrowserError) : Classified :=
  if String.eqb (be_type err) "pageerror" then
    {| c_errors := c_errors st ++ [err];
       c_annotations := c_annotations st ++
         [with_evidence (EvUrl (be_url err) (Some (be_message err)))
            (with_timestamp (be_timestamp err)
               (makeFail def_RUNTIME_CRASH (be_message err)))];
       c_warnings := c_warnings st |}
  else if String.eqb (be_type err) "network" then
    if criticalResource err then
      {| c_errors := c_errors st ++ [err];
         c_annotations := c_annotations st ++
           [with_evidence (EvUrl (be_url err) None)
              (makeFail def_RUNTIME_NETWORK_FAIL
                 ("Critical Resource Failed: " ++ be_message err))];
         c_warnings := c_warnings st |}
    else
      {| c_errors := c_errors st;
         c_annotations := c_annotations st ++
           [with_evidence (EvUrl (be_url err) None)
              (with_severity warning
                 (makeFail def_RUNTIME_NETWORK_FAIL
                    ("Resource Warning: " ++ be_message err)))];
         c_warnings := c_warnings st ++
           [mkBrowserLog "console.warn" (be_timestamp err)
              ("[Network] " ++ be_message err)] |}
  else if String.eqb (be_type err) "console.error" then
    {| c_errors := c_errors st ++ [err];
       c_annotations := c_annotations st ++
         [with_timestamp (be_timestamp err)
            (makeFail def_RUNTIME_CONSOLE_ERROR
               ("Console Error: " ++ be_message err))];
       c_warnings := c_warnings st |}
  else
    {| c_errors := c_errors st;
       c_annotations := c_annotations st ++
         [with_severity warning
            (makeFail def_RUNTIME_CONSOLE_ERROR
               ("Runtime Warning: " ++ be_message err))];
       c_warnings := c_warnings st ++
         [mkBrowserLog "console.warn" (be_timestamp err)
            ("[Unknown Error] " ++ be_message err)] |}.

(** One turn of [for (const log of browserLogs)]. *)
Definition classifyLog (st : Classified) (log : BrowserLog) : Classified :=
  if String.eqb (bl_type log) "console.warn" then
    {| c_errors := c_errors st;
       c_annotations := c_annotations st;
       c_warnings := c_warnings st ++ [log] |}
  else st.

(** [evaluateRuntime]; the task specification is accepted and not
    read. *)
Definition evaluateRuntime (sandboxResult : SandboxResult) (taskSpec : TaskSpec)
    : RuntimeEvaluation :=
  let st0 := {| c_annotations := manifestAnnotations sandboxResult
                                 ++ accessAnnotations sandboxResult;
                c_errors := []; c_warnings := [] |} in
  let st1 := fold_left classifyError
               (default [] (browserErrors sandboxResult)) st0 in
  let st2 := fold_left classifyLog
               (default [] (browserLogs sandboxResult)) st1 in
  if negb (success sandboxResult) then
    {| score := 0;
       rt_failureAnnotations := c_annotations st2 ++
         [makeFail def_RUNTIME_CRASH
            "Sandbox Execution Failed (Infrastructure/Timeout)"];
       runtimeErrors := c_errors st2;
       runtimeWarnings := c_warnings st2 |}
  else if (0 <? length (c_errors st2))%nat then
    {| score := 0;
       rt_failureAnnotations := c_annotations st2;
       runtimeErrors := c_errors st2;
       runtimeWarnings := c_warnings st2 |}
  else
    {| score := 1;
       rt_failureAnnotations := c_annotations st2;
       runtimeErrors := c_errors st2;
       runtimeWarnings := c_warnings st2 |}.

(** A fatal error in the sense of the classification: a page error, a
    console error, or a network failure on a code or markup
    resource. *)
Definition fatal (err : BrowserError) : bool :=
  String.eqb (be_type err) "pageerror"
  || (String.eqb (be_type err) "network" && criticalResource err)
  || String.eqb (be_type err) "console.error".

End RuntimeEval.

(* ===================================================================== *)
(** ** Untyped values: what the generation collaborator hands over *)
(* ===================================================================== *)

(** The parsing gate receives its arguments as [any]; it inspects them
  with [typeof], [Array.isArray] and property reads. *)
#[local] Set Warnings "-register-all".
Inductive JsValue :=
| JsUndefined
| JsNull
| JsBool (b : bool)
| JsNumber (n : Z)
| JsStr (s : string)
| JsArray (items : list JsValue)
| JsObject (props : list (string * JsValue)).

Module Js.

(** [!v] is [negb (truthy v)]. *)
Definition truthy (v : JsValue) : bool :=
  match v with
  | JsUndefined | JsNull => false
  | JsBool b => b
  | JsNumber n => negb (n =? 0)
  | JsStr s => negb (String.eqb s EmptyString)
  | JsArray _ | JsObject _ => true
  end.

(** [typeof v === 'object'] *)
Definition typeof_object (v : JsValue) : bool :=
  match v with
  | JsNull | JsArray _ | JsObject _ => true
  | _ => false
  end.

Fixpoint assoc (props : list (string * JsValue)) (k : string) : JsValue :=
  match props with
  | [] => JsUndefined
  | (k', v) :: rest => if String.eqb k' k then v else assoc rest k
  end.

(** [v.name] for a property name that neither arrays nor
    [Object.prototype] define ([files], [path]). *)
Definition get (v : JsValue) (name : string) : JsValue :=
  match v with
  | JsObject props => assoc props name
  | _ => JsUndefined
  end.

(** [Object.entries(v)] for an object or an array. *)
Definition entries (v : JsValue) : list (string * JsValue) :=
  match v with
  | JsObject props => props
  | JsArray items => imap (fun i x => (pretty i, x)) items
  | _ => []
  end.

(** A [FileTreeSpec] value: [{ files: [{ path, type }, ...] }]. *)
Definition fileTree (paths : list (string * string)) : JsValue :=
  JsObject [("files",
    JsArray (map (fun pt => JsObject [("path", JsStr (fst pt));
                                      ("type", JsStr (snd pt))]) paths))].

(** A [FileArtifactsSpec] value: [{ files: { path: content, ... } }]. *)
Definition fileArtifacts (files : list (string * string)) : JsValue :=
  JsObject [("files", JsObject (map (fun kv => (fst kv, JsStr (snd kv))) files))].

End Js.

(* ===================================================================== *)
(** ** Parsing gate ([parseModelOutput]) and the tree phase's validator *)
(* ===================================================================== *)

Module Parser.
Import JsString.

(** The body of [for (const f of files)] in [validateTreeSpec]. *)
Definition valid_tree_entry (f : JsValue) : bool :=
  if negb (Js.truthy f) || negb (Js.typeof_object f) then false
  else
    match Js.get f "path" with
    | JsStr p => negb (trim_is_empty p)
    | _ => false
    end.

(** [validateTreeSpec] *)
Definition validateTreeSpec (tree : JsValue) : bool :=
  if negb (Js.truthy tree) || negb (Js.typeof_object tree) then false
  else
    let files :=
      match Js.get tree "files" with
      | JsArray items => Some items
      | _ => match tree with JsArray items => Some items | _ => None end
      end in
    match files with
    | None => false
    | Some items => forallb valid_tree_entry items
    end.

(** [validateArtifactsSpec] *)
Definition validateArtifactsSpec (artifacts : JsValue) : bool :=
  if negb (Js.truthy artifacts) || negb (Js.typeof_object artifacts) then false
  else
    let files := Js.get artifacts "files" in
    if negb (Js.truthy files) || negb (Js.typeof_object files) then false
    else
      let kvs := Js.entries files in
      if (length kvs =? 0)%nat then false
      else
        forallb (fun kv =>
                   negb (trim_is_empty (fst kv)) &&
                   match snd kv with JsStr _ => true | _ => false end) kvs.

(** [CombinedModelOutput] *)
Record CombinedModelOutput := mkCombined {
  tree : JsValue;
  artifacts : JsValue;
  raw : string
}.

Section Gate.

(** [JSON.stringify], used only to fill [raw]. *)
Variable JSON_stringify : JsValue -> string.

(** [parseModelOutput]; [None] is [null]. *)
Definition parseModelOutput (tree artifacts : JsValue)
    : option CombinedModelOutput :=
  if negb (validateTreeSpec tree) then None
  else if negb (validateArtifactsSpec artifacts) then None
  else Some {| tree := tree;
               artifacts := artifacts;
               raw := JSON_stringify
                        (JsObject [("tree", tree); ("artifacts", artifacts)]) |}.

End Gate.

(** The paths a tree specification lists, whatever their legality. *)
Definition tree_paths (tree : JsValue) : list string :=
  match Js.get tree "files" with
  | JsArray items =>
      flat_map (fun f => match Js.get f "path" with
                         | JsStr p => [p]
                         | _ => []
                         end) items
  | _ => []
  end.

End Parser.

Module TreePhase.
Import JsString.

(** [isValidPath] of [src/lib/tree/tree-phase.ts] *)
Definition isValidPath (p : string) : bool :=
  if startsWith p "/" || startsWith p "\" then false
  else if includes p ".." then false
  else true.

(** [validateTree] of [src/lib/tree/tree-phase.ts] *)
Definition validateTree (tree : JsValue) : bool :=
  if negb (Js.truthy tree) || negb (Js.typeof_object tree) then false
  else
    match Js.get tree "files" with
    | JsArray items =>
        if (length items =? 0)%nat then false
        else forallb (fun f =>
               if negb (Js.truthy f) || negb (Js.typeof_object f) then false
               else match Js.get f "path" with
                    | JsStr p => isValidPath p
                    | _ => false
                    end) items
    | _ => false
    end.

End TreePhase.


(** A promise: fulfilled, rejected, or never settled. *)
Inductive Settled (A : Type) : Type :=
| Fulfilled (a : A)
| Rejected (reason : string)
| Pending.
Arguments Fulfilled {A} a.
Arguments Rejected {A} reason.
Arguments Pending {A}.

(* ===================================================================== *)
(** ** Sandbox runner ([runInSandbox], [runCommand]) *)
(* ===================================================================== *)

Module Sandbox.
Import Types JsString StaticEval.

(** How a spawned command ends, as [runCommand] observes it:
    [spawn] itself may throw, the process may emit [error], it may
    emit [close] with an exit code ([None] when a signal ended it,
    which is what follows the kill on timeout), or it may emit
    neither: the timer only calls [proc.kill()], and [close] waits
    for the output streams, which a surviving child of the shell can
    keep open. *)
Inductive ProcessOutcome :=
| SpawnThrows (message : string)
| ErrorEvent (output : list string) (message : string)
| Closes (output : list string) (timedOut : bool) (code : option Z)
| NeverCloses (output : list string).

(** [BrowserRunnerResult] *)
Record BrowserRunnerResult := mkBrowserResult {
  br_browserErrors : list BrowserError;
  br_browserLogs : list BrowserLog;
  br_externalAccess : list RuntimeExternalAccess
}.

(** The host the runner talks to: the [tmp], [fs] and
    [child_process] modules and the browser runner. *)
Record Host := mkHost {
  tmp_dirSync : Completion string;
  (** [fs.mkdirSync(dirname(p), ...)] then [fs.writeFileSync(p, content)];
      [Some message] when one of them throws *)
  fs_write : string -> string -> option string;
  fs_existsSync : string -> bool;
  spawn : string -> string -> ProcessOutcome;
  runInBrowser : string -> Settled BrowserRunnerResult;
  (** [path.resolve(__dirname, '../../../dist/fs-guard.js')] *)
  guardPath : string
}.

Definition dquote : string := String (ascii_of_nat 34) EmptyString.

(** [logs.push(line)] *)
Definition push (logs : list string) (line : string) : list string :=
  (logs ++ [line])%list.

(** [path.join(dir, name)]; the host functions above receive the
    joined path and give it its meaning. *)
Definition path_join (dir name : string) : string := dir ++ "/" ++ name.

(** [runCommand]: the promise of the exit code and the lines pushed
    on [logs]. *)
Definition runCommand (host : Host) (command cwd : string) (timeoutMs : Z)
    : Settled Z * list string :=
  match spawn host command cwd with
  | SpawnThrows e => (Rejected e, [])
  | ErrorEvent output e =>
      (Fulfilled 1, push output ("[Sandbox] Process error: " ++ e))
  | Closes output timedOut code =>
      (Fulfilled (default 1 code),
       if timedOut
       then push output
              ("[Sandbox] Timeout after " ++ pretty timeoutMs ++ "ms: " ++ command)
       else output)
  | NeverCloses output =>
      (Pending,
       push output
         ("[Sandbox] Timeout after " ++ pretty timeoutMs ++ "ms: " ++ command))
  end.

(** The loop that writes the artifact files; it stops at the first
    write that throws. *)
Fixpoint writeFiles (host : Host) (dir : string) (files : Files) : option string :=
  match files with
  | [] => None
  | (filePath, content) :: rest =>
      match fs_write host (path_join dir filePath) content with
      | Some e => Some e
      | None => writeFiles host dir rest
      end
  end.

(** What one call leaves behind: the settlement of the returned
    promise and how many times [cleanup] scheduled the deletion of
    the scratch directory. *)
Record Run := mkRun {
  settled : Settled SandboxResult;
  cleanups : nat
}.

Definition is_truthy_string (o : option string) : bool :=
  match o with
  | Some s => negb (String.eqb s EmptyString)
  | None => false
  end.

(** The part of the async body after the build step. *)
Definition runtimeStep (host : Host) (dir : string) (taskSpec : TaskSpec)
    (manifest : option SandboxManifest) (logs : list string) : Run :=
  let rt := runtime taskSpec in
  let runtimeType := match rt with Some r => rt_type r | None => None end in
  let entryPoint := match rt with Some r => rt_entry r | None => None end in
  if negb (is_truthy_string entryPoint) then
    mkRun (Fulfilled (mkSandboxResult true logs manifest None None None)) 1
  else
    let entryPoint := default EmptyString entryPoint in
    match runtimeType with
    | Some browser =>
        let html := if endsWith entryPoint ".html" then entryPoint else "index.html" in
        let htmlPath := path_join dir html in
        let logs := push logs ("[Sandbox] Browser Runtime: " ++ html) in
        if negb (fs_existsSync host htmlPath) then
          mkRun (Fulfilled (mkSandboxResult false
                   (push logs ("[Sandbox] Missing browser entry: " ++ html))
                   None None None None)) 1
        else
          match runInBrowser host htmlPath with
          | Fulfilled result =>
              let browserErrors := br_browserErrors result in
              let browserLogs := br_browserLogs result in
              let logs := push logs
                ("[Sandbox] Browser completed: " ++ pretty (length browserErrors)
                 ++ " errors, " ++ pretty (length browserLogs) ++ " logs") in
              mkRun (Fulfilled (mkSandboxResult
                       (length browserErrors =? 0)%nat logs manifest
                       (Some browserErrors) (Some browserLogs)
                       (Some (br_externalAccess result)))) 1
          | Rejected e =>
              mkRun (Fulfilled (mkSandboxResult false
                       (push logs ("[Sandbox] Browser crashed: " ++ e))
                       None None None None)) 1
          | Pending => mkRun Pending 0
          end
    | Some node =>
        let cmd := "node -r " ++ dquote ++ guardPath host ++ dquote
                   ++ " " ++ dquote ++ entryPoint ++ dquote in
        let logs := push (push logs ("[Sandbox] Node Runtime: " ++ entryPoint))
                         ("[Sandbox] Cmd: " ++ cmd) in
        match runCommand host cmd dir 5000 with
        | (Fulfilled code, out) =>
            mkRun (Fulfilled (mkSandboxResult (code =? 0) (logs ++ out)%list
                                manifest None None None)) 1
        | (Rejected _, _) | (Pending, _) =>
            (* the async body rejects; nothing calls [resolve] *)
            mkRun Pending 0
        end
    | None =>
        mkRun (Fulfilled (mkSandboxResult false
                 (push logs "[Sandbox] Unknown runtime type")
                 None None None None)) 1
    end.

(** The async body started inside the [try] block. *)
Definition asyncBody (host : Host) (dir : string) (taskSpec : TaskSpec)
    (manifest : option SandboxManifest) : Run :=
  let buildCommand :=
    match runtime taskSpec with Some r => rt_buildCommand r | None => None end in
  if is_truthy_string buildCommand then
    let cmd := default EmptyString buildCommand in
    let logs := ["[Sandbox] Build: " ++ cmd] in
    match runCommand host cmd dir 30000 with
    | (Fulfilled code, out) =>
        if negb (code =? 0) then
          mkRun (Fulfilled (mkSandboxResult false (logs ++ out)%list None
                              (Some []) (Some []) None)) 1
        else runtimeStep host dir taskSpec manifest (logs ++ out)%list
    | (Rejected _, _) | (Pending, _) => mkRun Pending 0
    end
  else runtimeStep host dir taskSpec manifest [].

(** [runInSandbox].  [tmp.dirSync] runs in the promise executor
    before the [try] block, so an exception it throws rejects the
    promise; an exception of the file-writing loop is caught and
    resolved as a failure. *)
Definition runInSandbox (host : Host) (files : option Files)
    (taskSpec : TaskSpec) (manifest : option SandboxManifest) : Run :=
  match tmp_dirSync host with
  | Thrown e => mkRun (Rejected e) 0
  | Returned dir =>
      match writeFiles host dir (default [] files) with
      | Some e =>
          mkRun (Fulfilled (mkSandboxResult false
                   ["[Sandbox] Internal error: " ++ e;
                    "[Sandbox] Internal error: " ++ e]
                   manifest None None None)) 2
      | None => asyncBody host dir taskSpec manifest
      end
  end.

(** A host on which every operation succeeds and the browser reports
    nothing. *)
Definition quiet_host : Host :=
  {| tmp_dirSync := Returned "/tmp/tmp-1";
     fs_write := fun _ _ => None;
     fs_existsSync := fun _ => true;
     spawn := fun _ _ => Closes [] false (Some 0);
     runInBrowser := fun _ => Fulfilled (mkBrowserResult [] [] []);
     guardPath := "/app/dist/fs-guard.js" |}.

(** A host whose temporary directory cannot be created. *)
Definition host_without_tmp : Host :=
  {| tmp_dirSync := Thrown "ENOSPC: no space left on device, mkdir";
     fs_write := fun _ _ => None;
     fs_existsSync := fun _ => true;
     spawn := fun _ _ => Closes [] false (Some 0);
     runInBrowser := fun _ => Fulfilled (mkBrowserResult [] [] []);
     guardPath := "/app/dist/fs-guard.js" |}.

End Sandbox.

(* ===================================================================== *)
(** ** Orchestrator ([runTask], [callWithTimeout]) *)
(* ===================================================================== *)

Module Orchestrator.
Import Types JsString StaticEval FinalEval.

Inductive Phase := phase_tree | phase_files.

(** [ModelRequest] *)
Record ModelRequest := mkRequest {
  taskId : string;
  req_size : Difficulty;
  req_description : string;
  req_expectedArtifacts : list string;
  phase : Phase
}.

(** [ModelGenerateFnOutput]; [usage] holds [totalTokens]. *)
Record ModelGenerateFnOutput := mkOutput {
  out_tree : option JsValue;
  out_artifacts : option JsValue;
  out_logs : list string;
  usage : option Z
}.

(** The promise a generation call returns: it fulfils or rejects
    after some milliseconds, or it never settles. *)
Inductive ModelCall :=
| Resolves (latencyMs : Z) (output : ModelGenerateFnOutput)
| Rejects (latencyMs : Z) (reason : string)
| NeverSettles.

(** [ModelGenerateFn] *)
Definition ModelGenerateFn := ModelRequest -> ModelCall.

(** [TIME_BUDGETS] / [getTimeBudget] *)
Definition getTimeBudget (size : Difficulty) : Z :=
  match size with
  | XS => 30000
  | S => 60000
  | M => 120000
  | L => 300000
  | XL => 600000
  end.

Definition is_XL (size : Difficulty) : bool :=
  match size with XL => true | _ => false end.

(** What [callWithTimeout] resolves to: [{ result?, timeout? }]. *)
Record CallResult := mkCallResult {
  result : option ModelGenerateFnOutput;
  timeout : bool
}.

(** [callWithTimeout] at clock value [now]: the settlement and the
    clock value when it settles.  Outside the XL tier the call is
    simply awaited.  In the XL tier it is raced against a timer of
    [deadline - now] milliseconds; a call that settles strictly
    before the timer wins the race, whether it fulfils or rejects. *)
Definition callWithTimeout (isXL : bool) (deadline now : Z) (call : ModelCall)
    : Settled CallResult * Z :=
  if negb isXL then
    match call with
    | Resolves d o => (Fulfilled (mkCallResult (Some o) false), now + d)
    | Rejects d e => (Rejected e, now + d)
    | NeverSettles => (Pending, now)
    end
  else
    let remaining := deadline - now in
    if remaining <=? 0 then (Fulfilled (mkCallResult None true), now)
    else
      match call with
      | Resolves d o =>
          if d <? remaining
          then (Fulfilled (mkCallResult (Some o) false), now + d)
          else (Fulfilled (mkCallResult None true), now + remaining)
      | Rejects d e =>
          if d <? remaining
          then (Rejected e, now + d)
          else (Fulfilled (mkCallResult None true), now + remaining)
      | NeverSettles => (Fulfilled (mkCallResult None true), now + remaining)
      end.

(** [LogEntry] *)
Record LogEntry := mkLog {
  log_timestamp : Z;
  log_message : string
}.

(** [toLogEntries] (every entry has level [info]) *)
Definition toLogEntries (now : Z) (lines : list string) : list LogEntry :=
  map (mkLog now) lines.

(** [ExecutionArtifacts] *)
Record ExecutionArtifacts := mkArtifacts {
  html : string;
  art_logs : list LogEntry;
  art_errors : option (list string);
  files : Files
}.

(** The [metadata] of an [ExecutionResult].  Time tracking and the
    ECI disclosure are descriptive fields that no branch reads; they
    are left out. *)
Record Metadata := mkMeta {
  md_taskId : string;
  md_tree : option JsValue;
  combined : option Parser.CombinedModelOutput;
  staticScore : ScoreBreakdown;
  runtimeScore : option Q;
  finalResult : FinalEvaluationResult;
  md_infrastructureTimeout : bool;
  md_browserErrors : option (list BrowserError);
  md_browserLogs : option (list BrowserLog);
  evalTokens : Z
}.

(** [ExecutionResult] *)
Record ExecutionResult := mkResult {
  artifacts : ExecutionArtifacts;
  res_logs : list LogEntry;
  metadata : Metadata
}.

(** The calls [runTask] makes on its collaborators, in order. *)
Inductive Call :=
| CallModel (req : ModelRequest)
| CallParse
| CallStatic
| CallSandbox
| CallRuntimeEval
| CallFinal (runtimeScore : option Q)
| CallBenchmark (score : Z).

Record Run := mkRun {
  outcome : Settled ExecutionResult;
  calls : list Call
}.

(** The calls made on the generation collaborator. *)
Definition isModelCall (c : Call) : Prop :=
  match c with CallModel _ => True | _ => False end.

(** The literal [staticScore] of the generation-failure paths. *)
Definition zeroStatic : ScoreBreakdown := mkBreakdown 0 0 0 0 [].

(** The literal [staticScore] used when the parsing gate rejected. *)
Definition invalidStatic : ScoreBreakdown := mkBreakdown (1 # 2) 0 0 0 [].

(** [taskSpec.runtime?.entry || taskSpec.runtime?.buildCommand ? 0 : null] *)
Definition fallbackRuntimeScore (taskSpec : TaskSpec) : option Q :=
  match runtime taskSpec with
  | Some r =>
      if Sandbox.is_truthy_string (rt_entry r) ||
         Sandbox.is_truthy_string (rt_buildCommand r)
      then Some 0%Q else None
  | None => None
  end.

Definition with_timeout_note (infrastructureTimeout : bool)
    (f : FinalEvaluationResult) : FinalEvaluationResult :=
  if infrastructureTimeout then
    {| totalScore := totalScore f;
       breakdown_static := breakdown_static f;
       breakdown_runtime := breakdown_runtime f;
       notes := notes f ++ ["Infrastructure Timeout Triggered"];
       errors := errors f;
       recommendedFixes := recommendedFixes f;
       failureLayer := failureLayer f;
       infrastructureTimeout := true;
       runtimeReport := runtimeReport f;
       final_failureAnnotations := final_failureAnnotations f |}
  else f.

Definition with_timeout_flag (infrastructureTimeout : bool)
    (f : FinalEvaluationResult) : FinalEvaluationResult :=
  if infrastructureTimeout then
    {| totalScore := totalScore f;
       breakdown_static := breakdown_static f;
       breakdown_runtime := breakdown_runtime f;
       notes := notes f;
       errors := errors f;
       recommendedFixes := recommendedFixes f;
       failureLayer := failureLayer f;
       infrastructureTimeout := true;
       runtimeReport := runtimeReport f;
       final_failureAnnotations := final_failureAnnotations f |}
  else f.

(** The block shared by the two generation-failure returns ("tree
    missing or timeout", "artifacts missing or timeout"). *)
Definition generationFailure (taskSpec : TaskSpec) (phaseName : string)
    (tree : option JsValue) (infrastructureTimeout : bool)
    (taskEvalTokens : Z) (made : list Call) : Run :=
  let artifacts :=
    {| html := EmptyString; art_logs := [];
       art_errors := if infrastructureTimeout
                     then Some ["Infrastructure Timeout during " ++ phaseName ++ " Phase"]
                     else None;
       files := [] |} in
  let runtimeScore := fallbackRuntimeScore taskSpec in
  let finalResult :=
    with_timeout_note infrastructureTimeout
      (evaluateFinal zeroStatic runtimeScore no_metadata) in
  let made := (made ++ [CallFinal runtimeScore])%list in
  let made := if infrastructureTimeout then made
              else (made ++ [CallBenchmark (totalScore finalResult)])%list in
  {| outcome := Fulfilled
       {| artifacts := artifacts;
          res_logs := [];
          metadata :=
            {| md_taskId := id taskSpec;
               md_tree := tree;
               combined := None;
               staticScore := zeroStatic;
               runtimeScore := runtimeScore;
               finalResult := finalResult;
               md_infrastructureTimeout := infrastructureTimeout;
               md_browserErrors := None;
               md_browserLogs := None;
               evalTokens := taskEvalTokens |} |};
     calls := made |}.

(** [!tree]: absent or a falsy value. *)
Definition present (v : option JsValue) : bool :=
  match v with
  | Some x => Js.truthy x
  | None => false
  end.

(** [combined.artifacts.files] read as a [Record<string, string>]. *)
Definition filesOf (artifactsSpec : JsValue) : Files :=
  map (fun kv => (fst kv, match snd kv with JsStr s => s | _ => EmptyString end))
      (Js.entries (Js.get artifactsSpec "files")).

(** [treeReq] and [filesReq] *)
Definition treeRequest (taskSpec : TaskSpec) : ModelRequest :=
  mkRequest (id taskSpec) (size taskSpec) (description taskSpec)
            (expectedArtifacts taskSpec) phase_tree.

Definition filesRequest (taskSpec : TaskSpec) : ModelRequest :=
  mkRequest (id taskSpec) (size taskSpec) (description taskSpec)
            (expectedArtifacts taskSpec) phase_files.

(** [needsRuntime] *)
Definition needsRuntime (taskSpec : TaskSpec) : bool :=
  match size taskSpec with
  | M | L | XL => true
  | XS | S => false
  end.

Section Pipeline.

(** The collaborators of [runTask]: the static evaluator (whose
    lint stage and scratch directory make it a promise), the host
    of the sandbox runner, and the helpers that only fill
    descriptive fields. *)
Variable evaluateStatic :
  ExecutionArtifacts -> TaskSpec -> option SandboxManifest -> Settled ScoreBreakdown.
Variable host : Sandbox.Host.
Variable JSON_stringify : JsValue -> string.
Variable sha256 : string -> string.
Variable toISOString : Z -> string.

(** Steps 3 to 8 of [runTask], once both generation calls have
    delivered a tree and artifacts. *)
Definition gradeArtifacts (taskSpec : TaskSpec) (now : Z)
    (treeOutput filesOutput : ModelGenerateFnOutput)
    (tree artifactsSpec : JsValue)
    (infrastructureTimeout : bool) (taskEvalTokens : Z)
    (made : list Call) : Run :=
  let allLogs := (toLogEntries now (out_logs treeOutput) ++
                  toLogEntries now (out_logs filesOutput))%list in
  (* 4) parsing gate *)
  let combined := Parser.parseModelOutput JSON_stringify tree artifactsSpec in
  let made := (made ++ [CallParse])%list in
  let valid := match combined with Some _ => true | None => false end in
  (* 5) artifacts *)
  let artifacts :=
    {| html := match combined with
               | Some _ => file_content (filesOf artifactsSpec) "index.html"
               | None => EmptyString
               end;
       art_logs := allLogs;
       art_errors := None;
       files := match combined with
                | Some c => filesOf (Parser.artifacts c)
                | None => []
                end |} in
  (* 5.5) sandbox manifest *)
  let sandboxManifest :=
    if valid then
      Some {| entry := match runtime taskSpec with
                       | Some r => if Sandbox.is_truthy_string (rt_entry r)
                                   then default EmptyString (rt_entry r)
                                   else EmptyString
                       | None => EmptyString
                       end;
              filesMounted := map fst (files artifacts);
              fileHashes := map (fun kv => (fst kv, sha256 (snd kv))) (files artifacts);
              generatedAt := toISOString now |}
    else None in
  (* 6) static evaluation *)
  let staticRun :=
    if valid then (evaluateStatic artifacts taskSpec sandboxManifest,
                   (made ++ [CallStatic])%list)
    else (Fulfilled invalidStatic, made) in
  match staticRun with
  | (Rejected e, made) => mkRun (Rejected e) made
  | (Pending, made) => mkRun Pending made
  | (Fulfilled staticScore, made) =>
      (* 7) runtime execution and evaluation *)
      if needsRuntime taskSpec && valid then
        let sandboxRun :=
          Sandbox.runInSandbox host (Some (files artifacts)) taskSpec sandboxManifest in
        let made := (made ++ [CallSandbox])%list in
        match Sandbox.settled sandboxRun with
        | Rejected e => mkRun (Rejected e) made
        | Pending => mkRun Pending made
        | Fulfilled sandboxResult =>
            let ev := RuntimeEval.evaluateRuntime sandboxResult taskSpec in
            let made := (made ++ [CallRuntimeEval])%list in
            let runtimeScore := Some (inject_Z (RuntimeEval.score ev)) in
            let sandboxLogs := map (mkLog now) (logs sandboxResult) in
            let reported :=
              match browserErrors sandboxResult, browserLogs sandboxResult with
              | None, None => false
              | _, _ => true
              end in
            (* [sandboxResultForMetadata] is rebuilt without the
               annotations when the browser lists are present *)
            let runtimeAnnotations :=
              if reported then [] else RuntimeEval.rt_failureAnnotations ev in
            let browserLine :=
              if reported then
                [mkLog now
                   ("Browser validation: "
                    ++ pretty (length (default [] (browserErrors sandboxResult)))
                    ++ " errors, "
                    ++ pretty (length (default [] (browserLogs sandboxResult)))
                    ++ " logs")]
              else [] in
            let artifacts :=
              {| html := html artifacts;
                 art_logs := (art_logs artifacts ++ sandboxLogs ++ browserLine)%list;
                 art_errors := art_errors artifacts;
                 files := files artifacts |} in
            let mergedAnnotations :=
              (failureAnnotations staticScore ++ runtimeAnnotations)%list in
            let finalResult :=
              with_timeout_flag infrastructureTimeout
                (evaluateFinal staticScore runtimeScore
                   {| difficulty := Some (size taskSpec);
                      parseStatus := None;
                      meta_browserErrors := browserErrors sandboxResult;
                      meta_runtimeErrors := Some (RuntimeEval.runtimeErrors ev);
                      meta_runtimeWarnings := Some (RuntimeEval.runtimeWarnings ev);
                      meta_failureAnnotations := Some mergedAnnotations |}) in
            let made := (made ++ [CallFinal runtimeScore])%list in
            let made := if infrastructureTimeout then made
                        else (made ++ [CallBenchmark (totalScore finalResult)])%list in
            {| outcome := Fulfilled
                 {| artifacts := artifacts;
                    res_logs := art_logs artifacts;
                    metadata :=
                      {| md_taskId := id taskSpec;
                         md_tree := Some tree;
                         combined := combined;
                         staticScore := staticScore;
                         runtimeScore := runtimeScore;
                         finalResult := finalResult;
                         md_infrastructureTimeout := infrastructureTimeout;
                         md_browserErrors := browserErrors sandboxResult;
                         md_browserLogs := browserLogs sandboxResult;
                         evalTokens := taskEvalTokens |} |};
               calls := made |}
        end
      else
        let runtimeScore : option Q := None in
        let finalResult :=
          with_timeout_flag infrastructureTimeout
            (evaluateFinal staticScore runtimeScore
               {| difficulty := Some (size taskSpec);
                  parseStatus := None;
                  meta_browserErrors := None;
                  meta_runtimeErrors := None;
                  meta_runtimeWarnings := None;
                  meta_failureAnnotations := Some (failureAnnotations staticScore) |}) in
        let made := (made ++ [CallFinal runtimeScore])%list in
        let made := if infrastructureTimeout then made
                    else (made ++ [CallBenchmark (totalScore finalResult)])%list in
        {| outcome := Fulfilled
             {| artifacts := artifacts;
                res_logs := art_logs artifacts;
                metadata :=
                  {| md_taskId := id taskSpec;
                     md_tree := Some tree;
                     combined := combined;
                     staticScore := staticScore;
                     runtimeScore := runtimeScore;
                     finalResult := finalResult;
                     md_infrastructureTimeout := infrastructureTimeout;
                     md_browserErrors := None;
                     md_browserLogs := None;
                     evalTokens := taskEvalTokens |} |};
           calls := made |}
  end.

Definition tokens (r : CallResult) : Z :=
  match result r with
  | Some o => default 0 (usage o)
  | None => 0
  end.

(** [runTask], started at clock value [startMs]. *)
Definition runTask (taskSpec : TaskSpec) (modelGenerateFn : ModelGenerateFn)
    (startMs : Z) : Run :=
  let timeBudget := default (getTimeBudget (size taskSpec)) (timeBudgetMs taskSpec) in
  let deadline := startMs + timeBudget in
  let isXL := is_XL (size taskSpec) in
  (* 1) tree phase *)
  let treeReq := treeRequest taskSpec in
  let treeCalled : list Call :=
    if isXL && (deadline - startMs <=? 0) then [] else [CallModel treeReq] in
  match callWithTimeout isXL deadline startMs (modelGenerateFn treeReq) with
  | (Rejected e, _) => mkRun (Rejected e) treeCalled
  | (Pending, _) => mkRun Pending treeCalled
  | (Fulfilled treeCallResult, now) =>
      let taskEvalTokens := tokens treeCallResult in
      let infrastructureTimeout := timeout treeCallResult in
      let treeOutput := result treeCallResult in
      let tree := match treeOutput with Some o => out_tree o | None => None end in
      if negb (present tree) || infrastructureTimeout then
        generationFailure taskSpec "Tree" None infrastructureTimeout
          taskEvalTokens treeCalled
      else
        (* 2) files phase *)
        let filesReq := filesRequest taskSpec in
        let filesCalled : list Call :=
          if isXL && (deadline - now <=? 0) then treeCalled
          else (treeCalled ++ [CallModel filesReq])%list in
        match callWithTimeout isXL deadline now (modelGenerateFn filesReq) with
        | (Rejected e, _) => mkRun (Rejected e) filesCalled
        | (Pending, _) => mkRun Pending filesCalled
        | (Fulfilled filesCallResult, now) =>
            let taskEvalTokens := taskEvalTokens + tokens filesCallResult in
            let infrastructureTimeout := timeout filesCallResult in
            let filesOutput := result filesCallResult in
            let artifactsSpec :=
              match filesOutput with Some o => out_artifacts o | None => None end in
            if negb (present artifactsSpec) || infrastructureTimeout then
              generationFailure taskSpec "Files" tree infrastructureTimeout
                taskEvalTokens filesCalled
            else
              match treeOutput, filesOutput, tree, artifactsSpec with
              | Some to, Some fo, Some t, Some a =>
                  gradeArtifacts taskSpec now to fo t a
                    infrastructureTimeout taskEvalTokens filesCalled
              | _, _, _, _ =>
                  (* excluded by the two tests above *)
                  generationFailure taskSpec "Files" tree infrastructureTimeout
                    taskEvalTokens filesCalled
              end
        end
  end.

End Pipeline.

End Orchestrator.

(* ===================================================================== *)
(** ** Static evaluator: the other sub-checks and sections 1, 2 and 4 *)
(* ===================================================================== *)

Module StaticChecks.
Import Registry Types JsString StaticEval.

(** [{ ...a, filePath: f }] *)
Definition with_filePath (f : string) (a : FailureAnnotation) : FailureAnnotation :=
  {| ruleId := ruleId a; severity := severity a; layer := layer a;
     category := category a; message := message a;
     filePath := Some f; timestamp := timestamp a; evidence := evidence a |}.

(** [Object.keys(v)]: it throws on [null] and [undefined], boxes the
    other primitives, and lists the indices of a string or an array. *)
Definition Object_keys (v : JsValue) : Completion (list string) :=
  match v with
  | JsUndefined | JsNull =>
      Thrown "TypeError: Cannot convert undefined or null to object"
  | JsBool _ | JsNumber _ => Returned []
  | JsStr s => Returned (map pretty (seq 0 (length_utf16 s)))
  | JsArray items => Returned (map fst (Js.entries (JsArray items)))
  | JsObject props => Returned (map fst props)
  end.

(** [Object.values(v)] for an object or an array. *)
Definition Object_values (v : JsValue) : list JsValue := map snd (Js.entries v).

(** The equality of [Set] members (SameValueZero) on freshly parsed
    values: primitives compare by value, and two arrays or objects
    are never the same reference. *)
Definition sameValueZero (a b : JsValue) : bool :=
  match a, b with
  | JsUndefined, JsUndefined => true
  | JsNull, JsNull => true
  | JsBool x, JsBool y => Bool.eqb x y
  | JsNumber x, JsNumber y => (x =? y)%Z
  | JsStr x, JsStr y => String.eqb x y
  | _, _ => false
  end.

(** [new Set(values)], in insertion order. *)
Fixpoint Set_of (values : list JsValue) : list JsValue :=
  match values with
  | [] => []
  | v :: rest =>
      v :: List.filter (fun w => negb (sameValueZero v w)) (Set_of rest)
  end.

(** [typeof r === 'string' && r.trim().length > 0] *)
Definition nonblank_string (r : JsValue) : bool :=
  match r with
  | JsStr s => negb (trim_is_empty s)
  | _ => false
  end.

(** [s.split(/\s+/)]: [cur] holds the current piece in reverse,
    [inSep] tells that the previous character was white space. *)
Fixpoint split_ws_from (s cur : string) (inSep : bool) : list string :=
  match s with
  | EmptyString => [reverse cur]
  | String c rest =>
      let close (pieces : list string) :=
        if inSep then pieces else reverse cur :: pieces in
      if is_space c then close (split_ws_from rest EmptyString true)
      else
        match rest with
        | String d rest2 =>
            if is_space2 c d then close (split_ws_from rest2 EmptyString true)
            else
              match rest2 with
              | String e rest3 =>
                  if is_space3 c d e
                  then close (split_ws_from rest3 EmptyString true)
                  else split_ws_from rest (String c cur) false
              | EmptyString => split_ws_from rest (String c cur) false
              end
        | EmptyString => split_ws_from rest (String c cur) false
        end
  end.

Definition split_ws (s : string) : list string := split_ws_from s EmptyString false.

(** [new Set(names)] for strings, in insertion order. *)
Fixpoint string_set (names : list string) : list string :=
  match names with
  | [] => []
  | x :: rest => x :: List.filter (fun y => negb (String.eqb x y)) (string_set rest)
  end.

Section Evaluator.

(** [String.prototype.toLowerCase] *)
Variable toLowerCase : string -> string.

(** [JSON.parse]; [None] when it throws.  An object it returns has
    distinct keys. *)
Variable JSON_parse : string -> option JsValue.

(** The capture groups of the six [matchAll] scans of
    [evaluateScriptBinding], in match order: the [getElementById],
    [getElementsByClassName], [querySelector('#..')] and
    [querySelector('.. ')] scans of the joined scripts, and the [id=]
    and [class=] scans of the joined markup. *)
Variable scan_getElementById : string -> list string.
Variable scan_getElementsByClassName : string -> list string.
Variable scan_querySelector_id : string -> list string.
Variable scan_querySelector_class : string -> list string.
Variable scan_html_id : string -> list string.
Variable scan_html_class : string -> list string.

(** [structure.toFixed(2)] *)
Variable toFixed2 : Q -> string.

(** [evaluateRouteConsistency] *)
Definition evaluateRouteConsistency (files : Files)
    : SubScore * list FailureAnnotation :=
  let routesContent := file_content files "routes.json" in
  if String.eqb routesContent EmptyString then (score0, [])
  else
    match JSON_parse routesContent with
    | None =>
        (score0,
         [with_filePath "routes.json"
            (makeFail def_PARSE_INVALID_JSON "routes.json is invalid JSON")])
    | Some routes =>
        if negb (Js.truthy routes) || negb (Js.typeof_object routes)
           || (length (Js.entries routes) =? 0)%nat
        then
          (score0,
           [with_severity warning
              (makeFail def_CONNECTIVITY_ROUTE_CONSISTENCY "routes.json is empty")])
        else
          let routeValues := Object_values routes in
          let nonEmpty := forallb nonblank_string routeValues in
          let hasDuplicates :=
            (length (Set_of routeValues) <? length routeValues)%nat in
          if nonEmpty && negb hasDuplicates then (score1, [])
          else
            (score05,
             [with_severity warning
                (makeFail def_CONNECTIVITY_ROUTE_CONSISTENCY
                   ("routes.json issues: "
                    ++ (if negb nonEmpty then "Empty entries. " else EmptyString)
                    ++ (if hasDuplicates then "Duplicate targets. " else EmptyString)))])
    end.

(** The [filter] of [scanContent]: every file but [api.json] that is
    markup, script or the routes file. *)
Definition scanned (k : string) : bool :=
  negb (String.eqb k "api.json") &&
  (endsWith k ".html" || endsWith k ".js" || String.eqb k "routes.json").

Definition scanContent (files : Files) : string :=
  join newline (map snd (List.filter (fun kv => scanned (fst kv)) files)).

(** [evaluateApiSchemaLinkage] *)
Definition evaluateApiSchemaLinkage (files : Files)
    : SubScore * list FailureAnnotation :=
  let apiContent := file_content files "api.json" in
  if String.eqb apiContent EmptyString then (score1, [])
  else
    let parsedKeys :=
      match JSON_parse apiContent with
      | None => None
      | Some api =>
          match Object_keys api with
          | Returned keys => Some keys
          | Thrown _ => None
          end
      end in
    match parsedKeys with
    | None =>
        (score0, [makeFail def_PARSE_INVALID_JSON "api.json is invalid JSON"])
    | Some apiKeys =>
        if (length apiKeys =? 0)%nat then (score1, [])
        else
          let content := scanContent files in
          if trim_is_empty content then
            (score0,
             [makeFail def_CONNECTIVITY_SCHEMA_MISMATCH
                "No code content found to implement API schema"])
          else if existsb (fun k => includes content k) apiKeys then (score1, [])
          else
            let lowerContent := toLowerCase content in
            if existsb (fun k => includes lowerContent (toLowerCase k)) apiKeys then
              (score05,
               [with_severity warning
                  (makeFail def_CONNECTIVITY_SCHEMA_MISMATCH
                     "API keys found but case-mismatched (StrictSchema=0.5)")])
            else
              (score0,
               [with_evidence (EvExpected (join ", " apiKeys) (Some "None"))
                  (makeFail def_CONNECTIVITY_SCHEMA_MISMATCH
                     "None of the keys in api.json are referenced in code")])
    end.

(** [missingBindings.slice(0, 3)] *)
Definition first_three (l : list string) : list string := firstn 3 l.

(** [evaluateScriptBinding] *)
Definition evaluateScriptBinding (files : Files)
    : SubScore * list FailureAnnotation :=
  let fileNames := map fst files in
  let jsFiles := List.filter (fun f => endsWith f ".js") fileNames in
  let htmlFiles := List.filter (fun f => endsWith f ".html") fileNames in
  if (length jsFiles =? 0)%nat || (length htmlFiles =? 0)%nat then
    if (0 <? length jsFiles)%nat && (length htmlFiles =? 0)%nat then
      (score0,
       [makeFail def_CONNECTIVITY_BROKEN_BINDING
          "JS files exist but no HTML to bind them"])
    else (score0, [])
  else
    let jsContent := join newline (map (file_content files) jsFiles) in
    let htmlContent := join newline (map (file_content files) htmlFiles) in
    let jsIds :=
      string_set (scan_getElementById jsContent ++ scan_querySelector_id jsContent) in
    let jsClasses :=
      string_set (scan_getElementsByClassName jsContent
                  ++ scan_querySelector_class jsContent) in
    let htmlIds := string_set (scan_html_id htmlContent) in
    let htmlClasses :=
      string_set (flat_map split_ws (scan_html_class htmlContent)) in
    let hasJsSelectors := (0 <? length jsIds)%nat || (0 <? length jsClasses)%nat in
    let hasHtmlElements := (0 <? length htmlIds)%nat || (0 <? length htmlClasses)%nat in
    if negb hasJsSelectors && negb hasHtmlElements then
      (score0,
       [with_severity warning
          (makeFail def_CONNECTIVITY_BROKEN_BINDING
             "No DOM selectors found in JS or IDs/Classes in HTML")])
    else
      let has (set : list string) (x : string) := existsb (String.eqb x) set in
      let matchFound := existsb (has htmlIds) jsIds || existsb (has htmlClasses) jsClasses in
      let missingBindings :=
        (map (String.append "#") (List.filter (fun i => negb (has htmlIds i)) jsIds)
         ++ map (String.append ".")
              (List.filter (fun c => negb (has htmlClasses c)) jsClasses))%list in
      if matchFound then (score1, [])
      else
        (score05,
         [with_evidence (EvExpected (join ", " missingBindings) None)
            (with_severity warning
               (makeFail def_CONNECTIVITY_BROKEN_BINDING
                  ("DOM bindings mismatch. JS expects: "
                   ++ join ", " (first_three missingBindings)
                   ++ (if (3 <? length missingBindings)%nat then "..."
                       else EmptyString))))]).

(** The per-extension sanity check of section 2. *)
Definition validFile (file content : string) : bool :=
  if endsWith file ".html" then
    includes content "<!DOCTYPE" && includes content "<html" && includes content "<body"
  else if endsWith file ".json" then
    match JSON_parse content with Some _ => true | None => false end
  else negb (trim_is_empty content).

(** What sections 1 to 4 of [evaluateStatic] compute; the lint stage
    that follows only adds the L2 annotations of its level-A findings. *)
Record StaticSections := mkSections {
  sec_completeness : Q;
  sec_structure : Q;
  sec_connectivity : ConnectivityResult;
  sec_survivability : Q;
  sec_annotations : list FailureAnnotation
}.

(** [requiredFiles.filter(f => !fileNames.includes(f))] *)
Definition missingFiles (files : Files) (requiredFiles : list string) : list string :=
  List.filter (fun f => negb (existsb (String.eqb f) (map fst files))) requiredFiles.

(** Sections 1 to 4 of [evaluateStatic]. *)
Definition staticSections (files : Files) (taskSpec : TaskSpec) : StaticSections :=
  let fileNames := map fst files in
  let required := requiredFiles taskSpec in
  (* 1. completeness *)
  let allRequiredPresent :=
    forallb (fun f => existsb (String.eqb f) fileNames) required in
  let allNonEmpty :=
    forallb (fun f => existsb (String.eqb f) fileNames
                      && negb (trim_is_empty (file_content files f))) required in
  let completeness : Q := if allRequiredPresent && allNonEmpty then 1%Q else (1 # 2)%Q in
  let a1 :=
    if allRequiredPresent && allNonEmpty then []
    else if negb allRequiredPresent then
      [with_evidence (EvMissingFiles (missingFiles files required))
         (makeFail def_PARSE_MISSING_TREE
            ("Missing required files: " ++ join ", " (missingFiles files required)))]
    else [makeFail def_PARSE_MISSING_ARTIFACTS "Some required files are empty"] in
  (* 2. structure *)
  let validCount :=
    length (List.filter (fun file => validFile file (file_content files file)) fileNames) in
  let structure : Q :=
    if (0 <? length fileNames)%nat
    then (inject_Z (Z.of_nat validCount) / inject_Z (Z.of_nat (length fileNames)))%Q
    else 0%Q in
  let a2 :=
    if negb (Qle_bool 1 structure) then
      [makeFail def_PARSE_INVALID_JSON
         ("Use of malformed files detected (Structure Score: "
          ++ toFixed2 structure ++ ")")]
    else [] in
  (* 3. connectivity *)
  let conn :=
    evaluateConnectivity toLowerCase evaluateScriptBinding evaluateApiSchemaLinkage
      evaluateRouteConsistency files taskSpec in
  (* 4. survivability *)
  let survivability : Q :=
    if allRequiredPresent && allNonEmpty then
      if Qle_bool (1 # 2) structure && Qle_bool (1 # 2) (connectivityScore conn)
      then 1%Q else 0%Q
    else 0%Q in
  {| sec_completeness := completeness;
     sec_structure := structure;
     sec_connectivity := conn;
     sec_survivability := survivability;
     sec_annotations := (a1 ++ a2 ++ connectivityAnnotations conn)%list |}.

End Evaluator.

End StaticChecks.

(* ===================================================================== *)
(** ** Benchmark accumulator ([addToBenchmark], [getBenchmarkScore]) *)
(* ===================================================================== *)

Module Benchmark.
Import Types FinalEval.

(** An element of [perTask]. *)
Record TaskEntry := mkEntry {
  pt_taskId : string;
  pt_size : Difficulty;
  pt_score : Z;
  pt_weight : Q
}.

(** The optional [esg] argument of [addToBenchmark]. *)
Record EsgData := mkEsgData {
  esg_evalTokens : Q;
  esg_parameterScale : Q;
  esg_eciIndex : Q
}.

(** [EsgAnnotation] *)
Record EsgAnnotation := mkEsgAnnotation {
  ea_taskId : string;
  ea_size : Difficulty;
  ea_evalTokens : Q;
  ea_parameterScale : Q;
  ea_eciIndex : Q
}.

(** [BenchmarkAccumulator]; the module-level object is passed and
    returned explicitly. *)
Record BenchmarkAccumulator := mkAccumulator {
  weightedSum : Q;
  totalWeight : Q;
  acc_evalTokens : Q;
  eciTotal : Q;
  perTask : list TaskEntry;
  esgBreakdown : list EsgAnnotation
}.

(** The initial value of [benchmarkAccumulator]. *)
Definition benchmarkAccumulator : BenchmarkAccumulator :=
  mkAccumulator 0 0 0 0 [] [].

(** [addToBenchmark] *)
Definition addToBenchmark (acc : BenchmarkAccumulator) (taskId : string)
    (size : Difficulty) (score : Z) (esg : option EsgData) : BenchmarkAccumulator :=
  let weight := DIFFICULTY_WEIGHTS size in
  {| weightedSum := (weightedSum acc + inject_Z score * weight)%Q;
     totalWeight := (totalWeight acc + weight)%Q;
     perTask := (perTask acc ++ [mkEntry taskId size score weight])%list;
     acc_evalTokens :=
       match esg with
       | Some e => (acc_evalTokens acc + esg_evalTokens e)%Q
       | None => acc_evalTokens acc
       end;
     eciTotal :=
       match esg with
       | Some e => (eciTotal acc + esg_eciIndex e)%Q
       | None => eciTotal acc
       end;
     esgBreakdown :=
       match esg with
       | Some e =>
           (esgBreakdown acc ++
            [mkEsgAnnotation taskId size (esg_evalTokens e)
               (esg_parameterScale e) (esg_eciIndex e)])%list
       | None => esgBreakdown acc
       end |}.

(** [resetBenchmark] *)
Definition resetBenchmark (acc : BenchmarkAccumulator) : BenchmarkAccumulator :=
  mkAccumulator 0 0 0 0 [] [].

(** [getBenchmarkScore] *)
Definition getBenchmarkScore (acc : BenchmarkAccumulator) : Z :=
  if Qeq_bool (totalWeight acc) 0 then 0
  else Math_round (weightedSum acc / totalWeight acc).

(** One recorded task completion. *)
Record TaskCompletion := mkCompletion {
  done_taskId : string;
  done_size : Difficulty;
  done_score : Z;
  done_esg : option EsgData
}.

(** The accumulator after a sequence of [addToBenchmark] calls. *)
Definition addAll (acc : BenchmarkAccumulator) (runs : list TaskCompletion)
    : BenchmarkAccumulator :=
  fold_left (fun a r => addToBenchmark a (done_taskId r) (done_size r)
                          (done_score r) (done_esg r)) runs acc.

End Benchmark.

(* ===================================================================== *)
(** ** Eval Compute Index ([computeECI]) *)
(* ===================================================================== *)

Module Esg.

(** [computeECI]: [parameterScale] may be absent; both numbers are
    finite.  [None] is [null]. *)
Definition computeECI (evalTokens : Q) (parameterScale : option Q) : option Q :=
  match parameterScale with
  | None => None
  | Some scale =>
      if negb (Qle_bool 0 scale) then None
      else if negb (Qle_bool 0 evalTokens) then Some 0%Q
      else Some (evalTokens * scale / 10000)%Q
  end.

End Esg.

(* ===================================================================== *)
(** ** Tree phase ([enforceTreePhase]) *)
(* ===================================================================== *)

Module TreePhaseCall.
Import Types JsString Orchestrator TreePhase.

(** [TreePhaseError] *)
Inductive TreePhaseError :=
| ModelCallFailed
| InvalidTreeStructure
| MissingRequiredFile
| InvalidPath.

(** [TreePhaseInput] *)
Record TreePhaseInput := mkTreeInput {
  in_taskId : string;
  in_size : Difficulty;
  in_description : string;
  in_requiredFiles : option (list string)
}.

(** [TreePhaseOutput] *)
Inductive TreePhaseOutput :=
| TreeSuccess (tree : JsValue) (rawModelOutput : string) (logs : list string)
| TreeFailure (error : TreePhaseError) (rawModelOutput : string)
              (details : option string) (logs : list string).

(** [extractPaths] on a tree that passed [validateTree] *)
Definition extractPaths (tree : JsValue) : list string := Parser.tree_paths tree.

(** [findMissingRequiredFile]; [None] is [null]. *)
Definition findMissingRequiredFile (tree : JsValue)
    (required : option (list string)) : option string :=
  match required with
  | None => None
  | Some rs =>
      find (fun r => negb (existsb (String.eqb r) (extractPaths tree))) rs
  end.

Section Phase.

(** [safeStringify] of a model output and of the error record. *)
Variable safeStringify_output : ModelGenerateFnOutput -> string.
Variable safeStringify_error : string -> string.

(** [enforceTreePhase] *)
Definition enforceTreePhase (input : TreePhaseInput)
    (modelGenerateFn : ModelGenerateFn) : Settled TreePhaseOutput :=
  let req := mkRequest (in_taskId input) (in_size input) (in_description input)
               [] phase_tree in
  match modelGenerateFn req with
  | NeverSettles => Pending
  | Rejects _ e =>
      Fulfilled (TreeFailure ModelCallFailed (safeStringify_error e) (Some e) [])
  | Resolves _ modelOutput =>
      let rawModelOutput := safeStringify_output modelOutput in
      match out_tree modelOutput with
      | None =>
          Fulfilled (TreeFailure InvalidTreeStructure rawModelOutput
            (Some "Expected { files: [{ path: string, ... }] } with legal relative paths")
            [])
      | Some tree =>
          if negb (validateTree tree) then
            Fulfilled (TreeFailure InvalidTreeStructure rawModelOutput
              (Some "Expected { files: [{ path: string, ... }] } with legal relative paths")
              [])
          else
            match findMissingRequiredFile tree (in_requiredFiles input) with
            | Some missing =>
                if negb (String.eqb missing EmptyString) then
                  Fulfilled (TreeFailure MissingRequiredFile rawModelOutput
                               (Some missing) [])
                else Fulfilled (TreeSuccess tree rawModelOutput (out_logs modelOutput))
            | None =>
                Fulfilled (TreeSuccess tree rawModelOutput (out_logs modelOutput))
            end
      end
  end.

End Phase.

End TreePhaseCall.

(* ===================================================================== *)
(** ** Quantities the statements below talk about *)
(* ===================================================================== *)

Module Views.
Import Registry Types FinalEval.

(** The cap that the failure-layer block leads to. *)
Definition cap_of (annotations : list FailureAnnotation) (ps : option ParseStatus) : Z :=
  getScoreCap (fst (resolveFailureLayer annotations ps)).

(** Metadata with its annotation list replaced. *)
Definition with_annotations (m : FailureMetadata) (l : list FailureAnnotation)
    : FailureMetadata :=
  {| difficulty := difficulty m;
     parseStatus := parseStatus m;
     meta_browserErrors := meta_browserErrors m;
     meta_runtimeErrors := meta_runtimeErrors m;
     meta_runtimeWarnings := meta_runtimeWarnings m;
     meta_failureAnnotations := Some l |}.

(** An annotation that carries the layer and the category the registry
    gives for its rule, with the registry's severity or a downgrade to
    warning. *)
Definition from_registry (a : FailureAnnotation) : Prop :=
  exists d, getFailureDef (ruleId a) = Returned (OwnDefinition d) /\
            layer a = def_layer d /\ category a = def_category d /\
            (severity a = def_severity d \/ severity a = warning).

(** [log.type === 'console.warn'] *)
Definition is_console_warn (log : BrowserLog) : bool :=
  String.eqb (bl_type log) "console.warn".

(** What holds of a run of the async body or of its runtime part:
    the promise never rejects, the deletion of the scratch directory
    is scheduled once exactly when it fulfils, a pending promise has
    a cause, and a result that reports success is clean. *)
Definition sandbox_body_ok (host : Sandbox.Host) (manifest : option SandboxManifest)
    (run : Sandbox.Run) : Prop :=
  match Sandbox.settled run with
  | Fulfilled r =>
      Sandbox.cleanups run = 1%nat /\
      (success r = true ->
       (browserErrors r = None \/ browserErrors r = Some []) /\
       Types.manifest r = manifest)
  | Rejected _ => False
  | Pending =>
      Sandbox.cleanups run = 0%nat /\
      ((exists command cwd message,
           Sandbox.spawn host command cwd = Sandbox.SpawnThrows message) \/
       (exists command cwd output,
           Sandbox.spawn host command cwd = Sandbox.NeverCloses output) \/
       (exists htmlPath, Sandbox.runInBrowser host htmlPath = Pending))
  end.

(** A call made before the verdict: neither the final evaluation nor
    the benchmark update. *)
Definition before_verdict (c : Orchestrator.Call) : Prop :=
  match c with
  | Orchestrator.CallFinal _ | Orchestrator.CallBenchmark _ => False
  | _ => True
  end.

(** A generation call that does not settle within [budget]
    milliseconds. *)
Definition outlasts (budget : Z) (call : Orchestrator.ModelCall) : Prop :=
  match call with
  | Orchestrator.Resolves d _ | Orchestrator.Rejects d _ => budget <= d
  | Orchestrator.NeverSettles => True
  end.

(** The sum of a list of numbers. *)
Definition sumQ (l : list Q) : Q := fold_right Qplus 0%Q l.

(* VIEWS-END *)
End Views.

(* ===================================================================== *)
(** ** Concrete inputs used below *)
(* ===================================================================== *)

Module Examples.
Import Registry Types FinalEval.

(** Otherwise perfect static sub-scores. *)
Definition perfectStatic : ScoreBreakdown := mkBreakdown 1 1 1 1 [].

(** The annotation the runtime evaluator emits for an uncaught page
    error. *)
Definition pageCrash : FailureAnnotation :=
  makeFail def_RUNTIME_CRASH "ReferenceError: app is not defined".

Definition lintWarning : FailureAnnotation :=
  makeFail def_LINT_ESLINT_B "Unexpected console statement".

Definition brokenLink : FailureAnnotation :=
  makeFail def_CONNECTIVITY_BROKEN_LINK "Missing references to required files: main.js".

Definition crashMetadata : FailureMetadata :=
  mkMetadata (Some M) None None None None (Some [lintWarning; brokenLink; pageCrash]).

(** A page that loads a script under another name than the required
    [main.js]. *)
Definition pageWithOtherScript : StaticEval.Files :=
  [("index.html", "<!DOCTYPE html><html><body><script src='app.js'></script></body></html>");
   ("main.js", "console.log(1)")].

(** A page that mentions [main.js] and not [style.css]. *)
Definition pageWithoutStyle : StaticEval.Files :=
  [("index.html", "<!DOCTYPE html><html><body><script src='main.js'></script></body></html>");
   ("main.js", "console.log(1)"); ("style.css", "body{}")].

(** A page with no link or script marker at all. *)
Definition barePage : StaticEval.Files :=
  [("index.html", "<!DOCTYPE html><html><body><p>hello</p></body></html>")].

(** A bundle without any markup file. *)
Definition scriptOnly : StaticEval.Files := [("main.js", "console.log(1)")].

(** A sandbox result whose manifest declares the entry [index.js]
    while only [index.html] was mounted; the run itself succeeded. *)
Definition driftedManifest : SandboxManifest :=
  mkManifest "index.js" ["index.html"] [("index.html", "9f86d081")]
             "2025-01-01T00:00:00.000Z".

Definition driftedResult : SandboxResult :=
  mkSandboxResult true ["[Sandbox] Browser Runtime: index.html"]
    (Some driftedManifest) (Some []) (Some []) (Some []).

Definition anyTask : TaskSpec :=
  mkTaskSpec "m_task" M "Produce a page" ["index.html"] ["index.html"]
    (Some (mkRuntime (Some browser) None (Some "index.html"))) None.

(** A bundle whose tree lists a parent-traversal path and an absolute
    path, with matching content. *)
Definition escapingTree : JsValue :=
  Js.fileTree [("index.html", "html"); ("../../etc/cron.d/job", "text");
               ("/etc/passwd", "text")].

Definition escapingArtifacts : JsValue :=
  Js.fileArtifacts [("index.html", "<!DOCTYPE html><html><body></body></html>");
                    ("../../etc/cron.d/job", "* * * * * root id");
                    ("/etc/passwd", "root::0:0::/:/bin/sh")].

(** The same shape with a blank path. *)
Definition blankPathTree : JsValue :=
  Js.fileTree [("index.html", "html"); (" ", "text")].

(** [xs_task] of the catalog: tier XS with a browser entry. *)
Definition xsTask : TaskSpec :=
  mkTaskSpec "xs_task" XS
    "Produce a minimal static webpage with a valid HTML entry point."
    ["index.html"] ["index.html"]
    (Some (mkRuntime (Some browser) None (Some "index.html"))) None.

(** A collaborator whose promise rejects, as a client without
    credentials does. *)
Definition rejectingModel : Orchestrator.ModelGenerateFn :=
  fun _ => Orchestrator.Rejects 120 "401 Unauthorized".

(** A collaborator that answers the tree request and rejects the
    files request. *)
Definition halfwayModel : Orchestrator.ModelGenerateFn :=
  fun req =>
    match Orchestrator.phase req with
    | Orchestrator.phase_tree =>
        Orchestrator.Resolves 100
          (Orchestrator.mkOutput (Some (Js.fileTree [("index.html", "html")]))
             None ["tree ok"] (Some 10))
    | Orchestrator.phase_files => Orchestrator.Rejects 120 "socket hang up"
    end.


(** A collaborator that delivers the expected page. *)
Definition goodModel : Orchestrator.ModelGenerateFn :=
  fun req =>
    match Orchestrator.phase req with
    | Orchestrator.phase_tree =>
        Orchestrator.Resolves 100
          (Orchestrator.mkOutput (Some (Js.fileTree [("index.html", "html")]))
             None ["tree ok"] (Some 10))
    | Orchestrator.phase_files =>
        Orchestrator.Resolves 200
          (Orchestrator.mkOutput None
             (Some (Js.fileArtifacts
                      [("index.html", "<!DOCTYPE html><html><body></body></html>")]))
             ["files ok"] (Some 20))
    end.

(** A static evaluator that reports a complete, well-formed bundle. *)
Definition generousStatic :
    Orchestrator.ExecutionArtifacts -> TaskSpec -> option SandboxManifest ->
    Settled ScoreBreakdown :=
  fun _ _ _ => Fulfilled perfectStatic.

Definition stringify : JsValue -> string := fun _ => "{}".
Definition digest : string -> string := fun _ => "e3b0c442".
Definition isoTime : Z -> string := fun _ => "2025-01-01T00:00:00.000Z".

(** Annotations in two orders, and a list with one more entry. *)
Definition crashFirst : list FailureAnnotation := [pageCrash; brokenLink; lintWarning].
Definition crashLast : list FailureAnnotation := [lintWarning; brokenLink; pageCrash].

Definition invalidJson : FailureAnnotation :=
  makeFail def_PARSE_INVALID_JSON "routes.json is invalid JSON".

Definition missingTree : FailureAnnotation :=
  makeFail def_PARSE_MISSING_TREE "Missing required files: main.js".

(** Two runtime failures of the same layer, the crash seen first. *)
Definition consoleFailure : FailureAnnotation :=
  makeFail def_RUNTIME_CONSOLE_ERROR "Console Error: boom".

Definition twoRuntimeFailures : list FailureAnnotation :=
  [lintWarning; pageCrash; consoleFailure].

(** A JSON reader that knows two documents. *)
Definition tinyParse : string -> option JsValue :=
  fun text =>
    if String.eqb text "{}" then Some (JsObject [])
    else if String.eqb text "routes" then
      Some (JsObject [("home", JsStr "/"); ("about", JsStr "/about")])
    else if String.eqb text "dup" then
      Some (JsObject [("home", JsStr "/"); ("start", JsStr "/")])
    else if String.eqb text "api" then
      Some (JsObject [("userName", JsNumber 1)])
    else if String.eqb text "null" then Some JsNull
    else if String.eqb text "blank" then
      Some (JsObject [("home", JsStr (String (ascii_of_nat 194)
                                        (String (ascii_of_nat 160) EmptyString)))])
    else None.

Definition noScan : string -> list string := fun _ => [].

Definition fixed2 : Q -> string := fun _ => "0.50".

(** A bundle that lacks the required [main.js]. *)
Definition incompleteTask : TaskSpec :=
  mkTaskSpec "s_task" S "Page with a script" ["index.html"; "main.js"]
    ["index.html"; "main.js"] None None.

(** A run the sandbox reports as failed, with nothing observed. *)
Definition failedResult : SandboxResult :=
  mkSandboxResult false ["[Sandbox] Error: spawn ENOENT"] None None None None.

(** Accesses of the four kinds the audit tells apart. *)
Definition mountedAccess : RuntimeExternalAccess :=
  mkAccess "file:///tmp/sandbox/index.html" true.
Definition strayAccess : RuntimeExternalAccess :=
  mkAccess "file:///etc/passwd" false.
Definition cdnAccess : RuntimeExternalAccess :=
  mkAccess "https://cdn.example.com/lib.js" false.
Definition inlineAccess : RuntimeExternalAccess :=
  mkAccess "data:text/plain;base64,SGk=" true.

(** A browser error of a type the classifier has no branch for. *)
Definition oddError : BrowserError :=
  mkBrowserError "requestfailed" 17 "favicon.ico" None.

Definition noisyResult : SandboxResult :=
  mkSandboxResult true []
    (Some driftedManifest)
    (Some [mkBrowserError "pageerror" 3 "ReferenceError: app is not defined" None;
           oddError])
    (Some [mkBrowserLog "console.warn" 5 "deprecated"; mkBrowserLog "console.log" 6 "hi"])
    (Some [mountedAccess; strayAccess; cdnAccess; inlineAccess]).

(** A tree and an artifact map that name different files. *)
Definition unrelatedTree : JsValue := Js.fileTree [("src/app.js", "file")].
Definition unrelatedArtifacts : list (string * string) :=
  [("index.html", "<html></html>")].

(** Generation collaborators for the tree phase: one that lists a
    legal tree, one that rejects. *)
Definition treeModel : Orchestrator.ModelGenerateFn :=
  fun _ => Orchestrator.Resolves 40
             (Orchestrator.mkOutput
                (Some (Js.fileTree [("index.html", "file"); ("main.js", "file")]))
                None ["planned"] (Some 12)).

Definition treeInput : TreePhaseCall.TreePhaseInput :=
  TreePhaseCall.mkTreeInput "m_task" M "Produce a page" (Some ["index.html"]).

(** A task of the XL tier and a collaborator that never answers. *)
Definition xlTask : TaskSpec :=
  mkTaskSpec "xl_task" XL "Produce a multi-page application" ["index.html"] ["index.html"]
    (Some (mkRuntime (Some browser) None (Some "index.html"))) None.

Definition stalledModel : Orchestrator.ModelGenerateFn :=
  fun _ => Orchestrator.NeverSettles.

(** A collaborator whose tree has a blank path. *)
Definition blankTreeModel : Orchestrator.ModelGenerateFn :=
  fun req =>
    match Orchestrator.phase req with
    | Orchestrator.phase_tree =>
        Orchestrator.Resolves 100
          (Orchestrator.mkOutput (Some blankPathTree) None [] None)
    | Orchestrator.phase_files =>
        Orchestrator.Resolves 200
          (Orchestrator.mkOutput None (Some escapingArtifacts) [] None)
    end.

(** A host whose browser reports a page error. *)
Definition crashHost : Sandbox.Host :=
  {| Sandbox.tmp_dirSync := Returned "/tmp/tmp-2";
     Sandbox.fs_write := fun _ _ => None;
     Sandbox.fs_existsSync := fun _ => true;
     Sandbox.spawn := fun _ _ => Sandbox.Closes [] false (Some 0);
     Sandbox.runInBrowser := fun _ =>
       Fulfilled (Sandbox.mkBrowserResult
                    [mkBrowserError "pageerror" 3 "ReferenceError: app is not defined" None]
                    [] []);
     Sandbox.guardPath := "/app/dist/fs-guard.js" |}.

(** Three completions of different tiers. *)
Definition threeRuns : list Benchmark.TaskCompletion :=
  [Benchmark.mkCompletion "xs_task" XS 100 None;
   Benchmark.mkCompletion "m_task" M 30
     (Some (Benchmark.mkEsgData 1200 7 (84 # 100)));
   Benchmark.mkCompletion "xl_task" XL 0 None].

(** A page that names the script in capitals. *)
Definition shoutingPage : StaticEval.Files :=
  [("index.html", "<HTML><BODY><SCRIPT SRC='MAIN.JS'></SCRIPT></BODY></HTML>");
   ("main.js", "console.log(1)")].

(** Three failed loads reported by the browser, in runs that the
    sandbox flags as successful: a versioned script, whose address
    does not end in [.js]; a data file, whose message contains
    [.js]; and a plain script. *)
Definition versionedScriptFailure : SandboxResult :=
  mkSandboxResult true [] None
    (Some [mkBrowserError "network" 7 "net::ERR_CONNECTION_REFUSED"
             (Some "http://localhost:3000/app.js?v=2")])
    (Some []) (Some []).

Definition dataFileFailure : SandboxResult :=
  mkSandboxResult true [] None
    (Some [mkBrowserError "network" 7 "Failed to load http://localhost:3000/data.json"
             (Some "http://localhost:3000/data.json")])
    (Some []) (Some []).

Definition scriptFailure : SandboxResult :=
  mkSandboxResult true [] None
    (Some [mkBrowserError "network" 7 "net::ERR_ABORTED"
             (Some "http://localhost:3000/main.js")])
    (Some []) (Some []).

(** The no-break space U+00A0, two bytes in UTF-8: white space for
    [trim], although not an ASCII blank. *)
Definition nbsp : string :=
  String (ascii_of_nat 194) (String (ascii_of_nat 160) EmptyString).

(** A bundle whose page holds a no-break space and nothing else. *)
Definition blankPage : StaticEval.Files := [("index.html", nbsp)].

(** A host whose subprocesses never emit [close] nor [error], as a
    build whose grandchild keeps the pipes open; and a task that
    declares a build command. *)
Definition hangingHost : Sandbox.Host :=
  {| Sandbox.tmp_dirSync := Returned "/tmp/tmp-3";
     Sandbox.fs_write := fun _ _ => None;
     Sandbox.fs_existsSync := fun _ => true;
     Sandbox.spawn := fun _ _ => Sandbox.NeverCloses ["> build"];
     Sandbox.runInBrowser := fun _ => Fulfilled (Sandbox.mkBrowserResult [] [] []);
     Sandbox.guardPath := "/app/dist/fs-guard.js" |}.

Definition builtTask : TaskSpec :=
  mkTaskSpec "l_task" L "Produce a bundled application" ["index.html"] ["index.html"]
    (Some (mkRuntime (Some browser) (Some "npm run build") (Some "index.html"))) None.

End Examples.

(* ===================================================================== *)
(** * Properties *)
(* ===================================================================== *)

(** ** Strings *)

Section StringFacts.
Import JsString.

Lemma startsWith_two (l : string) (a b : ascii) :
  startsWith l (String a (String b EmptyString)) = true ->
  exists rest, l = String a (String b rest).
Proof.
  unfold startsWith.
  destruct l as [|x [|y rest]]; simpl; try discriminate.
  - destruct (ascii_dec a x); discriminate.
  - destruct (ascii_dec a x) as [->|]; [|discriminate].
    destruct (ascii_dec b y) as [->|]; [|discriminate].
    intros _. now exists rest.
Qed.

(** Two tags that differ in their second character never both match. *)
Lemma startsWith_exclusive (l : string) (a b c : ascii) :
  b <> c ->
  startsWith l (String a (String b EmptyString)) = true ->
  startsWith l (String a (String c EmptyString)) = false.
Proof.
  intros Hbc H. apply startsWith_two in H as [rest ->].
  unfold startsWith. simpl.
  destruct (ascii_dec a a); [|congruence].
  destruct (ascii_dec c b); congruence.
Qed.

End StringFacts.

(** Rewrites to [false] the tests for the layer tags other than the one
  that [H] establishes. *)
Ltac other_tags H :=
match type of H with
| JsString.startsWith ?l (String ?a (String ?b EmptyString)) = true =>
    repeat match goal with
    | |- context [JsString.startsWith l (String a (String ?c EmptyString))] =>
        rewrite (startsWith_exclusive l a b c ltac:(discriminate) H)
    end
end.

(** ** Failure registry *)

Section RegistryFacts.
Import Registry.

(** Every member of [RULE_IDS] resolves to its own definition. *)
Lemma rule_ids_resolve :
  Forall (fun d => getFailureDef (def_ruleId d) = Returned (OwnDefinition d))
         registry_entries.
Proof. repeat constructor. Qed.

(** An identifier that is neither registered nor a property name of
    [Object.prototype] makes the lookup throw. *)
Lemma getFailureDef_throws_outside (ruleId : string) :
  FAILURE_REGISTRY !! ruleId = None ->
  inherited_key ruleId = false ->
  getFailureDef ruleId = Thrown ("[FailureRegistry] Unknown Rule ID: " ++ ruleId).
Proof.
  intros Hown Hproto. unfold getFailureDef, registry_get.
  now rewrite Hown, Hproto.
Qed.

(** A registered identifier yields the registered definition, and a
    repeated lookup yields the same fields. *)
Lemma getFailureDef_registered (ruleId : string) (d : FailureDefinition) :
  FAILURE_REGISTRY !! ruleId = Some d ->
  getFailureDef ruleId = Returned (OwnDefinition d) /\
  getFailureDef ruleId = getFailureDef ruleId.
Proof.
  intros Hown. unfold getFailureDef, registry_get. now rewrite Hown.
Qed.

(** C8, at the identifier [constructor]: it is not a key of the
    registry, yet [getFailureDef] does not throw; the bracket read
    finds the property that [Object.prototype] supplies, which is
    truthy, and the function returns it in place of a definition.
    The same holds for every name in [Object_prototype_keys]. *)
Theorem getFailureDef_returns_for_inherited_key :
  FAILURE_REGISTRY !! "constructor" = None /\
  getFailureDef "constructor" = Returned (Inherited "constructor") /\
  Forall (fun k => FAILURE_REGISTRY !! k = None /\
                   getFailureDef k = Returned (Inherited k))
         Object_prototype_keys.
Proof.
  split; [reflexivity|]. split; [reflexivity|].
  repeat constructor.
Qed.

End RegistryFacts.

(** ** Final evaluator *)

Section FinalEvalFacts.
Import Registry Types JsString FinalEval.

Lemma getScoreCap_range (failureLayer : option string) :
  30 <= getScoreCap failureLayer <= 100.
Proof.
  unfold getScoreCap. destruct failureLayer as [l|]; [|lia].
  repeat match goal with |- context [if ?b then _ else _] => destruct b end; lia.
Qed.

Lemma clampScore_range (cap : Z) (x : Q) :
  0 <= cap -> 0 <= clampScore cap x <= cap.
Proof. unfold clampScore. lia. Qed.

Lemma startsWith_nonempty (l tag : string) :
  tag <> EmptyString -> startsWith l tag = true -> String.eqb l EmptyString = false.
Proof.
  intros Htag H. destruct l; [|reflexivity].
  unfold startsWith in H. destruct tag; [congruence|discriminate].
Qed.

(** The cap read off the layer tag. *)
Lemma getScoreCap_table (l : string) :
  (startsWith l "L5" = true -> getScoreCap (Some l) = 30) /\
  (startsWith l "L4" = true -> getScoreCap (Some l) = 50) /\
  (startsWith l "L3" = true -> getScoreCap (Some l) = 70) /\
  (startsWith l "L2" = true -> getScoreCap (Some l) = 85).
Proof.
  unfold getScoreCap.
  repeat split; intros H;
    match type of H with
    | startsWith _ ?tag = true =>
        rewrite (startsWith_nonempty l tag ltac:(discriminate) H)
    end;
    try rewrite H; other_tags H; try rewrite H; reflexivity.
Qed.

(** The cap as a function of the priority class of the layer. *)
Lemma getScoreCap_by_priority (l : string) :
  getScoreCap (Some l) =
    match getPriority l with
    | 5 => 30 | 4 => 50 | 3 => 70 | 2 => 85 | _ => 100
    end.
Proof.
  unfold getScoreCap, getPriority.
  destruct (String.eqb_spec l EmptyString) as [->|_]; [reflexivity|].
  repeat match goal with |- context [if ?b then _ else _] => destruct b end;
    reflexivity.
Qed.

Lemma getPriority_range (l : string) : 1 <= getPriority l <= 5.
Proof.
  unfold getPriority.
  repeat match goal with |- context [if ?b then _ else _] => destruct b end; lia.
Qed.

(** A less severe layer never has a smaller cap. *)
Lemma getScoreCap_monotone (l1 l2 : string) :
  getPriority l1 <= getPriority l2 ->
  getScoreCap (Some l2) <= getScoreCap (Some l1).
Proof.
  rewrite !getScoreCap_by_priority.
  pose proof (getPriority_range l1). pose proof (getPriority_range l2).
  intros Hle.
  assert (H1 : getPriority l1 = 1 \/ getPriority l1 = 2 \/ getPriority l1 = 3 \/
               getPriority l1 = 4 \/ getPriority l1 = 5) by lia.
  assert (H2 : getPriority l2 = 1 \/ getPriority l2 = 2 \/ getPriority l2 = 3 \/
               getPriority l2 = 4 \/ getPriority l2 = 5) by lia.
  destruct H1 as [E1|[E1|[E1|[E1|E1]]]], H2 as [E2|[E2|[E2|[E2|E2]]]];
    rewrite E1, E2 in *; lia.
Qed.

Lemma sort_by_priority_nil (l : list FailureAnnotation) :
  sort_by_priority l = [] -> l = [].
Proof.
  destruct l as [|x rest]; [reflexivity|]. simpl.
  destruct (sort_by_priority rest) as [|y r]; simpl; [discriminate|].
  destruct (getPriority (layer y) <=? getPriority (layer x)); discriminate.
Qed.

(** The head of the sorted candidates is one of them and no candidate
    has a higher priority. *)
Lemma sort_by_priority_head (l : list FailureAnnotation) :
  forall worst rest,
    sort_by_priority l = worst :: rest ->
    In worst l /\
    Forall (fun a => getPriority (layer a) <= getPriority (layer worst)) l.
Proof.
  induction l as [|x l IH]; intros worst rest; simpl; [discriminate|].
  destruct (sort_by_priority l) as [|y r] eqn:Hs.
  - apply sort_by_priority_nil in Hs. subst l. simpl.
    intros [= <- <-]. split; [now left|]. constructor; [lia|constructor].
  - destruct (IH y r eq_refl) as [Hin Hmax]. simpl.
    destruct (getPriority (layer y) <=? getPriority (layer x)) eqn:Hc.
    + apply Z.leb_le in Hc. intros [= <- <-]. split; [now left|].
      constructor; [lia|].
      eapply Forall_impl; [exact Hmax|]. simpl. intros; lia.
    + apply Z.leb_gt in Hc. intros [= <- <-]. split; [now right|].
      constructor; [lia|exact Hmax].
Qed.

(** What the failure-layer block yields. *)
Lemma resolveFailureLayer_dominant (annotations : list FailureAnnotation)
    (ps : option ParseStatus) (a : FailureAnnotation) :
  In a annotations ->
  is_failure_severity (severity a) = true ->
  exists worst,
    In worst annotations /\
    is_failure_severity (severity worst) = true /\
    fst (resolveFailureLayer annotations ps) = Some (layer worst) /\
    getPriority (layer a) <= getPriority (layer worst).
Proof.
  intros Hin Hsev. unfold resolveFailureLayer.
  assert (Hc : In a (failureCandidates annotations)).
  { unfold failureCandidates. apply filter_In. now split. }
  destruct (sort_by_priority (failureCandidates annotations)) as [|w r] eqn:Hs.
  - apply sort_by_priority_nil in Hs. rewrite Hs in Hc. destruct Hc.
  - destruct (sort_by_priority_head _ _ _ Hs) as [Hw Hmax].
    apply filter_In in Hw as [Hw1 Hw2].
    exists w. split; [exact Hw1|]. split; [exact Hw2|]. split; [reflexivity|].
    rewrite List.Forall_forall in Hmax. now apply Hmax.
Qed.

Lemma evaluateFinal_fields (staticScore : ScoreBreakdown)
    (runtimeScore : option Q) (metadata : FailureMetadata) :
  let annotations := default [] (meta_failureAnnotations metadata) in
  let r := evaluateFinal staticScore runtimeScore metadata in
  failureLayer r = fst (resolveFailureLayer annotations (parseStatus metadata)) /\
  breakdown_runtime r = runtimeScore /\
  totalScore r =
    clampScore (getScoreCap (failureLayer r))
      (baseScore01 staticScore runtimeScore * 100
         * DIFFICULTY_WEIGHTS (default M (difficulty metadata))
       - inject_Z (penalty_of annotations))%Q.
Proof.
  unfold evaluateFinal.
  replace (match meta_failureAnnotations metadata with Some l => l | None => [] end)
    with (default [] (meta_failureAnnotations metadata))
    by (destruct (meta_failureAnnotations metadata); reflexivity).
  replace (match difficulty metadata with Some d => d | None => M end)
    with (default M (difficulty metadata))
    by (destruct (difficulty metadata); reflexivity).
  destruct (resolveFailureLayer _ _) as [fl errs]. simpl. auto.
Qed.

(** The loop adds, for each annotation, what the spec's table says. *)
Lemma penalty_step_contribution (p : Z) (a : FailureAnnotation) :
  penalty_step p a = p + spec_penalty [a].
Proof.
  unfold penalty_step, spec_penalty, count_where, in_layer, has_severity. simpl.
  destruct (startsWith (layer a) "L5") eqn:H5.
  { other_tags H5. simpl. lia. }
  destruct (startsWith (layer a) "L4") eqn:H4.
  { other_tags H4. simpl. lia. }
  destruct (startsWith (layer a) "L3") eqn:H3.
  { other_tags H3. simpl. lia. }
  destruct (startsWith (layer a) "L2") eqn:H2; simpl; [|lia].
  destruct (severity a); simpl; lia.
Qed.

Lemma spec_penalty_cons (a : FailureAnnotation) (l : list FailureAnnotation) :
  spec_penalty (a :: l) = spec_penalty [a] + spec_penalty l.
Proof.
  unfold spec_penalty, count_where. simpl.
  repeat match goal with |- context [if ?b then _ else _] => destruct b end;
    simpl length; lia.
Qed.

Lemma penalty_fold (l : list FailureAnnotation) :
  forall p, fold_left penalty_step l p = p + spec_penalty l.
Proof.
  induction l as [|a l IH]; intros p; simpl.
  - unfold spec_penalty, count_where. simpl. lia.
  - rewrite IH, penalty_step_contribution, (spec_penalty_cons a l). lia.
Qed.

End FinalEvalFacts.

Section FinalEvalClaims.
Import Registry Types JsString FinalEval Views Examples.

(** C1: for every breakdown, runtime score and metadata, the total
    score returned by [evaluateFinal] is an integer between 0 and the
    cap of the failure layer it reports; that cap is 30 for a layer
    tagged L5, 50 for L4, 70 for L3, 85 for L2 and 100 when there is
    no failure layer; the cap never decreases when the layer becomes
    less severe; and the reported layer dominates (has the highest
    priority among) the annotations of severity critical or error. *)
Theorem evaluateFinal_score_within_cap
    (staticScore : ScoreBreakdown) (runtimeScore : option Q)
    (metadata : FailureMetadata) :
  let r := evaluateFinal staticScore runtimeScore metadata in
  0 <= totalScore r <= getScoreCap (failureLayer r) /\
  (forall l,
      (startsWith l "L5" = true -> getScoreCap (Some l) = 30) /\
      (startsWith l "L4" = true -> getScoreCap (Some l) = 50) /\
      (startsWith l "L3" = true -> getScoreCap (Some l) = 70) /\
      (startsWith l "L2" = true -> getScoreCap (Some l) = 85)) /\
  getScoreCap None = 100 /\
  (forall l1 l2,
      getPriority l1 <= getPriority l2 ->
      getScoreCap (Some l2) <= getScoreCap (Some l1) <= getScoreCap None) /\
  (forall a,
      In a (default [] (meta_failureAnnotations metadata)) ->
      is_failure_severity (severity a) = true ->
      exists l, failureLayer r = Some l /\
                getPriority (layer a) <= getPriority l).
Proof.
  intros r.
  destruct (evaluateFinal_fields staticScore runtimeScore metadata)
    as (Hlayer & _ & Htotal).
  fold r in Hlayer, Htotal.
  split; [|split; [|split; [|split]]].
  - rewrite Htotal. apply clampScore_range.
    pose proof (getScoreCap_range (failureLayer r)). lia.
  - apply getScoreCap_table.
  - reflexivity.
  - intros l1 l2 Hle. split; [now apply getScoreCap_monotone|].
    pose proof (getScoreCap_range (Some l1)). simpl getScoreCap at 2. lia.
  - intros a Hin Hsev.
    destruct (resolveFailureLayer_dominant _ (parseStatus metadata) a Hin Hsev)
      as (worst & _ & _ & Hfst & Hprio).
    exists (layer worst). split; [|exact Hprio].
    now rewrite Hlayer.
Qed.

(** An M-tier task whose static sub-scores are perfect and whose page
    crashed: 70 weighted points, 15 + 2 of penalty, capped at 30. *)
Lemma evaluateFinal_score_within_cap_witness :
  let r := evaluateFinal perfectStatic (Some 0%Q) crashMetadata in
  totalScore r = 30 /\
  failureLayer r = Some "L5/BrowserRuntime" /\
  0 <= totalScore r <= getScoreCap (failureLayer r) /\
  getScoreCap (Some "L5/BrowserRuntime") = 30 /\
  getScoreCap (Some "L4/Parse") <= getScoreCap (Some "L3/StaticValidation") /\
  (exists l, failureLayer r = Some l /\
             getPriority (layer brokenLink) <= getPriority l).
Proof.
  intros r.
  destruct (evaluateFinal_score_within_cap perfectStatic (Some 0%Q) crashMetadata)
    as (Hb & Htab & _ & Hmono & Hdom).
  split; [reflexivity|]. split; [reflexivity|]. split; [exact Hb|].
  split; [apply (Htab "L5/BrowserRuntime"); reflexivity|].
  split; [apply (Hmono "L3/StaticValidation" "L4/Parse"); vm_compute; discriminate|].
  apply (Hdom brokenLink); [simpl; auto|reflexivity].
Defined.



End FinalEvalClaims.

(** ** Static evaluator *)

Section StaticEvalFacts.
Import Registry Types JsString StaticEval.

Variable toLowerCase : string -> string.

Local Abbreviation joinedHtml := (StaticEval.joinedHtml toLowerCase).
Local Abbreviation mentions := (StaticEval.mentions toLowerCase).
Local Abbreviation evaluateFileReference := (StaticEval.evaluateFileReference toLowerCase).

Lemma partition_fst_filter {A} (f : A -> bool) (l : list A) :
  fst (List.partition f l) = List.filter f l.
Proof.
  induction l as [|x l IH]; simpl; [reflexivity|].
  destruct (List.partition f l) as [g d]. simpl in *.
  destruct (f x); simpl; now rewrite IH.
Qed.

Lemma partition_snd_filter {A} (f : A -> bool) (l : list A) :
  snd (List.partition f l) = List.filter (fun x => negb (f x)) l.
Proof.
  induction l as [|x l IH]; simpl; [reflexivity|].
  destruct (List.partition f l) as [g d]. simpl in *.
  destruct (f x); simpl; now rewrite IH.
Qed.

Lemma filter_length_le {A} (f : A -> bool) (l : list A) :
  (length (List.filter f l) <= length l)%nat.
Proof.
  induction l as [|x l IH]; simpl; [lia|]. destruct (f x); simpl; lia.
Qed.

Lemma filter_all {A} (f : A -> bool) (l : list A) :
  (length (List.filter f l) =? length l)%nat = forallb f l.
Proof.
  induction l as [|x l IH]; simpl; [reflexivity|].
  pose proof (filter_length_le f l).
  destruct (f x); simpl; [exact IH|].
  apply Nat.eqb_neq. lia.
Qed.

Lemma filter_some {A} (f : A -> bool) (l : list A) :
  (0 <? length (List.filter f l))%nat = existsb f l.
Proof.
  induction l as [|x l IH]; simpl; [reflexivity|].
  destruct (f x); simpl; [reflexivity|exact IH].
Qed.

(** [evaluateFileReference] written by cases on what the markup
    mentions. *)
Lemma evaluateFileReference_cases (files : Files) (requiredFiles : list string) :
  let targets := targetFiles requiredFiles in
  let joined := joinedHtml files in
  let missing := List.filter (fun t => negb (mentions joined t)) targets in
  evaluateFileReference files requiredFiles =
    if negb (existsb (fun f => endsWith f ".html") (map fst files)) then
      (score0, [makeFail def_CONNECTIVITY_BROKEN_LINK
                  "No HTML files found to reference content"])
    else if forallb (mentions joined) targets then (score1, [])
    else if existsb (mentions joined) targets then
      (score05,
       [with_evidence (EvMissingFiles missing)
          (makeFail def_CONNECTIVITY_BROKEN_LINK
             ("Missing references to required files: " ++ join ", " missing))])
    else if genericFallback joined then
      (score05,
       [with_severity warning
          (makeFail def_CONNECTIVITY_BROKEN_LINK
             ("No explicit references to required files found, but generic links exist. Missing: "
              ++ join ", " missing))])
    else
      (score0,
       [with_evidence (EvMissingFiles missing)
          (makeFail def_CONNECTIVITY_BROKEN_LINK
             ("Missing references to required files: " ++ join ", " missing))]).
Proof.
  cbv zeta. unfold StaticEval.evaluateFileReference.
  set (targets := targetFiles requiredFiles).
  set (joined := joinedHtml files).
  clearbody targets joined.
  rewrite <- (filter_some (fun f => endsWith f ".html") (map fst files)).
  destruct (length (List.filter (fun f => endsWith f ".html") (map fst files)))
    as [|n]; simpl; [reflexivity|].
  destruct (length targets =? 0)%nat eqn:Hlen.
  { apply Nat.eqb_eq in Hlen. destruct targets; [reflexivity|discriminate]. }
  pose proof (partition_fst_filter (mentions joined) targets) as Hf.
  pose proof (partition_snd_filter (mentions joined) targets) as Hm.
  destruct (List.partition (mentions joined) targets) as [found missingTargets].
  simpl in Hf, Hm. subst found missingTargets.
  rewrite filter_all, filter_some.
  destruct (forallb (mentions joined) targets); [reflexivity|].
  destruct (existsb (mentions joined) targets); simpl; [reflexivity|].
  destruct (genericFallback joined); reflexivity.
Qed.

End StaticEvalFacts.

Section StaticEvalClaims.
Import Registry Types JsString StaticEval.

Variable toLowerCase : string -> string.

Local Abbreviation value := subscore_value.
Local Abbreviation evaluateFileReference := (StaticEval.evaluateFileReference toLowerCase).
Local Abbreviation evaluateConnectivity := (StaticEval.evaluateConnectivity toLowerCase).

(** C6: the connectivity block of [evaluateStatic] enables exactly
    the file-reference check at tier XS, adds script binding at S,
    API-schema linkage at M and route consistency at L and XL, and
    its score is the arithmetic mean of the enabled checks.  The
    block is a function of its inputs, so equal inputs give equal
    results. *)
Theorem connectivity_mean_of_enabled_checks
    (evaluateScriptBinding evaluateApiSchemaLinkage evaluateRouteConsistency :
       Files -> SubScore * list FailureAnnotation)
    (files : Files) (taskSpec : TaskSpec) :
  let r := evaluateConnectivity evaluateScriptBinding evaluateApiSchemaLinkage
             evaluateRouteConsistency files taskSpec in
  let fr := fileReference r in
  let sb := scriptBinding r in
  let api := apiSchemaLinkage r in
  let rc := routeConsistency r in
  fr = fst (evaluateFileReference files (requiredFiles taskSpec)) /\
  sb = fst (evaluateScriptBinding files) /\
  api = fst (evaluateApiSchemaLinkage files) /\
  rc = fst (evaluateRouteConsistency files) /\
  connectivityScore r = average (enabledComponents (size taskSpec) fr sb api rc) /\
  match size taskSpec with
  | XS =>
      enabledComponents XS fr sb api rc = [fr] /\
      (connectivityScore r == value fr)%Q
  | S =>
      enabledComponents S fr sb api rc = [fr; sb] /\
      (connectivityScore r == (value fr + value sb) / 2)%Q
  | M =>
      enabledComponents M fr sb api rc = [fr; sb; api] /\
      (connectivityScore r == (value fr + value sb + value api) / 3)%Q
  | L =>
      enabledComponents L fr sb api rc = [fr; sb; api; rc] /\
      (connectivityScore r == (value fr + value sb + value api + value rc) / 4)%Q
  | XL =>
      enabledComponents XL fr sb api rc = [fr; sb; api; rc] /\
      (connectivityScore r == (value fr + value sb + value api + value rc) / 4)%Q
  end.
Proof.
  unfold StaticEval.evaluateConnectivity.
  destruct (evaluateFileReference files (requiredFiles taskSpec)) as [fr a1].
  destruct (evaluateScriptBinding files) as [sb a2].
  destruct (evaluateApiSchemaLinkage files) as [api a3].
  destruct (evaluateRouteConsistency files) as [rc a4].
  cbv zeta. simpl.
  repeat (split; [reflexivity|]).
  destruct (size taskSpec); (split; [reflexivity|]);
    unfold average; simpl; field.
Qed.

(** C7, amended.  Write [html] for the contents of the files named
    [*.html], joined by a newline and put in lower case, and say that
    the markup mentions a required file when [html] contains its
    name put in lower case; only the required files not named
    [*.html] count.  Without any markup file the check returns 0 with
    an error annotation.  With a markup file it returns 1 (and no
    annotation) when the markup mentions every one of them, vacuously
    so when there is none; 0.5 with an error annotation when it
    mentions some of them but not all; 0.5 with a warning annotation
    when it mentions none of them but [html] contains one of the
    markers [<script], [<link], [href=] and [src=]; and 0 with an
    error annotation when it mentions none and contains no marker.
    Every annotation is the registry's broken-link rule, and its
    message lists the files that are not mentioned. *)
Theorem evaluateFileReference_by_mentions
    (files : Files) (requiredFiles : list string) :
  let markupFiles := List.filter (fun f => endsWith f ".html") (map fst files) in
  let html := toLowerCase (join newline (map (file_content files) markupFiles)) in
  let mentioned := fun target => includes html (toLowerCase target) in
  let targets := List.filter (fun f => negb (endsWith f ".html")) requiredFiles in
  let missing := List.filter (fun t => negb (mentioned t)) targets in
  let marker := includes html "<script" || includes html "<link"
                || includes html "href=" || includes html "src=" in
  let r := evaluateFileReference files requiredFiles in
  (markupFiles = [] ->
     fst r = score0 /\ map severity (snd r) = [error] /\
     map message (snd r) = ["No HTML files found to reference content"]) /\
  (markupFiles <> [] -> Forall (fun t => mentioned t = true) targets ->
     r = (score1, [])) /\
  (markupFiles <> [] ->
   Exists (fun t => mentioned t = true) targets ->
   Exists (fun t => mentioned t = false) targets ->
     fst r = score05 /\ map severity (snd r) = [error] /\
     map message (snd r)
       = ["Missing references to required files: " ++ join ", " missing]) /\
  (markupFiles <> [] -> targets <> [] ->
   Forall (fun t => mentioned t = false) targets -> marker = true ->
     fst r = score05 /\ map severity (snd r) = [warning] /\
     map message (snd r)
       = ["No explicit references to required files found, but generic links exist. Missing: "
          ++ join ", " missing]) /\
  (markupFiles <> [] -> targets <> [] ->
   Forall (fun t => mentioned t = false) targets -> marker = false ->
     fst r = score0 /\ map severity (snd r) = [error] /\
     map message (snd r)
       = ["Missing references to required files: " ++ join ", " missing]) /\
  Forall (fun a => ruleId a = "connectivity/link" /\
                   layer a = "L3/StaticValidation") (snd r).
Proof.
  cbv zeta. rewrite evaluateFileReference_cases. cbv zeta.
  unfold StaticEval.joinedHtml, StaticEval.mentions, targetFiles, genericFallback.
  set (markupFiles := List.filter (fun f => endsWith f ".html") (map fst files)).
  set (html := toLowerCase (join newline (map (file_content files) markupFiles))).
  set (targets := List.filter (fun f => negb (endsWith f ".html")) requiredFiles).
  set (mentioned := fun target => includes html (toLowerCase target)).
  assert (Hmarkup : existsb (fun f => endsWith f ".html") (map fst files)
                    = negb (length markupFiles =? 0)%nat).
  { subst markupFiles. rewrite <- filter_some.
    destruct (length _); reflexivity. }
  rewrite Hmarkup, negb_involutive.
  assert (Hall : Forall (fun t => includes html (toLowerCase t) = true) targets ->
                 forallb mentioned targets = true).
  { intros Hf. apply forallb_forall. rewrite List.Forall_forall in Hf. exact Hf. }
  assert (Hsome : Exists (fun t => includes html (toLowerCase t) = true) targets ->
                  existsb mentioned targets = true).
  { intros Hex. apply List.Exists_exists in Hex as (t & Ht & Hm).
    apply existsb_exists. exists t. split; assumption. }
  assert (Hnot : Exists (fun t => includes html (toLowerCase t) = false) targets ->
                 forallb mentioned targets = false).
  { intros Hex. apply List.Exists_exists in Hex as (t & Ht & Hm).
    apply not_true_is_false. intros Hf.
    rewrite forallb_forall in Hf. specialize (Hf t Ht). unfold mentioned in Hf.
    congruence. }
  assert (Hnone : Forall (fun t => includes html (toLowerCase t) = false) targets ->
                  existsb mentioned targets = false).
  { intros Hf. apply not_true_is_false. intros Hex.
    apply existsb_exists in Hex as (t & Ht & Hm).
    rewrite List.Forall_forall in Hf. specialize (Hf t Ht). unfold mentioned in Hm.
    congruence. }
  assert (Hfirst : targets <> [] ->
            Forall (fun t => includes html (toLowerCase t) = false) targets ->
            forallb mentioned targets = false).
  { intros Hne Hf. apply Hnot. destruct targets as [|t ts]; [congruence|].
    inversion Hf; subst. now apply List.Exists_cons_hd. }
  clearbody mentioned.
  split; [|split; [|split; [|split; [|split]]]].
  - intros ->. simpl. repeat split; reflexivity.
  - intros Hne Hf. destruct markupFiles; [congruence|]. simpl.
    rewrite (Hall Hf). reflexivity.
  - intros Hne Hs Hn. destruct markupFiles; [congruence|]. simpl.
    rewrite (Hnot Hn), (Hsome Hs). repeat split; reflexivity.
  - intros Hne Htargets Hf Hmarker. destruct markupFiles; [congruence|]. simpl.
    rewrite (Hfirst Htargets Hf), (Hnone Hf), Hmarker. repeat split; reflexivity.
  - intros Hne Htargets Hf Hmarker. destruct markupFiles; [congruence|]. simpl.
    rewrite (Hfirst Htargets Hf), (Hnone Hf), Hmarker. repeat split; reflexivity.
  - repeat match goal with |- context [if ?b then _ else _] => destruct b end;
      repeat constructor.
Qed.

End StaticEvalClaims.

Section StaticEvalRuns.
Import Registry Types JsString StaticEval Examples.

Local Abbreviation joinedHtml := (StaticEval.joinedHtml toLowerCase_ascii).
Local Abbreviation mentions := (StaticEval.mentions toLowerCase_ascii).
Local Abbreviation evaluateFileReference :=
  (StaticEval.evaluateFileReference toLowerCase_ascii).

(** C7 as stated fails: with no required file mentioned but a script
    tag present the check returns 0.5 with a warning, not 0 with an
    error; with one of two required files mentioned and a script tag
    present the annotation is an error, not a warning; and with no
    markup file in the bundle the check returns 0 although there is
    no required non-markup file. *)
Lemma evaluateFileReference_not_as_stated :
  (existsb (mentions (joinedHtml pageWithOtherScript))
           (targetFiles ["index.html"; "main.js"]) = false /\
   fst (evaluateFileReference pageWithOtherScript ["index.html"; "main.js"]) = score05 /\
   map severity (snd (evaluateFileReference pageWithOtherScript ["index.html"; "main.js"]))
     = [warning]) /\
  (existsb (mentions (joinedHtml pageWithoutStyle))
           (targetFiles ["index.html"; "main.js"; "style.css"]) = true /\
   forallb (mentions (joinedHtml pageWithoutStyle))
           (targetFiles ["index.html"; "main.js"; "style.css"]) = false /\
   genericFallback (joinedHtml pageWithoutStyle) = true /\
   fst (evaluateFileReference pageWithoutStyle ["index.html"; "main.js"; "style.css"])
     = score05 /\
   map severity
       (snd (evaluateFileReference pageWithoutStyle ["index.html"; "main.js"; "style.css"]))
     = [error]) /\
  (targetFiles ["index.html"] = [] /\
   fst (evaluateFileReference scriptOnly ["index.html"]) = score0 /\
   map severity (snd (evaluateFileReference scriptOnly ["index.html"])) = [error]).
Proof. vm_compute. repeat split; reflexivity. Qed.

(** The five cases, and a page that names the script in capitals. *)
Lemma evaluateFileReference_by_mentions_witness :
  (fst (evaluateFileReference scriptOnly ["index.html"]) = score0 /\
   map severity (snd (evaluateFileReference scriptOnly ["index.html"])) = [error]) /\
  (evaluateFileReference barePage ["index.html"] = (score1, [])) /\
  (evaluateFileReference shoutingPage ["index.html"; "main.js"] = (score1, [])) /\
  (fst (evaluateFileReference pageWithoutStyle ["index.html"; "main.js"; "style.css"])
     = score05 /\
   map severity
       (snd (evaluateFileReference pageWithoutStyle ["index.html"; "main.js"; "style.css"]))
     = [error]) /\
  (fst (evaluateFileReference pageWithOtherScript ["index.html"; "main.js"]) = score05 /\
   map severity (snd (evaluateFileReference pageWithOtherScript ["index.html"; "main.js"]))
     = [warning]) /\
  (fst (evaluateFileReference barePage ["index.html"; "main.js"]) = score0 /\
   map severity (snd (evaluateFileReference barePage ["index.html"; "main.js"]))
     = [error]).
Proof.
  split.
  { destruct (evaluateFileReference_by_mentions toLowerCase_ascii scriptOnly
                ["index.html"]) as (H & _).
    destruct H as (H1 & H2 & _); [reflexivity|]. split; assumption. }
  split.
  { destruct (evaluateFileReference_by_mentions toLowerCase_ascii barePage
                ["index.html"]) as (_ & H & _).
    apply H; [discriminate|constructor]. }
  split.
  { destruct (evaluateFileReference_by_mentions toLowerCase_ascii shoutingPage
                ["index.html"; "main.js"]) as (_ & H & _).
    apply H; [discriminate|]. repeat constructor. }
  split.
  { destruct (evaluateFileReference_by_mentions toLowerCase_ascii pageWithoutStyle
                ["index.html"; "main.js"; "style.css"]) as (_ & _ & H & _).
    destruct H as (H1 & H2 & _).
    - discriminate.
    - apply List.Exists_cons_hd. reflexivity.
    - apply List.Exists_cons_tl, List.Exists_cons_hd. reflexivity.
    - split; assumption. }
  split.
  { destruct (evaluateFileReference_by_mentions toLowerCase_ascii pageWithOtherScript
                ["index.html"; "main.js"]) as (_ & _ & _ & H & _).
    destruct H as (H1 & H2 & _).
    - discriminate.
    - discriminate.
    - repeat constructor.
    - reflexivity.
    - split; assumption. }
  destruct (evaluateFileReference_by_mentions toLowerCase_ascii barePage
              ["index.html"; "main.js"]) as (_ & _ & _ & _ & H & _).
  destruct H as (H1 & H2 & _).
  - discriminate.
  - discriminate.
  - repeat constructor.
  - reflexivity.
  - split; assumption.
Defined.

End StaticEvalRuns.

(** ** Runtime evaluator *)

Section RuntimeEvalFacts.
Import Registry Types JsString RuntimeEval.

Lemma classifyError_errors (st : Classified) (err : BrowserError) :
  c_errors (classifyError st err) =
    (c_errors st ++ if fatal err then [err] else [])%list.
Proof.
  unfold classifyError, fatal.
  destruct (String.eqb (be_type err) "pageerror") eqn:Hp; simpl; [reflexivity|].
  destruct (String.eqb (be_type err) "network") eqn:Hn; simpl.
  - apply String.eqb_eq in Hn. rewrite Hn. simpl.
    destruct (criticalResource err); simpl; [reflexivity|].
    now rewrite app_nil_r.
  - destruct (String.eqb (be_type err) "console.error"); simpl; [reflexivity|].
    now rewrite app_nil_r.
Qed.

Lemma classifyError_keeps (st : Classified) (err : BrowserError)
    (a : FailureAnnotation) :
  In a (c_annotations st) -> In a (c_annotations (classifyError st err)).
Proof.
  intros Hin. unfold classifyError.
  repeat match goal with |- context [if ?b then _ else _] => destruct b end;
    simpl; apply in_or_app; now left.
Qed.

Lemma classifyErrors_fold (l : list BrowserError) :
  forall st,
    c_errors (fold_left classifyError l st) = (c_errors st ++ List.filter fatal l)%list /\
    (forall a, In a (c_annotations st) ->
               In a (c_annotations (fold_left classifyError l st))).
Proof.
  induction l as [|err l IH]; intros st; simpl.
  - split; [now rewrite app_nil_r|auto].
  - destruct (IH (classifyError st err)) as [He Ha]. split.
    + rewrite He, classifyError_errors.
      destruct (fatal err); simpl; rewrite <- app_assoc; reflexivity.
    + intros a Hin. apply Ha. now apply classifyError_keeps.
Qed.

Lemma classifyLogs_fold (l : list BrowserLog) :
  forall st,
    c_errors (fold_left classifyLog l st) = c_errors st /\
    c_annotations (fold_left classifyLog l st) = c_annotations st.
Proof.
  induction l as [|log l IH]; intros st; simpl; [auto|].
  destruct (IH (classifyLog st log)) as [He Ha].
  rewrite He, Ha. unfold classifyLog.
  destruct (String.eqb (bl_type log) "console.warn"); auto.
Qed.

Lemma filter_nonempty_existsb {A} (f : A -> bool) (l : list A) :
  (0 <? length (List.filter f l))%nat = existsb f l.
Proof.
  induction l as [|x l IH]; simpl; [reflexivity|].
  destruct (f x); simpl; [reflexivity|exact IH].
Qed.

(** The verdict and the recorded errors of [evaluateRuntime]. *)
Lemma evaluateRuntime_verdict (r : SandboxResult) (t : TaskSpec) :
  let ev := evaluateRuntime r t in
  runtimeErrors ev = List.filter fatal (default [] (browserErrors r)) /\
  score ev =
    (if negb (success r) then 0
     else if existsb fatal (default [] (browserErrors r)) then 0 else 1) /\
  (forall a, In a (manifestAnnotations r) -> In a (rt_failureAnnotations ev)).
Proof.
  cbv zeta. unfold evaluateRuntime.
  set (st0 := {| c_annotations := _; c_errors := []; c_warnings := [] |}).
  destruct (classifyErrors_fold (default [] (browserErrors r)) st0) as [He Ha].
  destruct (classifyLogs_fold (default [] (browserLogs r))
              (fold_left classifyError (default [] (browserErrors r)) st0))
    as [He' Ha'].
  set (st2 := fold_left classifyLog _ _) in *.
  assert (Herr : c_errors st2 = List.filter fatal (default [] (browserErrors r))).
  { rewrite He', He. reflexivity. }
  assert (Hann : forall a, In a (manifestAnnotations r) -> In a (c_annotations st2)).
  { intros a Hin. rewrite Ha'. apply Ha. subst st0. simpl.
    apply in_or_app. now left. }
  rewrite Herr, filter_nonempty_existsb. clear Herr.
  destruct (success r); simpl.
  - destruct (existsb fatal (default [] (browserErrors r))); simpl; auto.
  - split; [reflexivity|]. split; [reflexivity|].
    intros a Hin. apply in_or_app. left. now apply Hann.
Qed.

End RuntimeEvalFacts.

Section RuntimeEvalClaims.
Import Registry Types JsString RuntimeEval Examples.

(** The classifier's test of a browser error, spelled out. *)
Lemma fatal_spelled_out (err : BrowserError) :
  fatal err = true <->
  be_type err = "pageerror" \/ be_type err = "console.error" \/
  (be_type err = "network" /\
   ((exists url, be_url err = Some url /\ url <> EmptyString /\
                 (endsWith url ".js" = true \/ endsWith url ".html" = true)) \/
    includes (be_message err) ".js" = true \/
    includes (be_message err) ".html" = true)).
Proof.
  unfold fatal, criticalResource.
  destruct (String.eqb_spec (be_type err) "pageerror") as [Hp|Hp]; simpl.
  { split; auto. }
  destruct (String.eqb_spec (be_type err) "console.error") as [Hc|Hc].
  { rewrite orb_true_r. split; auto. }
  rewrite orb_false_r.
  destruct (String.eqb_spec (be_type err) "network") as [Hn|Hn]; simpl.
  2:{ split; [discriminate|]. intros [H|[H|[H _]]]; congruence. }
  split.
  - intros H. right. right. split; [exact Hn|].
    apply orb_true_iff in H as [H|H]; [|auto].
    apply orb_true_iff in H as [H|H]; [|auto].
    left. destruct (be_url err) as [url|]; [|discriminate].
    apply andb_true_iff in H as [Hne Hsuffix].
    exists url. split; [reflexivity|]. split.
    + intros ->. discriminate.
    + now apply orb_true_iff in Hsuffix.
  - intros [H|[H|[_ H]]]; try congruence.
    destruct H as [(url & -> & Hne & Hsuffix)|[H|H]].
    + destruct (String.eqb_spec url EmptyString) as [->|_]; [congruence|]. simpl.
      destruct Hsuffix as [-> | ->]; rewrite ?orb_true_r; reflexivity.
    + rewrite H, orb_true_r. reflexivity.
    + rewrite H, orb_true_r. reflexivity.
Qed.

(** C4 as stated fails in both directions.  The script
    [app.js?v=2] fails to load: the address does not end in [.js]
    and the message names no file, so the error is not fatal and the
    score is 1.  The data file [data.json] fails to load: its message
    contains [.js], so the error is fatal and the score is 0 although
    no script or markup resource failed. *)
Lemma evaluateRuntime_not_as_stated :
  score (evaluateRuntime versionedScriptFailure anyTask) = 1 /\
  runtimeErrors (evaluateRuntime versionedScriptFailure anyTask) = [] /\
  score (evaluateRuntime dataFileFailure anyTask) = 0 /\
  length (runtimeErrors (evaluateRuntime dataFileFailure anyTask)) = 1%nat.
Proof. repeat split; reflexivity. Qed.

(** C4, amended: [evaluateRuntime] returns the score 0 exactly when
    the sandbox result's success flag is false or one of the browser
    errors is fatal, and 1 otherwise.  A browser error is fatal when
    its type is [pageerror] or [console.error], or when its type is
    [network] and its address is not empty and ends in [.js] or
    [.html], or its message contains [.js] or [.html] anywhere.  The
    fatal errors are the recorded runtime errors.  A manifest whose
    entry point is not empty and is absent from the mounted files
    yields a manifest-mismatch annotation of layer L5 and leaves that
    verdict as it is. *)
Theorem evaluateRuntime_score_and_manifest
    (sandboxResult : SandboxResult) (taskSpec : TaskSpec) :
  let ev := evaluateRuntime sandboxResult taskSpec in
  let errs := default [] (browserErrors sandboxResult) in
  let fatalError := fun err =>
    be_type err = "pageerror" \/ be_type err = "console.error" \/
    (be_type err = "network" /\
     ((exists url, be_url err = Some url /\ url <> EmptyString /\
                   (endsWith url ".js" = true \/ endsWith url ".html" = true)) \/
      includes (be_message err) ".js" = true \/
      includes (be_message err) ".html" = true)) in
  (score ev = 0 \/ score ev = 1) /\
  (score ev = 0 <-> success sandboxResult = false \/ Exists fatalError errs) /\
  (score ev = 1 <->
   success sandboxResult = true /\ Forall (fun err => ~ fatalError err) errs) /\
  (forall err, In err (runtimeErrors ev) <-> In err errs /\ fatalError err) /\
  (forall m,
      manifest sandboxResult = Some m ->
      entry m <> EmptyString -> ~ In (entry m) (filesMounted m) ->
      (exists a, In a (rt_failureAnnotations ev) /\
                 ruleId a = "runtime/manifest-mismatch" /\
                 layer a = "L5/BrowserRuntime") /\
      (success sandboxResult = true -> Forall (fun err => ~ fatalError err) errs ->
       score ev = 1)).
Proof.
  cbv zeta.
  destruct (evaluateRuntime_verdict sandboxResult taskSpec) as (Herr & Hscore & Hann).
  set (errs := default [] (browserErrors sandboxResult)) in *.
  assert (Hex : existsb fatal errs = true <->
                Exists (fun err =>
                  be_type err = "pageerror" \/ be_type err = "console.error" \/
                  (be_type err = "network" /\
                   ((exists url, be_url err = Some url /\ url <> EmptyString /\
                       (endsWith url ".js" = true \/ endsWith url ".html" = true)) \/
                    includes (be_message err) ".js" = true \/
                    includes (be_message err) ".html" = true))) errs).
  { rewrite existsb_exists, List.Exists_exists.
    split; intros (err & Hin & Hf); exists err; (split; [exact Hin|]);
      now apply fatal_spelled_out. }
  assert (Hall : existsb fatal errs = false <->
                 Forall (fun err => ~
                  (be_type err = "pageerror" \/ be_type err = "console.error" \/
                   (be_type err = "network" /\
                    ((exists url, be_url err = Some url /\ url <> EmptyString /\
                        (endsWith url ".js" = true \/ endsWith url ".html" = true)) \/
                     includes (be_message err) ".js" = true \/
                     includes (be_message err) ".html" = true)))) errs).
  { rewrite List.Forall_forall. split.
    - intros Hnone err Hin Hf. apply fatal_spelled_out in Hf.
      assert (existsb fatal errs = true) by (apply existsb_exists; eauto).
      congruence.
    - intros Hno. apply not_true_is_false. intros H.
      apply existsb_exists in H as (err & Hin & Hf).
      apply (Hno err Hin). now apply fatal_spelled_out. }
  rewrite Hscore.
  split.
  { destruct (success sandboxResult); simpl; [|auto].
    destruct (existsb fatal errs); auto. }
  split.
  { destruct (success sandboxResult); simpl.
    - destruct (existsb fatal errs) eqn:He.
      + split; [intros _; right; now apply Hex|reflexivity].
      + split; [discriminate|]. intros [H|H]; [discriminate|].
        apply Hex in H. discriminate.
    - split; auto. }
  split.
  { destruct (success sandboxResult); simpl.
    - destruct (existsb fatal errs) eqn:He.
      + split; [discriminate|]. intros [_ H]. apply Hall in H. discriminate.
      + split; [intros _; split; [reflexivity|now apply Hall]|reflexivity].
    - split; [discriminate|]. intros [H _]. discriminate. }
  split.
  { intros err. rewrite Herr, filter_In, fatal_spelled_out. reflexivity. }
  intros m Hm Hentry Hmounted. split.
  - exists (with_evidence (EvEntry (entry m) (filesMounted m))
             (makeFail def_RUNTIME_MANIFEST_MISMATCH
                ("Runtime entry point '" ++ entry m ++ "' not found in mounted files"))).
    split; [|split; reflexivity].
    apply Hann. unfold manifestAnnotations, manifest_mismatch. rewrite Hm.
    destruct (String.eqb_spec (entry m) EmptyString) as [H|_]; [congruence|].
    replace (existsb (String.eqb (entry m)) (filesMounted m)) with false.
    + left. reflexivity.
    + symmetry. apply not_true_is_false. intros H.
      apply existsb_exists in H as (f & Hin & Heq).
      apply String.eqb_eq in Heq. subst f. contradiction.
  - intros Hok Hclean. rewrite Hok. simpl.
    apply Hall in Hclean. now rewrite Hclean.
Qed.

(** The manifest declares [index.js], only [index.html] is mounted,
    and the run succeeded: the annotation is there and the score is
    1.  A failed load of [main.js] is fatal. *)
Lemma evaluateRuntime_score_and_manifest_witness :
  score (evaluateRuntime driftedResult anyTask) = 1 /\
  (exists a, In a (rt_failureAnnotations (evaluateRuntime driftedResult anyTask)) /\
             ruleId a = "runtime/manifest-mismatch" /\
             layer a = "L5/BrowserRuntime") /\
  score (evaluateRuntime scriptFailure anyTask) = 0.
Proof.
  destruct (evaluateRuntime_score_and_manifest driftedResult anyTask)
    as (_ & _ & _ & _ & H).
  destruct (H driftedManifest eq_refl) as [Hann Hscore].
  { discriminate. }
  { simpl. intros [H1|[]]. discriminate. }
  split; [apply Hscore; [reflexivity|constructor]|]. split; [exact Hann|].
  apply (evaluateRuntime_score_and_manifest scriptFailure anyTask).
  right. apply List.Exists_cons_hd. right. right. split; [reflexivity|].
  left. exists "http://localhost:3000/main.js".
  split; [reflexivity|]. split; [discriminate|]. left. reflexivity.
Defined.

End RuntimeEvalClaims.

(** ** Parsing gate *)

Section ParserClaims.
Import JsString Parser Examples.

(** A blank path anywhere in the tree makes the gate reject. *)
Lemma parseModelOutput_rejects_blank_path
    (JSON_stringify : JsValue -> string)
    (items : list JsValue) (artifactsSpec f : JsValue) (p : string) :
  In f items ->
  Js.get f "path" = JsStr p ->
  trim_is_empty p = true ->
  parseModelOutput JSON_stringify (JsObject [("files", JsArray items)]) artifactsSpec
    = None.
Proof.
  intros Hin Hpath Hblank. unfold parseModelOutput.
  assert (Hv : validateTreeSpec (JsObject [("files", JsArray items)]) = false).
  { unfold validateTreeSpec. simpl.
    apply not_true_is_false. intros Hall.
    rewrite forallb_forall in Hall. specialize (Hall f Hin).
    unfold valid_tree_entry in Hall. rewrite Hpath, Hblank in Hall.
    destruct (negb (Js.truthy f) || negb (Js.typeof_object f)); discriminate. }
  now rewrite Hv.
Qed.

(** What [validateTreeSpec] asks of the entries of a tree: an object
    with a string path that is not blank, and nothing about where the
    path points. *)
Lemma validateTreeSpec_of_paths (paths : list (string * string)) :
  validateTreeSpec (Js.fileTree paths)
    = forallb (fun pt => negb (trim_is_empty (fst pt))) paths.
Proof.
  unfold validateTreeSpec, Js.fileTree. simpl.
  induction paths as [|pt paths IH]; simpl; [reflexivity|].
  now rewrite IH.
Qed.

(** C9, at a bundle whose tree lists [../../etc/cron.d/job] and
    [/etc/passwd]: [parseModelOutput] returns the combined output,
    not [null].  [validateTreeSpec] only rejects a path that is not a
    string or is blank; the tree phase's own [validateTree] rejects
    the same tree through [isValidPath]. *)
Theorem parseModelOutput_accepts_escaping_paths
    (JSON_stringify : JsValue -> string) :
  In "../../etc/cron.d/job" (tree_paths escapingTree) /\
  In "/etc/passwd" (tree_paths escapingTree) /\
  parseModelOutput JSON_stringify escapingTree escapingArtifacts
    = Some {| tree := escapingTree;
              artifacts := escapingArtifacts;
              raw := JSON_stringify
                       (JsObject [("tree", escapingTree);
                                  ("artifacts", escapingArtifacts)]) |} /\
  parseModelOutput JSON_stringify blankPathTree escapingArtifacts = None /\
  TreePhase.isValidPath "../../etc/cron.d/job" = false /\
  TreePhase.isValidPath "/etc/passwd" = false /\
  TreePhase.validateTree escapingTree = false.
Proof.
  split; [simpl; auto|]. split; [simpl; auto|].
  repeat split; reflexivity.
Qed.

End ParserClaims.

(** ** Sandbox runner *)

Section SandboxFacts.
Import Types JsString StaticEval Sandbox.

Variable host : Host.

Hypothesis spawn_returns :
  forall command cwd message, spawn host command cwd <> SpawnThrows message.
Hypothesis process_ends :
  forall command cwd output, spawn host command cwd <> NeverCloses output.
Hypothesis browser_settles :
  forall htmlPath, runInBrowser host htmlPath <> Pending.

Lemma runCommand_fulfils (command cwd : string) (timeoutMs : Z) :
  exists code out, runCommand host command cwd timeoutMs = (Fulfilled code, out).
Proof.
  unfold runCommand.
  destruct (spawn host command cwd) eqn:Hs; eauto.
  - exfalso. eapply spawn_returns. exact Hs.
  - exfalso. eapply process_ends. exact Hs.
Qed.

Lemma runtimeStep_fulfils (dir : string) (taskSpec : TaskSpec)
    (manifest : option SandboxManifest) (logs : list string) :
  exists r, settled (runtimeStep host dir taskSpec manifest logs) = Fulfilled r /\
            cleanups (runtimeStep host dir taskSpec manifest logs) = 1%nat.
Proof.
  unfold runtimeStep.
  destruct (negb (is_truthy_string _)); [eauto|].
  destruct (match runtime taskSpec with Some r => rt_type r | None => None end)
    as [[|]|]; [| |eauto].
  - destruct (negb (fs_existsSync host _)); [eauto|].
    destruct (runInBrowser host _) eqn:Hb; [eauto|eauto|].
    exfalso. eapply browser_settles. exact Hb.
  - match goal with |- context [runCommand host ?c ?d ?t] =>
      destruct (runCommand_fulfils c d t) as (code & out & ->) end.
    eauto.
Qed.

(** Once the scratch directory exists, and as long as starting a
    subprocess does not throw, every started process closes or
    errors, and the browser runner settles, the promise resolves to
    one result and the deletion of the scratch directory is
    scheduled. *)
Lemma runInSandbox_fulfils_after_setup (dir : string) (files : option Files)
    (taskSpec : TaskSpec) (manifest : option SandboxManifest) :
  tmp_dirSync host = Returned dir ->
  exists r, settled (runInSandbox host files taskSpec manifest) = Fulfilled r /\
            (1 <= cleanups (runInSandbox host files taskSpec manifest))%nat.
Proof.
  intros Hdir. unfold runInSandbox. rewrite Hdir.
  destruct (writeFiles host dir (default [] files)); [simpl; eauto|].
  unfold asyncBody.
  destruct (is_truthy_string _).
  - match goal with |- context [runCommand host ?c ?d ?t] =>
      destruct (runCommand_fulfils c d t) as (code & out & ->) end.
    destruct (negb (code =? 0)); [simpl; eauto|].
    match goal with |- context [runtimeStep host dir taskSpec manifest ?l] =>
      destruct (runtimeStep_fulfils dir taskSpec manifest l) as (r & -> & ->) end.
    eauto.
  - destruct (runtimeStep_fulfils dir taskSpec manifest []) as (r & -> & ->).
    eauto.
Qed.

End SandboxFacts.

Section SandboxClaims.
Import Types JsString StaticEval Sandbox Examples.

(** C3, on a host where [tmp.dirSync] throws: the call sits in the
    promise executor ahead of the [try] block, so the promise
    returned by [runInSandbox] rejects with that exception, for every
    file map, task specification and manifest, and no result object
    is produced. *)
Theorem runInSandbox_rejects_without_scratch_dir
    (host : Host) (message : string) (files : option Files)
    (taskSpec : TaskSpec) (manifest : option SandboxManifest) :
  tmp_dirSync host = Thrown message ->
  settled (runInSandbox host files taskSpec manifest) = Rejected message /\
  cleanups (runInSandbox host files taskSpec manifest) = 0%nat.
Proof.
  intros Htmp. unfold runInSandbox. rewrite Htmp. split; reflexivity.
Qed.

Lemma runInSandbox_rejects_without_scratch_dir_witness :
  settled (runInSandbox host_without_tmp
             (Some [("index.html", "<!DOCTYPE html><html><body></body></html>")])
             anyTask None)
    = Rejected "ENOSPC: no space left on device, mkdir".
Proof.
  apply (runInSandbox_rejects_without_scratch_dir host_without_tmp
           "ENOSPC: no space left on device, mkdir").
  reflexivity.
Defined.

(** When starting the build subprocess throws, the async body rejects
    on its own and nothing settles the promise of [runInSandbox]. *)
Lemma runInSandbox_pending_when_spawn_throws
    (host : Host) (dir command thrown : string) (files : option Files)
    (taskSpec : TaskSpec) (r : RuntimeSpec) (manifest : option SandboxManifest) :
  tmp_dirSync host = Returned dir ->
  writeFiles host dir (default [] files) = None ->
  runtime taskSpec = Some r ->
  rt_buildCommand r = Some command ->
  command <> EmptyString ->
  spawn host command dir = SpawnThrows thrown ->
  settled (runInSandbox host files taskSpec manifest) = Pending.
Proof.
  intros Hdir Hwrite Hrt Hcmd Hne Hspawn.
  unfold runInSandbox. rewrite Hdir, Hwrite.
  unfold asyncBody. rewrite Hrt, Hcmd. simpl.
  destruct (String.eqb_spec command EmptyString) as [->|_]; [congruence|].
  simpl. unfold runCommand. now rewrite Hspawn.
Qed.

End SandboxClaims.

(** ** Orchestrator *)


Section OrchestratorFacts.
Import Types JsString StaticEval FinalEval Orchestrator.

Variable evaluateStatic :
  ExecutionArtifacts -> TaskSpec -> option SandboxManifest -> Settled ScoreBreakdown.
Variable host : Sandbox.Host.
Variable JSON_stringify : JsValue -> string.
Variable sha256 : string -> string.
Variable toISOString : Z -> string.

Local Abbreviation runTask' :=
  (runTask evaluateStatic host JSON_stringify sha256 toISOString).
Local Abbreviation gradeArtifacts' :=
  (gradeArtifacts evaluateStatic host JSON_stringify sha256 toISOString).


Lemma evaluateFinal_runtime (s : ScoreBreakdown) (rs : option Q)
    (m : FailureMetadata) :
  breakdown_runtime (evaluateFinal s rs m) = rs.
Proof. apply (evaluateFinal_fields s rs m). Qed.




(** How [runTask] ends: the generation call's rejection or silence
    escapes, or a generation-failure result is returned, or both
    phases delivered and grading takes over. *)
Lemma runTask_shape (taskSpec : TaskSpec) (modelGenerateFn : ModelGenerateFn)
    (startMs : Z) :
  let run := runTask' taskSpec modelGenerateFn startMs in
  (exists made, Forall isModelCall made /\ calls run = made /\
                (outcome run = Pending \/ exists e, outcome run = Rejected e)) \/
  (exists phaseName tree inf tok made,
      Forall isModelCall made /\
      run = generationFailure taskSpec phaseName tree inf tok made) \/
  (exists d1 treeOutput d2 filesOutput tree artifactsSpec now inf tok made,
      Forall isModelCall made /\
      modelGenerateFn (treeRequest taskSpec) = Resolves d1 treeOutput /\
      out_tree treeOutput = Some tree /\
      modelGenerateFn (filesRequest taskSpec) = Resolves d2 filesOutput /\
      out_artifacts filesOutput = Some artifactsSpec /\
      run = gradeArtifacts' taskSpec now treeOutput filesOutput
              tree artifactsSpec inf tok made).
Proof.
  cbv zeta. unfold runTask.
  set (budget := default (getTimeBudget (size taskSpec)) (timeBudgetMs taskSpec)).
  set (made1 := if is_XL (size taskSpec) && (startMs + budget - startMs <=? 0)
                then [] else [CallModel (treeRequest taskSpec)]).
  assert (Hm1 : Forall isModelCall made1).
  { subst made1. destruct (_ && _); repeat constructor. }
  clearbody made1.
  destruct (callWithTimeout (is_XL (size taskSpec)) (startMs + budget) startMs
              (modelGenerateFn (treeRequest taskSpec)))
    as [[r1|e1|] now1] eqn:Hc1.
  2:{ left. exists made1. simpl. eauto. }
  2:{ left. exists made1. simpl. eauto. }
  destruct (negb (present _) || timeout r1) eqn:Hearly1.
  { right. left. eauto 10. }
  apply orb_false_iff in Hearly1 as [Hpres1 Hto1].
  apply negb_false_iff in Hpres1.
  set (made2 := if is_XL (size taskSpec) && (startMs + budget - now1 <=? 0)
                then made1
                else (made1 ++ [CallModel (filesRequest taskSpec)])%list).
  assert (Hm2 : Forall isModelCall made2).
  { subst made2. destruct (_ && _); [exact Hm1|].
    apply Forall_app. split; [exact Hm1|repeat constructor]. }
  clearbody made2.
  destruct (callWithTimeout (is_XL (size taskSpec)) (startMs + budget) now1
              (modelGenerateFn (filesRequest taskSpec)))
    as [[r2|e2|] now2] eqn:Hc2.
  2:{ left. exists made2. simpl. eauto. }
  2:{ left. exists made2. simpl. eauto. }
  destruct (negb (present _) || timeout r2) eqn:Hearly2.
  { right. left. eauto 10. }
  apply orb_false_iff in Hearly2 as [Hpres2 Hto2].
  apply negb_false_iff in Hpres2.
  destruct (result r1) as [to|] eqn:Hr1; [|discriminate].
  destruct (result r2) as [fo|] eqn:Hr2; [|discriminate].
  destruct (out_tree to) as [t|] eqn:Ht; [|discriminate].
  destruct (out_artifacts fo) as [a|] eqn:Ha; [|discriminate].
  right. right.
  assert (H1 : exists d1, modelGenerateFn (treeRequest taskSpec) = Resolves d1 to).
  { unfold callWithTimeout in Hc1.
    destruct (modelGenerateFn (treeRequest taskSpec)) as [d o|d e|];
      repeat match type of Hc1 with
             | context [if ?b then _ else _] => destruct b
             end;
      inversion Hc1; subst; simpl in *; try discriminate.
    all: inversion Hr1; subst; eauto. }
  assert (H2 : exists d2, modelGenerateFn (filesRequest taskSpec) = Resolves d2 fo).
  { unfold callWithTimeout in Hc2.
    destruct (modelGenerateFn (filesRequest taskSpec)) as [d o|d e|];
      repeat match type of Hc2 with
             | context [if ?b then _ else _] => destruct b
             end;
      inversion Hc2; subst; simpl in *; try discriminate.
    all: inversion Hr2; subst; eauto. }
  destruct H1 as [d1 H1], H2 as [d2 H2].
  exists d1, to, d2, fo, t, a. eauto 10.
Qed.

(** The recovered generation failure: a collaborator that resolves
    without a tree (outside the XL tier) gives a complete result whose
    static sub-scores, completeness included, are all zero. *)
Lemma runTask_zero_completeness_without_tree (taskSpec : TaskSpec)
    (modelGenerateFn : ModelGenerateFn) (startMs d : Z)
    (treeOutput : ModelGenerateFnOutput) :
  modelGenerateFn (treeRequest taskSpec) = Resolves d treeOutput ->
  present (out_tree treeOutput) = false ->
  is_XL (size taskSpec) = false ->
  exists res,
    outcome (runTask' taskSpec modelGenerateFn startMs) = Fulfilled res /\
    staticScore (metadata res) = zeroStatic /\
    breakdown_static (finalResult (metadata res)) = zeroStatic /\
    0 <= totalScore (finalResult (metadata res)) <= 100.
Proof.
  intros Hcall Hpresent HXL.
  unfold runTask, callWithTimeout. rewrite Hcall, HXL. simpl.
  rewrite Hpresent. simpl.
  eexists. split; [reflexivity|]. simpl.
  split; [reflexivity|]. split; [reflexivity|].
  apply clampScore_range. lia.
Qed.





End OrchestratorFacts.

Section OrchestratorClaims.
Import Types JsString StaticEval FinalEval Orchestrator Examples.

Variable evaluateStatic :
  ExecutionArtifacts -> TaskSpec -> option SandboxManifest -> Settled ScoreBreakdown.
Variable host : Sandbox.Host.
Variable JSON_stringify : JsValue -> string.
Variable sha256 : string -> string.
Variable toISOString : Z -> string.

Local Abbreviation run_of :=
  (runTask evaluateStatic host JSON_stringify sha256 toISOString).

(** C2, where the collaborator's promise rejects: [callWithTimeout]
    awaits the call with no handler, so [runTask] rejects with the
    collaborator's reason and returns no result.  This is so in the
    tree phase (outside the XL tier, and in the XL tier when the
    rejection comes before the deadline) and in the files phase. *)
Theorem runTask_rejects_with_collaborator
    (taskSpec : TaskSpec) (modelGenerateFn : ModelGenerateFn) (startMs : Z) :
  let budget := default (getTimeBudget (size taskSpec)) (timeBudgetMs taskSpec) in
  (forall d e,
      modelGenerateFn (treeRequest taskSpec) = Rejects d e ->
      is_XL (size taskSpec) = false \/ (0 < budget /\ d < budget) ->
      outcome (run_of taskSpec modelGenerateFn startMs) = Rejected e) /\
  (forall d1 treeOutput d2 e,
      modelGenerateFn (treeRequest taskSpec) = Resolves d1 treeOutput ->
      present (out_tree treeOutput) = true ->
      modelGenerateFn (filesRequest taskSpec) = Rejects d2 e ->
      is_XL (size taskSpec) = false ->
      outcome (run_of taskSpec modelGenerateFn startMs) = Rejected e).
Proof.
  cbv zeta. split.
  - intros d e Hcall Hrace. unfold runTask, callWithTimeout. rewrite Hcall.
    destruct Hrace as [->|[Hpos Hlt]]; [reflexivity|].
    destruct (is_XL (size taskSpec)); [|reflexivity]. simpl negb. cbv iota.
    replace (startMs + default (getTimeBudget (size taskSpec)) (timeBudgetMs taskSpec)
             - startMs)
      with (default (getTimeBudget (size taskSpec)) (timeBudgetMs taskSpec)) by lia.
    destruct (Z.leb_spec (default (getTimeBudget (size taskSpec)) (timeBudgetMs taskSpec)) 0);
      [lia|].
    destruct (Z.ltb_spec d (default (getTimeBudget (size taskSpec)) (timeBudgetMs taskSpec)));
      [reflexivity|lia].
  - intros d1 treeOutput d2 e Htree Hpresent Hfiles HXL.
    unfold runTask, callWithTimeout. rewrite Htree, Hfiles, HXL. simpl.
    rewrite Hpresent. reflexivity.
Qed.


End OrchestratorClaims.

Section OrchestratorRuns.
Import Types JsString StaticEval FinalEval Orchestrator Examples.

Lemma runTask_rejects_with_collaborator_witness :
  outcome (runTask generousStatic Sandbox.quiet_host stringify digest isoTime
             xsTask rejectingModel 0)
    = Rejected "401 Unauthorized" /\
  outcome (runTask generousStatic Sandbox.quiet_host stringify digest isoTime
             xsTask halfwayModel 0)
    = Rejected "socket hang up".
Proof.
  split.
  - destruct (runTask_rejects_with_collaborator generousStatic Sandbox.quiet_host
                stringify digest isoTime xsTask rejectingModel 0) as [H _].
    apply (H 120 "401 Unauthorized"); [reflexivity|left; reflexivity].
  - destruct (runTask_rejects_with_collaborator generousStatic Sandbox.quiet_host
                stringify digest isoTime xsTask halfwayModel 0) as [_ H].
    apply (H 100 (mkOutput (Some (Js.fileTree [("index.html", "html")]))
                    None ["tree ok"] (Some 10)) 120 "socket hang up");
      reflexivity.
Defined.



End OrchestratorRuns.

(* ===================================================================== *)
(** * Further properties of the evaluators *)
(* ===================================================================== *)

(** ** Final evaluator: the dominant layer, order and evidence *)

Section FinalEvalOrder.
Import Registry Types JsString FinalEval Views Examples.

Local Abbreviation prio a := (getPriority (layer a)).

Lemma insert_by_priority_perm (x : FailureAnnotation) (l : list FailureAnnotation) :
  Permutation (x :: l) (insert_by_priority x l).
Proof.
  induction l as [|y l IH]; simpl; [apply Permutation_refl|].
  destruct (prio y <=? prio x); [apply Permutation_refl|].
  eapply perm_trans; [apply perm_swap|]. now apply perm_skip.
Qed.

Lemma sort_by_priority_perm (l : list FailureAnnotation) :
  Permutation l (sort_by_priority l).
Proof.
  induction l as [|x l IH]; simpl; [apply perm_nil|].
  eapply perm_trans; [apply perm_skip, IH|apply insert_by_priority_perm].
Qed.

Lemma insert_by_priority_sorted (x : FailureAnnotation) (l : list FailureAnnotation) :
  StronglySorted (fun a b => prio b <= prio a) l ->
  StronglySorted (fun a b => prio b <= prio a) (insert_by_priority x l).
Proof.
  induction 1 as [|y l Hs IH Hy]; simpl.
  - constructor; constructor.
  - destruct (prio y <=? prio x) eqn:Hc.
    + apply Z.leb_le in Hc. constructor; [now constructor|].
      constructor; [exact Hc|].
      rewrite List.Forall_forall in *. intros z Hz. specialize (Hy z Hz). lia.
    + apply Z.leb_gt in Hc. constructor; [exact IH|].
      rewrite List.Forall_forall in *. intros z Hz.
      apply (Permutation_in _ (Permutation_sym (insert_by_priority_perm x l))) in Hz.
      destruct Hz as [<-|Hz]; [lia|now apply Hy].
Qed.

(** The candidate that ends up in front: the first one of the highest
    priority. *)
Lemma sort_by_priority_first_seen (pre post : list FailureAnnotation)
    (w : FailureAnnotation) :
  Forall (fun a => prio a < prio w) pre ->
  Forall (fun a => prio a <= prio w) post ->
  exists rest, sort_by_priority (pre ++ w :: post) = w :: rest.
Proof.
  intros Hpre Hpost. induction Hpre as [|p pre Hp Hpre IH]; simpl.
  - destruct (sort_by_priority post) as [|y r] eqn:Hs; simpl; [eauto|].
    destruct (sort_by_priority_head _ _ _ Hs) as [Hin _].
    rewrite List.Forall_forall in Hpost. specialize (Hpost y Hin).
    apply Z.leb_le in Hpost. rewrite Hpost. eauto.
  - destruct IH as [rest ->]. simpl.
    destruct (Z.leb_spec (prio w) (prio p)); [lia|eauto].
Qed.

Lemma count_where_perm (f : FailureAnnotation -> bool) (l l' : list FailureAnnotation) :
  Permutation l l' -> count_where f l = count_where f l'.
Proof.
  unfold count_where. induction 1; simpl;
    repeat match goal with |- context [if ?b then _ else _] => destruct b end;
    simpl; lia.
Qed.

Lemma penalty_of_perm (l l' : list FailureAnnotation) :
  Permutation l l' -> penalty_of l = penalty_of l'.
Proof.
  intros Hp. unfold penalty_of. rewrite !penalty_fold. unfold spec_penalty.
  now rewrite !(count_where_perm _ l l' Hp).
Qed.

Lemma failureCandidates_perm (l l' : list FailureAnnotation) :
  Permutation l l' -> Permutation (failureCandidates l) (failureCandidates l').
Proof.
  unfold failureCandidates. induction 1; simpl;
    repeat match goal with |- context [if ?b then _ else _] => destruct b end;
    eauto using Permutation.
Qed.

(** The cap is decided by the candidates: with none it is the fallback,
    otherwise it is the cap of a candidate that no other outranks. *)
Lemma cap_of_cases (annotations : list FailureAnnotation) (ps : option ParseStatus) :
  (failureCandidates annotations = [] /\
   cap_of annotations ps = match ps with Some INVALID => 50 | _ => 100 end) \/
  (exists w, In w (failureCandidates annotations) /\
             Forall (fun a => prio a <= prio w) (failureCandidates annotations) /\
             cap_of annotations ps = getScoreCap (Some (layer w))).
Proof.
  unfold cap_of, resolveFailureLayer.
  destruct (sort_by_priority (failureCandidates annotations)) as [|w r] eqn:Hs.
  - left. apply sort_by_priority_nil in Hs. split; [exact Hs|].
    destruct ps as [[|]|]; reflexivity.
  - right. destruct (sort_by_priority_head _ _ _ Hs) as [Hin Hmax].
    exists w. auto.
Qed.

Lemma cap_of_perm (l l' : list FailureAnnotation) (ps : option ParseStatus) :
  Permutation l l' -> cap_of l ps = cap_of l' ps.
Proof.
  intros Hp. pose proof (failureCandidates_perm l l' Hp) as Hc.
  destruct (cap_of_cases l ps) as [[He ->]|(w & Hw & Hmax & ->)];
    destruct (cap_of_cases l' ps) as [[He' ->]|(w' & Hw' & Hmax' & ->)].
  - reflexivity.
  - rewrite He in Hc. apply Permutation_nil in Hc. rewrite Hc in Hw'. destruct Hw'.
  - rewrite He' in Hc. apply Permutation_sym, Permutation_nil in Hc.
    rewrite Hc in Hw. destruct Hw.
  - rewrite List.Forall_forall in Hmax, Hmax'.
    assert (H1 : prio w <= prio w').
    { apply Hmax'. eapply Permutation_in; eauto. }
    assert (H2 : prio w' <= prio w).
    { apply Hmax. eapply Permutation_in; [apply Permutation_sym|]; eauto. }
    rewrite !getScoreCap_by_priority. replace (prio w') with (prio w) by lia.
    reflexivity.
Qed.

(** One more annotation never raises the cap, unless the legacy
    [parseStatus] fallback was in force. *)
Lemma cap_of_cons (a : FailureAnnotation) (l : list FailureAnnotation)
    (ps : option ParseStatus) :
  ps <> Some INVALID -> cap_of (a :: l) ps <= cap_of l ps.
Proof.
  intros Hps.
  destruct (cap_of_cases l ps) as [[He ->]|(w & Hw & Hmax & ->)].
  - pose proof (getScoreCap_range (fst (resolveFailureLayer (a :: l) ps))).
    unfold cap_of. destruct ps as [[|]|]; try congruence; lia.
  - destruct (cap_of_cases (a :: l) ps) as [[He' _]|(w' & Hw' & Hmax' & ->)].
    + unfold failureCandidates in *. simpl in He'.
      destruct (is_failure_severity (severity a)); [discriminate|].
      rewrite He' in Hw. destruct Hw.
    + apply getScoreCap_monotone.
      rewrite List.Forall_forall in Hmax'. apply Hmax'.
      unfold failureCandidates in *. simpl.
      destruct (is_failure_severity (severity a)); [now right|exact Hw].
Qed.

Lemma spec_penalty_nonneg (l : list FailureAnnotation) : 0 <= spec_penalty l.
Proof. unfold spec_penalty, count_where. lia. Qed.

Lemma Math_round_mono (x y : Q) : (x <= y)%Q -> Math_round x <= Math_round y.
Proof.
  intros Hxy. unfold Math_round. apply Qfloor_resp_le. lra.
Qed.

Lemma clampScore_mono (cap cap' : Z) (x x' : Q) :
  cap' <= cap -> (x' <= x)%Q -> clampScore cap' x' <= clampScore cap x.
Proof.
  intros Hc Hx. unfold clampScore. pose proof (Math_round_mono x' x Hx). lia.
Qed.

(** [evaluateFinal]'s score in terms of the cap and the penalty. *)
Lemma evaluateFinal_total (s : ScoreBreakdown) (rs : option Q) (m : FailureMetadata) :
  totalScore (evaluateFinal s rs m) =
    clampScore (cap_of (default [] (meta_failureAnnotations m)) (parseStatus m))
      (baseScore01 s rs * 100 * DIFFICULTY_WEIGHTS (default M (difficulty m))
       - inject_Z (penalty_of (default [] (meta_failureAnnotations m))))%Q.
Proof.
  destruct (evaluateFinal_fields s rs m) as (Hl & _ & Ht).
  rewrite Ht, Hl. reflexivity.
Qed.

(** A failure candidate in the list bounds the score by the cap of its
    layer. *)
Lemma evaluateFinal_le_cap (s : ScoreBreakdown) (rs : option Q) (m : FailureMetadata)
    (a : FailureAnnotation) :
  In a (default [] (meta_failureAnnotations m)) ->
  is_failure_severity (severity a) = true ->
  totalScore (evaluateFinal s rs m) <= getScoreCap (Some (layer a)).
Proof.
  intros Hin Hsev. rewrite evaluateFinal_total.
  set (l := default [] (meta_failureAnnotations m)) in *.
  assert (Hc : In a (failureCandidates l))
    by (apply filter_In; now split).
  destruct (cap_of_cases l (parseStatus m)) as [[He _]|(w & Hw & Hmax & Hcap)].
  { rewrite He in Hc. destruct Hc. }
  rewrite List.Forall_forall in Hmax.
  pose proof (getScoreCap_monotone (layer a) (layer w) (Hmax a Hc)) as Hmono.
  pose proof (getScoreCap_range (Some (layer w))) as Hr.
  match goal with |- clampScore ?c ?x <= _ =>
    pose proof (clampScore_range c x) as Hclamp end.
  rewrite Hcap in *. lia.
Qed.

End FinalEvalOrder.

Section FinalEvalExtras.
Import Registry Types JsString FinalEval Views Examples.

Local Abbreviation prio a := (getPriority (layer a)).

(** X1: the sort that [evaluateFinal] applies to the failure candidates
    returns a permutation of them in descending order of layer
    priority. *)
Theorem sort_by_priority_sorted_permutation (l : list FailureAnnotation) :
  Permutation l (sort_by_priority l) /\
  StronglySorted (fun a b => prio b <= prio a) (sort_by_priority l).
Proof.
  split; [apply sort_by_priority_perm|].
  induction l as [|x l IH]; simpl; [constructor|].
  now apply insert_by_priority_sorted.
Qed.

(** X2: among the annotations of severity critical or error, the
    failure layer reported by [evaluateFinal] is the layer of the first
    one that has the highest priority, and the [errors] list holds that
    annotation's layer and message. *)
Theorem failure_layer_first_seen
    (s : ScoreBreakdown) (rs : option Q) (m : FailureMetadata)
    (pre post : list FailureAnnotation) (w : FailureAnnotation) :
  failureCandidates (default [] (meta_failureAnnotations m)) = (pre ++ w :: post)%list ->
  Forall (fun a => prio a < prio w) pre ->
  Forall (fun a => prio a <= prio w) post ->
  failureLayer (evaluateFinal s rs m) = Some (layer w) /\
  errors (evaluateFinal s rs m) = [layer w ++ ": " ++ message w].
Proof.
  intros Hc Hpre Hpost. unfold evaluateFinal.
  replace (match meta_failureAnnotations m with Some l => l | None => [] end)
    with (default [] (meta_failureAnnotations m))
    by (destruct (meta_failureAnnotations m); reflexivity).
  unfold resolveFailureLayer. rewrite Hc.
  destruct (sort_by_priority_first_seen pre post w Hpre Hpost) as [rest ->].
  simpl. split; reflexivity.
Qed.

Lemma failure_layer_first_seen_witness :
  errors (evaluateFinal perfectStatic (Some 0%Q)
            (with_annotations no_metadata twoRuntimeFailures))
    = ["L5/BrowserRuntime: ReferenceError: app is not defined"].
Proof.
  apply (failure_layer_first_seen perfectStatic (Some 0%Q)
           (with_annotations no_metadata twoRuntimeFailures)
           [] [consoleFailure] pageCrash).
  - reflexivity.
  - constructor.
  - repeat constructor. vm_compute. discriminate.
Defined.

(** X3: one annotation of severity critical or error is enough to hold
    the total score at or below the cap of its layer, whatever the
    sub-scores, the tier weight and the other annotations: at most 30
    with an L5 failure, 50 with an L4 failure, 70 with an L3 failure
    and 85 with an L2 failure. *)
Theorem evaluateFinal_capped_by_any_failure
    (s : ScoreBreakdown) (rs : option Q) (m : FailureMetadata)
    (a : FailureAnnotation) :
  In a (default [] (meta_failureAnnotations m)) ->
  is_failure_severity (severity a) = true ->
  totalScore (evaluateFinal s rs m) <= getScoreCap (Some (layer a)) /\
  (startsWith (layer a) "L5" = true -> totalScore (evaluateFinal s rs m) <= 30) /\
  (startsWith (layer a) "L4" = true -> totalScore (evaluateFinal s rs m) <= 50) /\
  (startsWith (layer a) "L3" = true -> totalScore (evaluateFinal s rs m) <= 70) /\
  (startsWith (layer a) "L2" = true -> totalScore (evaluateFinal s rs m) <= 85).
Proof.
  intros Hin Hsev.
  pose proof (evaluateFinal_le_cap s rs m a Hin Hsev) as Hcap.
  destruct (getScoreCap_table (layer a)) as (H5 & H4 & H3 & H2).
  split; [exact Hcap|].
  repeat split; intros Htag;
    [rewrite (H5 Htag) in Hcap|rewrite (H4 Htag) in Hcap
    |rewrite (H3 Htag) in Hcap|rewrite (H2 Htag) in Hcap]; exact Hcap.
Qed.

Lemma evaluateFinal_capped_by_any_failure_witness :
  totalScore (evaluateFinal perfectStatic (Some 1%Q)
                (with_annotations no_metadata twoRuntimeFailures)) <= 30.
Proof.
  destruct (evaluateFinal_capped_by_any_failure perfectStatic (Some 1%Q)
              (with_annotations no_metadata twoRuntimeFailures) consoleFailure)
    as (_ & H5 & _).
  - simpl. auto.
  - reflexivity.
  - apply H5. reflexivity.
Defined.

(** X4: the total score does not depend on the order of the
    annotations: two metadata records whose annotation lists are
    permutations of each other give the same total score. *)
Theorem evaluateFinal_score_order_independent
    (s : ScoreBreakdown) (rs : option Q) (m : FailureMetadata)
    (l l' : list FailureAnnotation) :
  Permutation l l' ->
  totalScore (evaluateFinal s rs (with_annotations m l)) =
  totalScore (evaluateFinal s rs (with_annotations m l')).
Proof.
  intros Hp. rewrite !evaluateFinal_total. simpl.
  now rewrite (cap_of_perm l l' _ Hp), (penalty_of_perm l l' Hp).
Qed.

Lemma evaluateFinal_score_order_independent_witness :
  totalScore (evaluateFinal perfectStatic None (with_annotations no_metadata crashFirst)) =
  totalScore (evaluateFinal perfectStatic None (with_annotations no_metadata crashLast)).
Proof.
  apply evaluateFinal_score_order_independent.
  unfold crashFirst, crashLast.
  apply (Permutation_rev [pageCrash; brokenLink; lintWarning]).
Defined.

(** X5: as long as the legacy [parseStatus] fallback is not in force,
    one more annotation, inserted anywhere in the list, never raises
    the total score. *)
Theorem evaluateFinal_more_evidence_never_raises
    (s : ScoreBreakdown) (rs : option Q) (m : FailureMetadata)
    (l1 l2 : list FailureAnnotation) (a : FailureAnnotation) :
  parseStatus m <> Some INVALID ->
  totalScore (evaluateFinal s rs (with_annotations m (l1 ++ a :: l2))) <=
  totalScore (evaluateFinal s rs (with_annotations m (l1 ++ l2))).
Proof.
  intros Hps. rewrite !evaluateFinal_total. simpl.
  assert (Hp : Permutation (l1 ++ a :: l2) (a :: l1 ++ l2))
    by (apply Permutation_sym, Permutation_middle).
  rewrite (cap_of_perm _ _ _ Hp), (penalty_of_perm _ _ Hp).
  apply clampScore_mono; [now apply cap_of_cons|].
  unfold penalty_of. rewrite !penalty_fold.
  rewrite (spec_penalty_cons a (l1 ++ l2)).
  pose proof (spec_penalty_nonneg [a]) as Hnn.
  assert (Hq : (inject_Z (0 + spec_penalty (l1 ++ l2)) <=
                inject_Z (0 + (spec_penalty [a] + spec_penalty (l1 ++ l2))))%Q).
  { rewrite <- Zle_Qle. lia. }
  lra.
Qed.

Lemma evaluateFinal_more_evidence_never_raises_witness :
  totalScore (evaluateFinal perfectStatic None
                (with_annotations no_metadata [lintWarning; brokenLink; pageCrash])) <=
  totalScore (evaluateFinal perfectStatic None
                (with_annotations no_metadata [lintWarning; pageCrash])).
Proof.
  apply (evaluateFinal_more_evidence_never_raises perfectStatic None no_metadata
           [lintWarning] [pageCrash] brokenLink).
  discriminate.
Defined.

End FinalEvalExtras.

(** ** Static evaluator: sections 1, 2 and 4 and the connectivity mean *)

Section StaticSectionsFacts.
Import Registry Types JsString StaticEval StaticChecks FinalEval Views.

Lemma existsb_eqb_In (x : string) (l : list string) :
  existsb (String.eqb x) l = true <-> In x l.
Proof.
  rewrite existsb_exists. split.
  - intros (y & Hy & He). apply String.eqb_eq in He. now subst.
  - intros H. exists x. split; [exact H|apply String.eqb_refl].
Qed.

Lemma forallb_false_filter {A} (f : A -> bool) (l : list A) :
  forallb f l = false <-> List.filter (fun x => negb (f x)) l <> [].
Proof.
  induction l as [|x l IH]; simpl; [split; [discriminate|congruence]|].
  destruct (f x); simpl; [exact IH|]. split; [discriminate|reflexivity].
Qed.

Lemma ratio_in_unit (a b : nat) :
  (a <= b)%nat -> (0 < b)%nat ->
  (0 <= inject_Z (Z.of_nat a) / inject_Z (Z.of_nat b) <= 1)%Q.
Proof.
  intros Hab Hb.
  assert (Hpos : (0 < inject_Z (Z.of_nat b))%Q).
  { change 0%Q with (inject_Z 0). rewrite <- Zlt_Qlt. lia. }
  split.
  - apply Qle_shift_div_l; [exact Hpos|].
    rewrite Qmult_0_l. change 0%Q with (inject_Z 0). rewrite <- Zle_Qle. lia.
  - apply Qle_shift_div_r; [exact Hpos|].
    rewrite Qmult_1_l. rewrite <- Zle_Qle. lia.
Qed.

Lemma ratio_below_one (a b : nat) :
  (a < b)%nat ->
  Qle_bool 1 (inject_Z (Z.of_nat a) / inject_Z (Z.of_nat b)) = false.
Proof.
  intros Hab. apply not_true_is_false. intros Hle. apply Qle_bool_iff in Hle.
  assert (Hpos : (0 < inject_Z (Z.of_nat b))%Q).
  { change 0%Q with (inject_Z 0). rewrite <- Zlt_Qlt. lia. }
  apply (Qmult_le_compat_r _ _ (inject_Z (Z.of_nat b))) in Hle; [|now apply Qlt_le_weak].
  rewrite Qmult_1_l in Hle.
  assert (Hq : (inject_Z (Z.of_nat a) / inject_Z (Z.of_nat b) * inject_Z (Z.of_nat b)
                == inject_Z (Z.of_nat a))%Q).
  { field. intros H0. rewrite H0 in Hpos. now apply Qlt_irrefl in Hpos. }
  rewrite Hq in Hle. rewrite <- Zle_Qle in Hle. lia.
Qed.

Lemma filter_length_lt {A} (f : A -> bool) (l : list A) (x : A) :
  In x l -> f x = false -> (length (List.filter f l) < length l)%nat.
Proof.
  induction l as [|y l IH]; simpl; [tauto|].
  intros [->|Hin] Hfx.
  - rewrite Hfx. pose proof (filter_length_le f l). lia.
  - specialize (IH Hin Hfx). destruct (f y); simpl; lia.
Qed.

Section WithCollaborators.

Variable toLowerCase : string -> string.
Variable JSON_parse : string -> option JsValue.
Variables scan_getElementById scan_getElementsByClassName scan_querySelector_id
          scan_querySelector_class scan_html_id scan_html_class : string -> list string.
Variable toFixed2 : Q -> string.

Local Abbreviation sections :=
  (staticSections toLowerCase JSON_parse scan_getElementById scan_getElementsByClassName
     scan_querySelector_id scan_querySelector_class scan_html_id scan_html_class
     toFixed2).

(** A missing required file, a file that fails its sanity check, or an
    empty bundle leaves an L4 annotation of severity error. *)
Lemma staticSections_parse_error (files : Files) (taskSpec : TaskSpec) :
  missingFiles files (requiredFiles taskSpec) <> [] \/
  files = [] \/
  (exists file, In file (map fst files) /\
                validFile JSON_parse file (file_content files file) = false) ->
  exists a, In a (sec_annotations (sections files taskSpec)) /\
            layer a = "L4/Parse" /\ severity a = error.
Proof.
  intros Hcase. unfold staticSections. cbv zeta. simpl sec_annotations.
  destruct Hcase as [Hmiss|Hbad].
  - apply forallb_false_filter in Hmiss.
    unfold missingFiles. rewrite Hmiss. simpl.
    eexists. split; [left; reflexivity|]. split; reflexivity.
  - set (valid := fun file => validFile JSON_parse file (file_content files file)).
    set (structure :=
           if (0 <? length (map fst files))%nat
           then (inject_Z (Z.of_nat (length (List.filter valid (map fst files))))
                 / inject_Z (Z.of_nat (length (map fst files))))%Q
           else 0%Q).
    assert (Hlow : negb (Qle_bool 1 structure) = true).
    { subst structure. destruct Hbad as [->|(file & Hin & Hv)]; [reflexivity|].
      pose proof (filter_length_lt valid (map fst files) file Hin Hv) as Hlt.
      destruct (Nat.ltb_spec 0 (length (map fst files))); [|lia].
      rewrite ratio_below_one; [reflexivity|exact Hlt]. }
    rewrite Hlow.
    eexists. split.
    { apply in_or_app. right. apply in_or_app. left. left. reflexivity. }
    split; reflexivity.
Qed.

End WithCollaborators.

End StaticSectionsFacts.

Section StaticExtras.
Import Registry Types JsString StaticEval StaticChecks FinalEval Views.

Variable toLowerCase : string -> string.
Variable JSON_parse : string -> option JsValue.
Variables scan_getElementById scan_getElementsByClassName scan_querySelector_id
          scan_querySelector_class scan_html_id scan_html_class : string -> list string.
Variable toFixed2 : Q -> string.

Local Abbreviation sections :=
  (staticSections toLowerCase JSON_parse scan_getElementById scan_getElementsByClassName
     scan_querySelector_id scan_querySelector_class scan_html_id scan_html_class
     toFixed2).

(** X6: whatever the sub-checks return and whatever the tier, the
    connectivity score lies between 0 and 1, and it is 1 exactly when
    every enabled sub-check returned 1. *)
Theorem connectivity_score_in_unit_interval
    (evaluateScriptBinding evaluateApiSchemaLinkage evaluateRouteConsistency :
       Files -> SubScore * list FailureAnnotation)
    (files : Files) (taskSpec : TaskSpec) :
  let r := evaluateConnectivity toLowerCase evaluateScriptBinding
             evaluateApiSchemaLinkage evaluateRouteConsistency files taskSpec in
  (0 <= connectivityScore r <= 1)%Q /\
  ((connectivityScore r == 1)%Q <->
   forallb (fun c => match c with score1 => true | _ => false end)
     (enabledComponents (size taskSpec) (fileReference r) (scriptBinding r)
        (apiSchemaLinkage r) (routeConsistency r)) = true).
Proof.
  unfold evaluateConnectivity.
  destruct (evaluateFileReference toLowerCase files (requiredFiles taskSpec)) as [fr a1].
  destruct (evaluateScriptBinding files) as [sb a2].
  destruct (evaluateApiSchemaLinkage files) as [api a3].
  destruct (evaluateRouteConsistency files) as [rc a4].
  cbv zeta. simpl.
  destruct (size taskSpec), fr, sb, api, rc; vm_compute;
    (split; [split; discriminate|split; intros H; try reflexivity; discriminate]).
Qed.

(** X7: in [evaluateStatic], completeness is 1 when every required
    file is present with non-blank content and 0.5 otherwise (never
    0); structure lies between 0 and 1 and is 0 for an empty bundle;
    and survivability is 1 exactly when completeness is 1 and both
    structure and connectivity are at least 0.5, and 0 otherwise.
    Content is blank when [trim] leaves nothing of it: white space
    and line terminators only, those beyond ASCII included. *)
Theorem staticSections_scores (files : Files) (taskSpec : TaskSpec) :
  let r := sections files taskSpec in
  (sec_completeness r = 1%Q \/ sec_completeness r = (1 # 2)%Q) /\
  (sec_completeness r = 1%Q <->
   Forall (fun f => In f (map fst files) /\
                    trim_is_empty (file_content files f) = false)
          (requiredFiles taskSpec)) /\
  (0 <= sec_structure r <= 1)%Q /\
  (files = [] -> sec_structure r = 0%Q) /\
  (sec_survivability r = 1%Q \/ sec_survivability r = 0%Q) /\
  (sec_survivability r = 1%Q <->
   sec_completeness r = 1%Q /\
   (1 # 2 <= sec_structure r)%Q /\
   (1 # 2 <= connectivityScore (sec_connectivity r))%Q).
Proof.
  cbv zeta. unfold staticSections. cbv zeta. simpl.
  set (present := forallb _ (requiredFiles taskSpec)).
  set (nonEmpty := forallb _ (requiredFiles taskSpec)).
  set (structure := if (0 <? length (map fst files))%nat then _ else _).
  set (conn := evaluateConnectivity _ _ _ _ files taskSpec).
  assert (Hcomplete : present && nonEmpty = true <->
            Forall (fun f => In f (map fst files) /\
                             trim_is_empty (file_content files f) = false)
                   (requiredFiles taskSpec)).
  { subst present nonEmpty. rewrite andb_true_iff, !forallb_forall, List.Forall_forall.
    split.
    - intros [_ H] f Hf. specialize (H f Hf). apply andb_true_iff in H as [H1 H2].
      split; [now apply existsb_eqb_In|now apply negb_true_iff].
    - intros H. split; intros f Hf; destruct (H f Hf) as [H1 H2].
      + now apply existsb_eqb_In.
      + apply andb_true_iff. split; [now apply existsb_eqb_In|now apply negb_true_iff]. }
  assert (Hstruct : (0 <= structure <= 1)%Q).
  { subst structure. destruct (Nat.ltb_spec 0 (length (map fst files))).
    - apply ratio_in_unit; [apply filter_length_le|assumption].
    - split; discriminate. }
  split; [destruct (present && nonEmpty); auto|].
  split.
  { rewrite <- Hcomplete. destruct (present && nonEmpty); split; intros H;
      try reflexivity; discriminate. }
  split; [exact Hstruct|].
  split; [intros ->; reflexivity|].
  split.
  { destruct (present && nonEmpty); [|auto].
    destruct (Qle_bool (1 # 2) structure && Qle_bool (1 # 2) (connectivityScore conn));
      auto. }
  destruct (present && nonEmpty).
  - destruct (Qle_bool (1 # 2) structure) eqn:H1;
      destruct (Qle_bool (1 # 2) (connectivityScore conn)) eqn:H2; simpl.
    + apply Qle_bool_iff in H1, H2. tauto.
    + split; [discriminate|]. intros (_ & _ & H). apply Qle_bool_iff in H. congruence.
    + split; [discriminate|]. intros (_ & H & _). apply Qle_bool_iff in H. congruence.
    + split; [discriminate|]. intros (_ & H & _). apply Qle_bool_iff in H. congruence.
  - split; [discriminate|]. intros (H & _). discriminate.
Qed.

(** X8: a bundle that lacks a required file, is empty, or holds a file
    that fails its sanity check gets an L4 annotation of severity error
    from [evaluateStatic]; handed to [evaluateFinal] together with any
    other evidence, it holds the total score at or below 50. *)
Theorem malformed_bundle_scores_at_most_50
    (files : Files) (taskSpec : TaskSpec)
    (s : ScoreBreakdown) (rs : option Q) (m : FailureMetadata) :
  missingFiles files (requiredFiles taskSpec) <> [] \/
  files = [] \/
  (exists file, In file (map fst files) /\
                validFile JSON_parse file (file_content files file) = false) ->
  incl (sec_annotations (sections files taskSpec))
       (default [] (meta_failureAnnotations m)) ->
  totalScore (evaluateFinal s rs m) <= 50.
Proof.
  intros Hcase Hincl.
  destruct (staticSections_parse_error toLowerCase JSON_parse scan_getElementById
              scan_getElementsByClassName scan_querySelector_id
              scan_querySelector_class scan_html_id scan_html_class toFixed2
              files taskSpec Hcase) as (a & Hin & Hlayer & Hsev).
  pose proof (evaluateFinal_le_cap s rs m a (Hincl a Hin)) as Hcap.
  rewrite Hsev, Hlayer in Hcap. apply Hcap. reflexivity.
Qed.

End StaticExtras.

Section StaticExtrasRuns.
Import Registry Types JsString StaticEval StaticChecks FinalEval Views Examples.

Lemma staticSections_scores_witness :
  sec_completeness
    (staticSections toLowerCase_ascii tinyParse noScan noScan noScan noScan noScan noScan fixed2
       barePage anyTask) = 1%Q /\
  sec_survivability
    (staticSections toLowerCase_ascii tinyParse noScan noScan noScan noScan noScan noScan fixed2
       barePage anyTask) = 1%Q /\
  sec_structure
    (staticSections toLowerCase_ascii tinyParse noScan noScan noScan noScan noScan noScan fixed2
       [] anyTask) = 0%Q /\
  sec_completeness
    (staticSections toLowerCase_ascii tinyParse noScan noScan noScan noScan noScan noScan fixed2
       blankPage anyTask) = (1 # 2)%Q.
Proof.
  destruct (staticSections_scores toLowerCase_ascii tinyParse noScan noScan noScan noScan noScan noScan
              fixed2 barePage anyTask) as (_ & Hc & _ & _ & _ & Hs).
  destruct (staticSections_scores toLowerCase_ascii tinyParse noScan noScan noScan noScan noScan noScan
              fixed2 [] anyTask) as (_ & _ & _ & He & _).
  destruct (staticSections_scores toLowerCase_ascii tinyParse noScan noScan noScan noScan noScan noScan
              fixed2 blankPage anyTask) as (Hhalf & Hblank & _).
  assert (H1 : sec_completeness
                 (staticSections toLowerCase_ascii tinyParse noScan noScan noScan noScan noScan noScan
                    fixed2 barePage anyTask) = 1%Q).
  { apply Hc. repeat constructor. }
  split; [exact H1|]. split; [|split; [apply He; reflexivity|]].
  - apply Hs. split; [exact H1|]. split; vm_compute; discriminate.
  - destruct Hhalf as [Hone|Hhalf]; [|exact Hhalf].
    apply Hblank in Hone. inversion Hone as [|f l [_ Htrim] _]. discriminate.
Defined.

Lemma malformed_bundle_scores_at_most_50_witness :
  totalScore
    (evaluateFinal perfectStatic None
       (with_annotations no_metadata
          (sec_annotations
             (staticSections toLowerCase_ascii tinyParse noScan noScan noScan noScan noScan noScan
                fixed2 barePage incompleteTask)))) <= 50.
Proof.
  apply (malformed_bundle_scores_at_most_50 toLowerCase_ascii tinyParse noScan noScan noScan noScan
           noScan noScan fixed2 barePage incompleteTask).
  - left. vm_compute. discriminate.
  - simpl. apply incl_refl.
Defined.

End StaticExtrasRuns.

(** ** Static evaluator: route, schema and binding sub-checks *)

Section SetFacts.
Import JsString StaticChecks.

Lemma string_set_In (x : string) (l : list string) :
  In x (string_set l) <-> In x l.
Proof.
  induction l as [|y l IH]; simpl; [tauto|].
  rewrite filter_In, IH. split.
  - intros [H|[H _]]; auto.
  - intros [H|H]; [now left|].
    destruct (String.eqb_spec y x) as [->|Hne]; [now left|].
    right. split; [exact H|reflexivity].
Qed.

Lemma string_set_length (l : list string) :
  (length (string_set l) <= length l)%nat.
Proof.
  induction l as [|y l IH]; simpl; [lia|].
  pose proof (filter_length_le (fun z => negb (String.eqb y z)) (string_set l)). lia.
Qed.

Lemma filter_length_eq_id {A} (f : A -> bool) (l : list A) :
  length (List.filter f l) = length l -> List.filter f l = l.
Proof.
  induction l as [|x l IH]; simpl; [reflexivity|].
  pose proof (filter_length_le f l) as Hle.
  destruct (f x); simpl; intros Hlen; [f_equal; apply IH; lia|lia].
Qed.

(** The set is as long as the list exactly when the list has no
    repetition. *)
Lemma string_set_full_iff_NoDup (l : list string) :
  length (string_set l) = length l <-> List.NoDup l.
Proof.
  induction l as [|y l IH]; simpl; [split; [constructor|reflexivity]|].
  pose proof (string_set_length l).
  pose proof (filter_length_le (fun z => negb (String.eqb y z)) (string_set l)).
  split.
  - intros Hlen.
    assert (Hf : length (List.filter (fun z => negb (String.eqb y z)) (string_set l))
                 = length (string_set l)) by lia.
    apply filter_length_eq_id in Hf.
    constructor.
    + intros Hin. apply string_set_In in Hin. rewrite <- Hf in Hin.
      apply filter_In in Hin as [_ Hne]. now rewrite String.eqb_refl in Hne.
    + apply IH. lia.
  - intros Hnd. inversion Hnd as [|? ? Hnotin Hnd']; subst.
    apply IH in Hnd'.
    assert (Hf : List.filter (fun z => negb (String.eqb y z)) (string_set l)
                 = string_set l).
    { apply List.forallb_filter_id. apply forallb_forall. intros z Hz.
      apply negb_true_iff, String.eqb_neq. intros ->.
      apply Hnotin. now apply string_set_In. }
    rewrite Hf. lia.
Qed.

Lemma Set_of_strings (l : list string) :
  Set_of (map JsStr l) = map JsStr (string_set l).
Proof.
  induction l as [|y l IH]; simpl; [reflexivity|].
  rewrite IH. clear IH. f_equal.
  induction (string_set l) as [|z r IHr]; simpl; [reflexivity|].
  destruct (String.eqb y z); simpl; now rewrite IHr.
Qed.

Lemma nonblank_strings (values : list JsValue) :
  forallb nonblank_string values = true <->
  exists targets, values = map JsStr targets /\
                  Forall (fun t => trim_is_empty t = false) targets.
Proof.
  induction values as [|v values IH]; simpl.
  - split; [exists []; split; [reflexivity|constructor]|reflexivity].
  - rewrite andb_true_iff, IH. split.
    + intros [Hv (ts & -> & Hts)]. destruct v; try discriminate.
      exists (s :: ts). split; [reflexivity|].
      constructor; [now apply negb_true_iff|exact Hts].
    + intros (ts & Heq & Hts). destruct ts as [|t ts]; [discriminate|].
      inversion Heq; subst. inversion Hts; subst. split.
      * now apply negb_true_iff.
      * exists ts. auto.
Qed.

End SetFacts.

Section SubCheckExtras.
Import Registry Types JsString StaticEval StaticChecks.

Variable toLowerCase : string -> string.
Variable JSON_parse : string -> option JsValue.

(** X9: [evaluateRouteConsistency] returns 0 and no annotation when
    [routes.json] is absent or empty; it returns 1 exactly when the
    file parses to a non-empty object or array whose values are all
    non-blank strings without repetition, and then emits nothing; a
    0.5 comes with one warning; and unparsable content gives 0 with
    one error annotation that names the file.  A string is blank
    when [trim] leaves nothing of it, a no-break space for one. *)
Theorem evaluateRouteConsistency_cases (files : Files) :
  let content := file_content files "routes.json" in
  let r := evaluateRouteConsistency JSON_parse files in
  (content = EmptyString -> r = (score0, [])) /\
  (fst r = score1 <->
   content <> EmptyString /\
   exists routes targets,
     JSON_parse content = Some routes /\
     Js.truthy routes && Js.typeof_object routes = true /\
     Object_values routes = map JsStr targets /\
     targets <> [] /\
     Forall (fun t => trim_is_empty t = false) targets /\
     List.NoDup targets) /\
  (fst r = score1 -> snd r = []) /\
  (fst r = score05 -> map severity (snd r) = [warning]) /\
  (JSON_parse content = None -> content <> EmptyString ->
   fst r = score0 /\ map severity (snd r) = [error] /\
   map filePath (snd r) = [Some "routes.json"]).
Proof.
  cbv zeta. unfold evaluateRouteConsistency.
  set (content := file_content files "routes.json").
  destruct (String.eqb_spec content EmptyString) as [Hempty|Hcontent].
  { cbn [fst snd]. split; [reflexivity|].
    split; [split; [discriminate|intros (Hne & _); congruence]|].
    split; [reflexivity|]. split; [discriminate|congruence]. }
  split; [congruence|].
  destruct (JSON_parse content) as [routes|] eqn:Hparse.
  2:{ cbn [fst snd map]. 
      split; [split; [discriminate|intros (_ & r & t & Hp & _); discriminate]|].
      split; [discriminate|]. split; [discriminate|]. intros _ _.
      split; [reflexivity|]. split; reflexivity. }
  set (values := Object_values routes).
  destruct (negb (Js.truthy routes) || negb (Js.typeof_object routes)
            || (length (Js.entries routes) =? 0)%nat) eqn:Hcond.
  { cbn [fst snd map].
    split; [split; [discriminate|]|].
    2:{ split; [discriminate|]. split; [discriminate|discriminate]. }
    intros (_ & routes' & targets & Hp & Hobj & Hvals & Hne & _).
    inversion Hp; subst routes'.
    apply orb_true_iff in Hcond as [Hcond|Hcond].
    - apply andb_true_iff in Hobj as [H1 H2]. rewrite H1, H2 in Hcond. discriminate.
    - apply Nat.eqb_eq in Hcond.
      assert (Hlen : length (Object_values routes) = 0%nat)
        by (unfold Object_values; now rewrite length_map).
      rewrite Hvals, length_map in Hlen. destruct targets; [congruence|discriminate]. }
  apply orb_false_iff in Hcond as [Hcond Hlen].
  apply orb_false_iff in Hcond as [Ht Ho].
  apply negb_false_iff in Ht, Ho. apply Nat.eqb_neq in Hlen.
  destruct (forallb nonblank_string values) eqn:Hnb; cbn [andb negb].
  - destruct (length (Set_of values) <? length values)%nat eqn:Hdup; cbn [negb fst snd map].
    + split; [split; [discriminate|]|].
      2:{ split; [discriminate|]. split; [reflexivity|discriminate]. }
      intros (_ & routes' & targets & Hp & _ & Hvals & _ & _ & Hnd).
      inversion Hp; subst routes'. fold values in Hvals.
      rewrite Hvals, Set_of_strings, !length_map in Hdup.
      apply string_set_full_iff_NoDup in Hnd. apply Nat.ltb_lt in Hdup. lia.
    + split; [split; [|reflexivity]|].
      2:{ split; [reflexivity|]. split; [discriminate|discriminate]. }
      intros _. split; [exact Hcontent|].
      apply nonblank_strings in Hnb as (targets & Hvals & Hts).
      exists routes, targets. split; [reflexivity|].
      split; [now rewrite Ht, Ho|]. split; [exact Hvals|].
      split.
      { intros ->. apply Hlen. unfold values, Object_values in Hvals.
        apply (f_equal (@length _)) in Hvals. now rewrite length_map in Hvals. }
      split; [exact Hts|].
      apply string_set_full_iff_NoDup.
      rewrite Hvals, Set_of_strings, !length_map in Hdup.
      apply Nat.ltb_ge in Hdup. pose proof (string_set_length targets). lia.
  - cbn [fst snd map].
    split; [split; [discriminate|]|].
    2:{ split; [discriminate|]. split; [reflexivity|discriminate]. }
    intros (_ & routes' & targets & Hp & _ & Hvals & _ & Hts & _).
    inversion Hp; subst routes'. fold values in Hvals.
    assert (Hall : forallb nonblank_string values = true)
      by (apply nonblank_strings; eauto).
    congruence.
Qed.

(** X10: [evaluateApiSchemaLinkage] is vacuously 1, with no
    annotation, when [api.json] is absent or empty or the schema has no
    keys; it is 1 when some key occurs verbatim in the scanned files;
    a 0.5 comes with one warning and a 0 with one error; and a schema
    that is the JSON value [null] is reported as invalid JSON. *)
Theorem evaluateApiSchemaLinkage_cases (files : Files) :
  let content := file_content files "api.json" in
  let r := evaluateApiSchemaLinkage toLowerCase JSON_parse files in
  (content = EmptyString -> r = (score1, [])) /\
  (forall api keys,
      content <> EmptyString ->
      JSON_parse content = Some api -> Object_keys api = Returned keys ->
      (keys = [] -> r = (score1, [])) /\
      (trim_is_empty (scanContent files) = false ->
       (exists k, In k keys /\ includes (scanContent files) k = true) ->
       r = (score1, []))) /\
  (fst r = score1 -> snd r = []) /\
  (fst r = score05 -> map severity (snd r) = [warning]) /\
  (fst r = score0 -> map severity (snd r) = [error]) /\
  (content <> EmptyString -> JSON_parse content = Some JsNull ->
   fst r = score0 /\ map ruleId (snd r) = [PARSE_INVALID_JSON]).
Proof.
  cbv zeta. unfold evaluateApiSchemaLinkage.
  set (content := file_content files "api.json").
  destruct (String.eqb_spec content EmptyString) as [Hempty|Hcontent].
  { repeat split; try discriminate; try congruence. }
  split; [congruence|]. split.
  { intros api keys _ Hp Hk. rewrite Hp, Hk. split.
    - intros ->. reflexivity.
    - intros Hscan (k & Hin & Hinc).
      destruct (length keys =? 0)%nat; [reflexivity|].
      rewrite Hscan.
      replace (existsb (fun k0 => includes (scanContent files) k0) keys) with true;
        [reflexivity|].
      symmetry. apply existsb_exists. eauto. }
  destruct (JSON_parse content) as [api|]; simpl.
  2:{ repeat split; try discriminate; try congruence. }
  destruct (Object_keys api) as [keys|e] eqn:Hk; simpl.
  2:{ repeat split; try discriminate; try congruence. }
  assert (Hnull : api <> JsNull) by (intros ->; discriminate).
  repeat match goal with |- context [if ?b then (_, _) else _] => destruct b end;
    simpl; repeat split; try discriminate; try congruence.
Qed.

Variables scan_getElementById scan_getElementsByClassName scan_querySelector_id
          scan_querySelector_class scan_html_id scan_html_class : string -> list string.

Local Abbreviation bind :=
  (evaluateScriptBinding scan_getElementById scan_getElementsByClassName
     scan_querySelector_id scan_querySelector_class scan_html_id scan_html_class).

(** X11: [evaluateScriptBinding] returns 0 when the bundle has no
    script or no markup file, with an error annotation only when
    scripts exist without markup.  When both exist, one selector of the
    scripts that the markup declares (an id or a class) is enough for
    1, whatever else is unmatched; otherwise the result is 0 or 0.5
    with one annotation of severity warning. *)
Theorem evaluateScriptBinding_cases (files : Files) :
  let jsFiles := List.filter (fun f => endsWith f ".js") (map fst files) in
  let htmlFiles := List.filter (fun f => endsWith f ".html") (map fst files) in
  let jsContent := join newline (map (file_content files) jsFiles) in
  let htmlContent := join newline (map (file_content files) htmlFiles) in
  let r := bind files in
  (htmlFiles = [] -> fst r = score0 /\
                     (jsFiles <> [] -> map severity (snd r) = [error]) /\
                     (jsFiles = [] -> snd r = [])) /\
  (jsFiles = [] -> r = (score0, [])) /\
  (jsFiles <> [] -> htmlFiles <> [] ->
   ((exists i, In i (scan_getElementById jsContent ++ scan_querySelector_id jsContent)
               /\ In i (scan_html_id htmlContent)) \/
    (exists c, In c (scan_getElementsByClassName jsContent
                     ++ scan_querySelector_class jsContent)
               /\ In c (flat_map split_ws (scan_html_class htmlContent))) ->
    r = (score1, [])) /\
   (fst r = score1 \/ map severity (snd r) = [warning])).
Proof.
  cbv zeta. unfold evaluateScriptBinding.
  set (jsFiles := List.filter (fun f => endsWith f ".js") (map fst files)).
  set (htmlFiles := List.filter (fun f => endsWith f ".html") (map fst files)).
  split; [|split].
  - intros Hh. rewrite Hh. simpl. rewrite orb_true_r.
    destruct jsFiles; simpl; repeat split; try congruence.
  - intros Hj. rewrite Hj. reflexivity.
  - intros Hj Hh.
    destruct jsFiles as [|j js] eqn:Ej; [congruence|].
    destruct htmlFiles as [|h hs] eqn:Eh; [congruence|].
    rewrite <- Ej, <- Eh in *.
    replace ((length jsFiles =? 0)%nat || (length htmlFiles =? 0)%nat) with false
      by (rewrite Ej, Eh; reflexivity).
    set (jsContent := join newline (map (file_content files) jsFiles)).
    set (htmlContent := join newline (map (file_content files) htmlFiles)).
    set (jsIds := string_set (scan_getElementById jsContent
                              ++ scan_querySelector_id jsContent)).
    set (jsClasses := string_set (scan_getElementsByClassName jsContent
                                  ++ scan_querySelector_class jsContent)).
    set (htmlIds := string_set (scan_html_id htmlContent)).
    set (htmlClasses := string_set (flat_map split_ws (scan_html_class htmlContent))).
    split.
    + intros Hmatch.
      assert (Hfound :
        existsb (fun x => existsb (String.eqb x) htmlIds) jsIds
        || existsb (fun x => existsb (String.eqb x) htmlClasses) jsClasses = true).
      { apply orb_true_iff.
        destruct Hmatch as [(i & Hi1 & Hi2)|(c & Hc1 & Hc2)]; [left|right];
          apply existsb_exists; eexists; (split;
            [apply string_set_In; eassumption
            |apply existsb_exists; eexists; split;
               [apply string_set_In; eassumption|apply String.eqb_refl]]). }
      assert (Hsel : (0 <? length jsIds)%nat || (0 <? length jsClasses)%nat = true).
      { apply orb_true_iff in Hfound as [H|H]; apply existsb_exists in H as (x & Hx & _);
          [destruct jsIds|destruct jsClasses]; try destruct Hx;
          simpl; rewrite ?orb_true_r; reflexivity. }
      rewrite Hsel. simpl. rewrite Hfound. reflexivity.
    + destruct (negb _ && negb _); [right; reflexivity|].
      destruct (existsb _ jsIds || existsb _ jsClasses); [left|right]; reflexivity.
Qed.

End SubCheckExtras.

Section SubCheckRuns.
Import Registry Types JsString StaticEval StaticChecks Examples.

Lemma evaluateRouteConsistency_cases_witness :
  evaluateRouteConsistency tinyParse barePage = (score0, []) /\
  fst (evaluateRouteConsistency tinyParse
         [("index.html", "<html>"); ("routes.json", "routes")]) = score1 /\
  fst (evaluateRouteConsistency tinyParse
         [("index.html", "<html>"); ("routes.json", "dup")]) = score05 /\
  map filePath (snd (evaluateRouteConsistency tinyParse
                       [("routes.json", "{not json")])) = [Some "routes.json"] /\
  fst (evaluateRouteConsistency tinyParse [("routes.json", "blank")]) <> score1.
Proof.
  split.
  { apply (evaluateRouteConsistency_cases tinyParse barePage). reflexivity. }
  split.
  { apply (evaluateRouteConsistency_cases tinyParse
             [("index.html", "<html>"); ("routes.json", "routes")]).
    split; [discriminate|].
    exists (JsObject [("home", JsStr "/"); ("about", JsStr "/about")]), ["/"; "/about"].
    repeat split; try reflexivity; try discriminate.
    - repeat constructor.
    - repeat constructor; simpl; intuition discriminate. }
  split; [reflexivity|].
  split.
  { destruct (evaluateRouteConsistency_cases tinyParse [("routes.json", "{not json")])
      as (_ & _ & _ & _ & H).
    apply H; [reflexivity|discriminate]. }
  destruct (evaluateRouteConsistency_cases tinyParse [("routes.json", "blank")])
    as (_ & [H _] & _).
  intros Hone. destruct (H Hone) as (_ & routes & targets & Hp & _ & Hv & _ & Hnb & _).
  clear H Hone. injection Hp as <-.
  destruct targets as [|t [|t' l]]; try discriminate.
  injection Hv as <-. inversion Hnb as [|x l Htrim _]. discriminate.
Defined.

Lemma evaluateApiSchemaLinkage_cases_witness :
  evaluateApiSchemaLinkage toLowerCase_ascii tinyParse barePage = (score1, []) /\
  evaluateApiSchemaLinkage toLowerCase_ascii tinyParse
    [("api.json", "api"); ("main.js", "fetch(u).then(r => r.userName)")] = (score1, []) /\
  map severity (snd (evaluateApiSchemaLinkage toLowerCase_ascii tinyParse
                       [("api.json", "api"); ("main.js", "r.username")])) = [warning] /\
  map ruleId (snd (evaluateApiSchemaLinkage toLowerCase_ascii tinyParse [("api.json", "null")]))
    = [PARSE_INVALID_JSON].
Proof.
  split.
  { apply (evaluateApiSchemaLinkage_cases toLowerCase_ascii tinyParse barePage). reflexivity. }
  split.
  { destruct (evaluateApiSchemaLinkage_cases toLowerCase_ascii tinyParse
                [("api.json", "api"); ("main.js", "fetch(u).then(r => r.userName)")])
      as (_ & H & _).
    apply (H (JsObject [("userName", JsNumber 1)]) ["userName"]);
      try reflexivity; try discriminate.
    exists "userName". split; [now left|reflexivity]. }
  split.
  { destruct (evaluateApiSchemaLinkage_cases toLowerCase_ascii tinyParse
                [("api.json", "api"); ("main.js", "r.username")])
      as (_ & _ & _ & H & _).
    apply H. reflexivity. }
  destruct (evaluateApiSchemaLinkage_cases toLowerCase_ascii tinyParse [("api.json", "null")])
    as (_ & _ & _ & _ & _ & H).
  apply H; [discriminate|reflexivity].
Defined.

(** Scans that find the same id on both sides, and an id the markup
    does not declare. *)
Lemma evaluateScriptBinding_cases_witness :
  evaluateScriptBinding (fun _ => ["app"; "missing"]) noScan noScan noScan
    (fun _ => ["app"]) noScan
    [("index.html", "<div id='app'>"); ("main.js", "getElementById('app')")]
    = (score1, []) /\
  evaluateScriptBinding noScan noScan noScan noScan noScan noScan scriptOnly
    = (score0, [makeFail def_CONNECTIVITY_BROKEN_BINDING
                  "JS files exist but no HTML to bind them"]).
Proof.
  split.
  - destruct (evaluateScriptBinding_cases (fun _ => ["app"; "missing"]) noScan noScan
                noScan (fun _ => ["app"]) noScan
                [("index.html", "<div id='app'>"); ("main.js", "getElementById('app')")])
      as (_ & _ & H).
    destruct H as [H _]; try discriminate.
    apply H. left. exists "app". split; simpl; auto.
  - reflexivity.
Defined.

End SubCheckRuns.

Section RuntimeEvalMoreFacts.
Import Registry Types JsString FinalEval RuntimeEval Views.

(** What every annotation of the runtime evaluator satisfies. *)
Local Abbreviation runtime_rule a :=
  (from_registry a /\ category a = Registry.runtime /\
   (is_failure_severity (severity a) = true -> layer a = "L5/BrowserRuntime")).

Lemma classifyError_step (st : Classified) (err : BrowserError) :
  exists a ws,
    c_annotations (classifyError st err) = (c_annotations st ++ [a])%list /\
    runtime_rule a /\
    is_failure_severity (severity a) = fatal err /\
    c_warnings (classifyError st err) = (c_warnings st ++ ws)%list /\
    length ws = (if fatal err then 0 else 1)%nat /\
    Forall (fun w => bl_type w = "console.warn") ws.
Proof.
  unfold classifyError, fatal.
  destruct (String.eqb (be_type err) "pageerror") eqn:Hp; simpl.
  { eexists; exists []. rewrite app_nil_r.
    split; [reflexivity|]. split.
    - split; [exists def_RUNTIME_CRASH; repeat split; auto|]. split; reflexivity.
    - repeat split; constructor. }
  destruct (String.eqb (be_type err) "network") eqn:Hn; simpl.
  { destruct (criticalResource err); simpl.
    - eexists; exists []. rewrite app_nil_r.
      split; [reflexivity|]. split.
      + split; [exists def_RUNTIME_NETWORK_FAIL; repeat split; auto|].
        split; reflexivity.
      + repeat split; constructor.
    - apply String.eqb_eq in Hn. rewrite Hn. simpl.
      eexists; eexists. split; [reflexivity|]. split.
      + split; [exists def_RUNTIME_NETWORK_FAIL; repeat split; auto|].
        split; [reflexivity|discriminate].
      + split; [reflexivity|]. split; [reflexivity|].
        split; [reflexivity|]. repeat constructor. }
  destruct (String.eqb (be_type err) "console.error") eqn:Hc; simpl.
  { eexists; exists []. rewrite app_nil_r.
    split; [reflexivity|]. split.
    - split; [exists def_RUNTIME_CONSOLE_ERROR; repeat split; auto|].
      split; reflexivity.
    - repeat split; constructor. }
  eexists; eexists. split; [reflexivity|]. split.
  - split; [exists def_RUNTIME_CONSOLE_ERROR; repeat split; auto|].
    split; [reflexivity|discriminate].
  - split; [reflexivity|]. split; [reflexivity|].
    split; [reflexivity|]. repeat constructor.
Qed.

Lemma classifyErrors_trace (l : list BrowserError) :
  forall st, exists anns ws,
    c_annotations (fold_left classifyError l st) = (c_annotations st ++ anns)%list /\
    length anns = length l /\
    Forall (fun a => runtime_rule a) anns /\
    (forall err, In err l -> fatal err = true ->
       exists a, In a anns /\ is_failure_severity (severity a) = true) /\
    c_warnings (fold_left classifyError l st) = (c_warnings st ++ ws)%list /\
    length ws = length (List.filter (fun e => negb (fatal e)) l) /\
    Forall (fun w => bl_type w = "console.warn") ws.
Proof.
  induction l as [|err l IH]; intros st; simpl.
  - exists [], []. rewrite !app_nil_r. repeat split; try constructor.
    intros err [].
  - destruct (classifyError_step st err) as (a & ws & Ha & Hrule & Hsev & Hw & Hlen & Hall).
    destruct (IH (classifyError st err))
      as (anns & ws' & Ha' & Hlen' & Hrules & Hfatal & Hw' & Hwlen & Hall').
    exists (a :: anns), (ws ++ ws')%list.
    split; [rewrite Ha', Ha, <- app_assoc; reflexivity|].
    split; [simpl; now rewrite Hlen'|].
    split; [constructor; assumption|].
    split.
    { intros e [<-|Hin] Hf.
      - exists a. split; [now left|]. now rewrite Hsev.
      - destruct (Hfatal e Hin Hf) as (b & Hb & Hbs). exists b. split; [now right|exact Hbs]. }
    split; [rewrite Hw', Hw, <- app_assoc; reflexivity|].
    split.
    { rewrite length_app, Hlen, Hwlen. destruct (fatal err); reflexivity. }
    apply Forall_app. now split.
Qed.

Lemma classifyLogs_warnings (l : list BrowserLog) :
  forall st,
    c_warnings (fold_left classifyLog l st) =
      (c_warnings st ++ List.filter is_console_warn l)%list.
Proof.
  induction l as [|log l IH]; intros st; simpl; [now rewrite app_nil_r|].
  rewrite IH. unfold classifyLog, is_console_warn.
  destruct (String.eqb (bl_type log) "console.warn"); simpl;
    [now rewrite <- app_assoc|reflexivity].
Qed.

Lemma manifestAnnotations_rule (r : SandboxResult) :
  Forall (fun a => runtime_rule a /\ is_failure_severity (severity a) = true)
         (manifestAnnotations r).
Proof.
  unfold manifestAnnotations. destruct (manifest r) as [m|]; [|constructor].
  destruct (manifest_mismatch m); constructor; [|constructor].
  split; [|reflexivity].
  split; [exists def_RUNTIME_MANIFEST_MISMATCH; repeat split; auto|].
  split; reflexivity.
Qed.

Lemma auditAccess_rule (paths : list string) (access : RuntimeExternalAccess) :
  Forall (fun a => runtime_rule a) (auditAccess paths access).
Proof.
  unfold auditAccess.
  repeat match goal with |- context [if ?b then _ else _] => destruct b end;
    try apply List.Forall_nil; (apply List.Forall_cons; [|apply List.Forall_nil]).
  - split; [exists def_RUNTIME_MANIFEST_MISMATCH; repeat split; auto|].
    split; reflexivity.
  - split; [exists def_RUNTIME_EXTERNAL_ACCESS; repeat split; auto|].
    split; [reflexivity|discriminate].
Qed.

Lemma accessAnnotations_rule (r : SandboxResult) :
  Forall (fun a => runtime_rule a) (accessAnnotations r).
Proof.
  unfold accessAnnotations. destruct (externalAccess r) as [accesses|]; [|constructor].
  induction accesses as [|x l IH]; simpl; [constructor|].
  apply Forall_app. split; [apply auditAccess_rule|exact IH].
Qed.

(** The parts of the result of [evaluateRuntime]. *)
Lemma evaluateRuntime_parts (r : SandboxResult) (t : TaskSpec) :
  exists anns ws,
    rt_failureAnnotations (evaluateRuntime r t) =
      (manifestAnnotations r ++ accessAnnotations r ++ anns ++
       if success r then []
       else [makeFail def_RUNTIME_CRASH
               "Sandbox Execution Failed (Infrastructure/Timeout)"])%list /\
    length anns = length (default [] (browserErrors r)) /\
    Forall (fun a => runtime_rule a) anns /\
    (forall err, In err (default [] (browserErrors r)) -> fatal err = true ->
       exists a, In a anns /\ is_failure_severity (severity a) = true) /\
    runtimeWarnings (evaluateRuntime r t) =
      (ws ++ List.filter is_console_warn (default [] (browserLogs r)))%list /\
    length ws = length (List.filter (fun e => negb (fatal e))
                          (default [] (browserErrors r))) /\
    Forall (fun w => bl_type w = "console.warn") ws.
Proof.
  unfold evaluateRuntime.
  set (st0 := {| c_annotations := _; c_errors := []; c_warnings := [] |}).
  destruct (classifyErrors_trace (default [] (browserErrors r)) st0)
    as (anns & ws & Ha & Hlen & Hrules & Hfatal & Hw & Hwlen & Hall).
  destruct (classifyLogs_fold (default [] (browserLogs r))
              (fold_left classifyError (default [] (browserErrors r)) st0))
    as [_ Ha'].
  pose proof (classifyLogs_warnings (default [] (browserLogs r))
                (fold_left classifyError (default [] (browserErrors r)) st0)) as Hw'.
  set (st2 := fold_left classifyLog _ _) in *.
  rewrite Ha in Ha'. rewrite Hw in Hw'. subst st0. simpl in Ha', Hw'.
  exists anns, ws.
  assert (Hann : forall tail,
    (c_annotations st2 ++ tail = manifestAnnotations r ++ accessAnnotations r
                                 ++ anns ++ tail)%list).
  { intros tail. rewrite Ha', <- !app_assoc. reflexivity. }
  destruct (success r); simpl.
  - destruct (0 <? length (c_errors st2))%nat; simpl;
      (split; [rewrite <- (app_nil_r (c_annotations st2)); apply Hann|]);
      repeat split; assumption.
  - split; [apply Hann|]. repeat split; assumption.
Qed.

End RuntimeEvalMoreFacts.

Section RuntimeEvalExtras.
Import Registry Types JsString FinalEval RuntimeEval Views.

(** X12: [evaluateRuntime] accounts for everything it is given: each
    browser error produces exactly one annotation and is recorded
    exactly once, as a runtime error when it is fatal and as a
    synthesised [console.warn] entry otherwise; each [console.warn]
    log is recorded as a warning and produces no annotation; a failed
    sandbox adds one annotation. *)
Theorem evaluateRuntime_accounts_for_every_error
    (sandboxResult : SandboxResult) (taskSpec : TaskSpec) :
  let ev := evaluateRuntime sandboxResult taskSpec in
  let errs := default [] (browserErrors sandboxResult) in
  let logs := default [] (browserLogs sandboxResult) in
  length (rt_failureAnnotations ev) =
    (length (manifestAnnotations sandboxResult)
     + length (accessAnnotations sandboxResult)
     + length errs + (if success sandboxResult then 0 else 1))%nat /\
  (length (runtimeErrors ev) + length (runtimeWarnings ev) =
     length errs + length (List.filter is_console_warn logs))%nat /\
  (exists demoted,
     runtimeWarnings ev = (demoted ++ List.filter is_console_warn logs)%list /\
     length demoted = length (List.filter (fun e => negb (fatal e)) errs)) /\
  Forall (fun w => bl_type w = "console.warn") (runtimeWarnings ev).
Proof.
  cbv zeta.
  destruct (evaluateRuntime_parts sandboxResult taskSpec)
    as (anns & ws & Ha & Hlen & _ & _ & Hw & Hwlen & Hall).
  destruct (evaluateRuntime_verdict sandboxResult taskSpec) as (Herr & _ & _).
  split.
  { rewrite Ha, !length_app, Hlen. destruct (success sandboxResult); simpl; lia. }
  split.
  { rewrite Herr, Hw, length_app, Hwlen.
    pose proof (List.filter_length fatal (default [] (browserErrors sandboxResult))).
    lia. }
  split; [exists ws; split; assumption|].
  rewrite Hw. apply Forall_app. split; [exact Hall|].
  apply List.Forall_forall. intros w Hin. apply filter_In in Hin as [_ Hin].
  now apply String.eqb_eq in Hin.
Qed.

(** X13: every annotation [evaluateRuntime] emits carries a registered
    runtime rule with the layer and category the registry gives for
    it, and the registry's severity or a downgrade to warning; and
    every one of severity critical or error sits in the L5 layer. *)
Theorem evaluateRuntime_annotations_follow_registry
    (sandboxResult : SandboxResult) (taskSpec : TaskSpec) :
  Forall (fun a => from_registry a /\ category a = Registry.runtime /\
                   (is_failure_severity (severity a) = true ->
                    layer a = "L5/BrowserRuntime"))
         (rt_failureAnnotations (evaluateRuntime sandboxResult taskSpec)).
Proof.
  destruct (evaluateRuntime_parts sandboxResult taskSpec)
    as (anns & ws & Ha & _ & Hrules & _).
  rewrite Ha. repeat (apply Forall_app; split).
  - eapply Forall_impl; [apply manifestAnnotations_rule|]. intros a [H _]. exact H.
  - apply accessAnnotations_rule.
  - exact Hrules.
  - destruct (success sandboxResult); constructor; [|constructor].
    split; [exists def_RUNTIME_CRASH; repeat split; auto|]. split; reflexivity.
Qed.

(** X14: one audited access yields at most one annotation.  A
    [file://] target is silent exactly when it contains the name of a
    mounted file, and is a manifest mismatch of severity error
    otherwise; any other target is silent exactly when it is
    [about:blank] or a [data:] URI, and is an external-access warning
    otherwise. *)
Theorem auditAccess_cases (internalPaths : list string)
    (access : RuntimeExternalAccess) :
  let target := access_target access in
  let found := auditAccess internalPaths access in
  (length found <= 1)%nat /\
  (startsWith target "file://" = true ->
   (found = [] <-> exists file, In file internalPaths /\ includes target file = true) /\
   (found <> [] -> map ruleId found = [RUNTIME_MANIFEST_MISMATCH] /\
                    map severity found = [error])) /\
  (startsWith target "file://" = false ->
   (found = [] <-> target = "about:blank" \/ startsWith target "data:" = true) /\
   (found <> [] -> map ruleId found = [RUNTIME_EXTERNAL_ACCESS] /\
                    map severity found = [warning])).
Proof.
  cbv zeta. unfold auditAccess, checkIsInternal.
  destruct (startsWith (access_target access) "file://") eqn:Hfile; simpl.
  - split; [destruct (existsb _ internalPaths); simpl; lia|].
    split; [|discriminate]. intros _.
    destruct (existsb (fun file => includes (access_target access) file) internalPaths)
      eqn:Hex; simpl.
    + split; [|congruence]. split; [|reflexivity].
      intros _. apply existsb_exists in Hex. exact Hex.
    + split; [|intros _; split; reflexivity].
      split; [discriminate|].
      intros (file & Hf & Hinc).
      assert (E : existsb (fun file => includes (access_target access) file)
                    internalPaths = true) by (apply existsb_exists; eauto).
      congruence.
  - split.
    { destruct (String.eqb_spec (access_target access) "about:blank"); simpl; [lia|].
      destruct (startsWith (access_target access) "data:"); simpl; lia. }
    split; [discriminate|]. intros _.
    destruct (String.eqb_spec (access_target access) "about:blank") as [Hb|Hb]; simpl.
    { split; [|congruence]. split; auto. }
    destruct (startsWith (access_target access) "data:") eqn:Hd; simpl.
    { split; [|congruence]. split; auto. }
    split; [|intros _; split; reflexivity].
    split; [discriminate|]. intros [H|H]; congruence.
Qed.

(** X15: a runtime score of 0 always comes with an annotation of
    severity critical or error, and once the runtime annotations are
    among those given to [evaluateFinal], a runtime score of 0 or a
    manifest mismatch holds the total score at or below 30, whatever
    the static sub-scores and the tier. *)
Theorem zero_runtime_score_caps_total
    (sandboxResult : SandboxResult) (taskSpec : TaskSpec)
    (s : ScoreBreakdown) (rs : option Q) (m : FailureMetadata) :
  let ev := evaluateRuntime sandboxResult taskSpec in
  score ev = 0 \/ manifestAnnotations sandboxResult <> [] ->
  (exists a, In a (rt_failureAnnotations ev) /\
             is_failure_severity (severity a) = true /\
             layer a = "L5/BrowserRuntime") /\
  (incl (rt_failureAnnotations ev) (default [] (meta_failureAnnotations m)) ->
   totalScore (evaluateFinal s rs m) <= 30).
Proof.
  cbv zeta. intros Hzero.
  assert (Hex : exists a,
    In a (rt_failureAnnotations (evaluateRuntime sandboxResult taskSpec)) /\
    is_failure_severity (severity a) = true /\ layer a = "L5/BrowserRuntime").
  { destruct (evaluateRuntime_parts sandboxResult taskSpec)
      as (anns & ws & Ha & _ & Hrules & Hfatal & _).
    destruct (evaluateRuntime_verdict sandboxResult taskSpec) as (_ & Hscore & _).
    rewrite Ha. destruct Hzero as [Hzero|Hman].
    - rewrite Hscore in Hzero.
      destruct (success sandboxResult); simpl in *.
      + destruct (existsb fatal (default [] (browserErrors sandboxResult))) eqn:Hex;
          [|discriminate].
        apply existsb_exists in Hex as (err & Hin & Hf).
        destruct (Hfatal err Hin Hf) as (a & Hina & Hsev).
        exists a. split; [|split; [exact Hsev|]].
        * rewrite app_nil_r. apply in_or_app. right. apply in_or_app. now right.
        * rewrite List.Forall_forall in Hrules. now apply (Hrules a Hina).
      + exists (makeFail def_RUNTIME_CRASH
                  "Sandbox Execution Failed (Infrastructure/Timeout)").
        split; [|split; reflexivity].
        apply in_or_app. right. apply in_or_app. right. apply in_or_app. right.
        now left.
    - pose proof (manifestAnnotations_rule sandboxResult) as Hm.
      destruct (manifestAnnotations sandboxResult) as [|a l]; [congruence|].
      inversion Hm as [|? ? [(_ & _ & Hl) Hsev] _]; subst.
      exists a. split; [now left|]. split; [exact Hsev|now apply Hl]. }
  split; [exact Hex|].
  intros Hincl. destruct Hex as (a & Hin & Hsev & Hlayer).
  pose proof (evaluateFinal_le_cap s rs m a (Hincl a Hin) Hsev) as Hcap.
  rewrite Hlayer in Hcap. exact Hcap.
Qed.

End RuntimeEvalExtras.

Section RuntimeEvalRuns.
Import Registry Types JsString FinalEval RuntimeEval Views Examples.

Lemma zero_runtime_score_caps_total_witness :
  totalScore (evaluateFinal perfectStatic (Some 0%Q)
                (with_annotations no_metadata
                   (rt_failureAnnotations (evaluateRuntime failedResult anyTask)))) <= 30 /\
  totalScore (evaluateFinal perfectStatic (Some 1%Q)
                (with_annotations no_metadata
                   (rt_failureAnnotations (evaluateRuntime driftedResult anyTask)))) <= 30.
Proof.
  split.
  - apply (zero_runtime_score_caps_total failedResult anyTask).
    + left. reflexivity.
    + apply incl_refl.
  - apply (zero_runtime_score_caps_total driftedResult anyTask).
    + right. discriminate.
    + apply incl_refl.
Defined.

Lemma auditAccess_cases_witness :
  auditAccess ["index.html"] mountedAccess = [] /\
  map ruleId (auditAccess ["index.html"] strayAccess) = [RUNTIME_MANIFEST_MISMATCH] /\
  map severity (auditAccess ["index.html"] cdnAccess) = [warning] /\
  auditAccess ["index.html"] inlineAccess = [].
Proof.
  split.
  { destruct (auditAccess_cases ["index.html"] mountedAccess) as (_ & H & _).
    apply H; [reflexivity|]. exists "index.html". split; [now left|reflexivity]. }
  split.
  { destruct (auditAccess_cases ["index.html"] strayAccess) as (_ & H & _).
    apply H; [reflexivity|discriminate]. }
  split.
  { destruct (auditAccess_cases ["index.html"] cdnAccess) as (_ & _ & H).
    apply H; [reflexivity|discriminate]. }
  destruct (auditAccess_cases ["index.html"] inlineAccess) as (_ & _ & H).
  apply H; [reflexivity|]. right. reflexivity.
Defined.

End RuntimeEvalRuns.

Section ParserFacts.
Import JsString Parser Orchestrator.

Lemma validateArtifactsSpec_of_files (files : list (string * string)) :
  validateArtifactsSpec (Js.fileArtifacts files)
    = negb (length files =? 0)%nat
      && forallb (fun kv => negb (trim_is_empty (fst kv))) files.
Proof.
  unfold validateArtifactsSpec, Js.fileArtifacts. simpl. rewrite length_map.
  destruct (length files =? 0)%nat; simpl; [reflexivity|].
  induction files as [|kv files IH]; simpl; [reflexivity|].
  now rewrite IH, andb_true_r.
Qed.

Lemma forallb_negb_Forall {A} (f : A -> bool) (l : list A) :
  forallb (fun x => negb (f x)) l = true <-> Forall (fun x => f x = false) l.
Proof.
  rewrite forallb_forall, List.Forall_forall.
  split; intros H x Hx; specialize (H x Hx); now destruct (f x).
Qed.

(** After the gate the cast of [artifacts.files] to a string map loses
    nothing. *)
Lemma validateArtifactsSpec_entries (artifactsSpec : JsValue) :
  validateArtifactsSpec artifactsSpec = true ->
  Js.entries (Js.get artifactsSpec "files")
    = map (fun kv => (fst kv, JsStr (snd kv))) (filesOf artifactsSpec) /\
  filesOf artifactsSpec <> [] /\
  Forall (fun kv => trim_is_empty (fst kv) = false) (filesOf artifactsSpec).
Proof.
  unfold validateArtifactsSpec, filesOf.
  destruct (negb (Js.truthy artifactsSpec) || negb (Js.typeof_object artifactsSpec));
    [discriminate|].
  destruct (negb (Js.truthy (Js.get artifactsSpec "files"))
            || negb (Js.typeof_object (Js.get artifactsSpec "files")));
    [discriminate|].
  generalize (Js.entries (Js.get artifactsSpec "files")). intros kvs.
  destruct (Nat.eqb_spec (length kvs) 0) as [|Hlen]; [discriminate|].
  intros Hall. split; [|split].
  - induction kvs as [|[k v] kvs IH]; simpl in *; [reflexivity|].
    apply andb_true_iff in Hall as [Hkv Hall].
    apply andb_true_iff in Hkv as [_ Hv].
    destruct v; try discriminate.
    f_equal. destruct kvs as [|kv' kvs']; [reflexivity|].
    apply IH; [simpl; lia|exact Hall].
  - destruct kvs; [simpl in Hlen; lia|discriminate].
  - clear Hlen. induction kvs as [|[k v] kvs IH]; simpl in *; [constructor|].
    apply andb_true_iff in Hall as [Hkv Hall].
    apply andb_true_iff in Hkv as [Hk _].
    constructor; [now apply negb_true_iff in Hk|now apply IH].
Qed.

End ParserFacts.

Section ParserExtras.
Import JsString Parser Orchestrator.

Variable JSON_stringify : JsValue -> string.

(** X16: what [parseModelOutput] returns is its two arguments, passed
    through unchanged; the file map that [runTask] reads off the
    accepted artifacts is then non-empty, its names are not blank, and
    every value is a string, so that reading it as a string map loses
    nothing. *)
Theorem parseModelOutput_sound (treeSpec artifactsSpec : JsValue)
    (out : CombinedModelOutput) :
  parseModelOutput JSON_stringify treeSpec artifactsSpec = Some out ->
  tree out = treeSpec /\ Parser.artifacts out = artifactsSpec /\
  validateTreeSpec treeSpec = true /\
  Js.entries (Js.get artifactsSpec "files")
    = map (fun kv => (fst kv, JsStr (snd kv))) (filesOf artifactsSpec) /\
  filesOf artifactsSpec <> [] /\
  Forall (fun kv => trim_is_empty (fst kv) = false) (filesOf artifactsSpec).
Proof.
  unfold parseModelOutput.
  destruct (validateTreeSpec treeSpec) eqn:Ht; [|discriminate].
  destruct (validateArtifactsSpec artifactsSpec) eqn:Ha; [|discriminate].
  simpl. intros [= <-]. simpl.
  split; [reflexivity|]. split; [reflexivity|]. split; [reflexivity|].
  now apply validateArtifactsSpec_entries.
Qed.

(** X17: on a tree listing and an artifact map of the documented
    shapes the gate only looks at the names: it accepts exactly when
    no listed path is blank, the map has at least one file and no file
    name is blank, blank being what [trim] empties (white space
    beyond ASCII included).  It accepts a tree that lists nothing, and
    it never compares the listed paths with the files delivered. *)
Theorem parseModelOutput_checks_names_only
    (paths files : list (string * string)) :
  parseModelOutput JSON_stringify (Js.fileTree paths) (Js.fileArtifacts files) <> None
  <->
  Forall (fun pt => trim_is_empty (fst pt) = false) paths /\
  files <> [] /\
  Forall (fun kv => trim_is_empty (fst kv) = false) files.
Proof.
  unfold parseModelOutput.
  rewrite validateTreeSpec_of_paths, validateArtifactsSpec_of_files.
  rewrite <- !forallb_negb_Forall.
  destruct (forallb (fun pt => negb (trim_is_empty (fst pt))) paths); simpl.
  2:{ split; [congruence|]. intros (H & _). discriminate. }
  destruct files as [|kv files]; simpl.
  { split; [congruence|]. intros (_ & H & _). congruence. }
  destruct (negb (trim_is_empty (fst kv)) && forallb _ files); simpl.
  - split; [|discriminate]. intros _. repeat split. discriminate.
  - split; [congruence|]. intros (_ & _ & H). discriminate.
Qed.

End ParserExtras.

Section ParserRuns.
Import JsString Parser Orchestrator Examples.

Lemma parseModelOutput_sound_witness :
  filesOf (Js.fileArtifacts unrelatedArtifacts) <> [] /\
  validateTreeSpec unrelatedTree = true.
Proof.
  destruct (parseModelOutput_sound stringify unrelatedTree
              (Js.fileArtifacts unrelatedArtifacts)
              (mkCombined unrelatedTree (Js.fileArtifacts unrelatedArtifacts)
                 (stringify (JsObject [("tree", unrelatedTree);
                                       ("artifacts", Js.fileArtifacts unrelatedArtifacts)]))))
    as (_ & _ & Ht & _ & Hne & _).
  - reflexivity.
  - split; assumption.
Defined.

End ParserRuns.

Section TreePhaseFacts.
Import JsString Parser TreePhase TreePhaseCall.

(** A tree accepted by [validateTree] lists at least one path, every
    entry contributes its path, and every path is a legal relative
    one. *)
Lemma validateTree_paths (tree : JsValue) :
  validateTree tree = true ->
  exists items,
    Js.get tree "files" = JsArray items /\
    length (extractPaths tree) = length items /\
    extractPaths tree <> [] /\
    Forall (fun p => isValidPath p = true) (extractPaths tree).
Proof.
  unfold validateTree, extractPaths, tree_paths.
  destruct (negb (Js.truthy tree) || negb (Js.typeof_object tree)); [discriminate|].
  destruct (Js.get tree "files") as [| | | | |items|]; try discriminate.
  destruct (Nat.eqb_spec (length items) 0) as [|Hlen]; [discriminate|].
  intros Hall. exists items. split; [reflexivity|].
  assert (H : length (flat_map (fun f => match Js.get f "path" with
                                          | JsStr p => [p] | _ => [] end) items)
              = length items /\
              Forall (fun p => isValidPath p = true)
                (flat_map (fun f => match Js.get f "path" with
                                    | JsStr p => [p] | _ => [] end) items)).
  { clear Hlen. induction items as [|f items IH]; simpl in *; [split; [reflexivity|constructor]|].
    apply andb_true_iff in Hall as [Hf Hall].
    destruct (IH Hall) as [IHl IHv].
    destruct (negb (Js.truthy f) || negb (Js.typeof_object f)); [discriminate|].
    destruct (Js.get f "path"); try discriminate. simpl.
    split; [now rewrite IHl|now constructor]. }
  destruct H as [Hl Hv]. split; [exact Hl|]. split; [|exact Hv].
  intros Hnil. rewrite Hnil in Hl. simpl in Hl. lia.
Qed.

Lemma findMissingRequiredFile_none (tree : JsValue) (rs : list string) :
  findMissingRequiredFile tree (Some rs) = None ->
  Forall (fun r => In r (extractPaths tree)) rs.
Proof.
  unfold findMissingRequiredFile. intros Hfind.
  apply List.Forall_forall. intros r Hr.
  pose proof (find_none _ _ Hfind r Hr) as Hn.
  apply negb_false_iff, existsb_exists in Hn as (p & Hp & Heq).
  apply String.eqb_eq in Heq. now subst.
Qed.

End TreePhaseFacts.

Section TreePhaseExtras.
Import Types JsString Parser Orchestrator TreePhase TreePhaseCall.

Variable safeStringify_output : ModelGenerateFnOutput -> string.
Variable safeStringify_error : string -> string.

Local Abbreviation enforce := (enforceTreePhase safeStringify_output safeStringify_error).

(** X18: [enforceTreePhase] never rejects: a rejection of the
    generation call comes back as a [ModelCallFailed] result that
    carries the reason, and the promise stays pending only when the
    call never settles.  A successful result returns the tree the
    collaborator delivered; that tree lists at least one path, every
    path is a legal relative one, and, as long as no required name
    is the empty string, every required file is listed. *)
Theorem enforceTreePhase_outcomes (input : TreePhaseInput)
    (modelGenerateFn : ModelGenerateFn) :
  let req := mkRequest (in_taskId input) (in_size input) (in_description input)
               [] phase_tree in
  (forall e, enforce input modelGenerateFn <> Rejected e) /\
  (enforce input modelGenerateFn = Pending <-> modelGenerateFn req = NeverSettles) /\
  (forall d e, modelGenerateFn req = Rejects d e ->
     enforce input modelGenerateFn =
       Fulfilled (TreeFailure ModelCallFailed (safeStringify_error e) (Some e) [])) /\
  (forall tree rawModelOutput logs,
     enforce input modelGenerateFn = Fulfilled (TreeSuccess tree rawModelOutput logs) ->
     (exists d out, modelGenerateFn req = Resolves d out /\
                    out_tree out = Some tree /\ logs = out_logs out /\
                    rawModelOutput = safeStringify_output out) /\
     extractPaths tree <> [] /\
     Forall (fun p => isValidPath p = true) (extractPaths tree) /\
     (forall rs, in_requiredFiles input = Some rs ->
                 Forall (fun r => r <> EmptyString) rs ->
                 Forall (fun r => In r (extractPaths tree)) rs)).
Proof.
  cbv zeta. unfold enforceTreePhase.
  destruct (modelGenerateFn _) as [d out|d e|] eqn:Hcall.
  - assert (Hsettled :
      forall x : Settled TreePhaseOutput,
        (exists o, x = Fulfilled o) ->
        (forall e, x <> Rejected e) /\ (x = Pending <-> Resolves d out = NeverSettles)).
    { intros x [o ->]. split; [discriminate|]. split; discriminate. }
    split; [|split; [|split; [discriminate|]]].
    + apply Hsettled.
      destruct (out_tree out) as [t|]; [|eauto].
      destruct (negb (validateTree t)); [eauto|].
      destruct (findMissingRequiredFile t (in_requiredFiles input)) as [m|]; [|eauto].
      destruct (negb (String.eqb m EmptyString)); eauto.
    + apply Hsettled.
      destruct (out_tree out) as [t|]; [|eauto].
      destruct (negb (validateTree t)); [eauto|].
      destruct (findMissingRequiredFile t (in_requiredFiles input)) as [m|]; [|eauto].
      destruct (negb (String.eqb m EmptyString)); eauto.
    + intros tree rawModelOutput logs.
      destruct (out_tree out) as [t|] eqn:Ht; [|discriminate].
      destruct (validateTree t) eqn:Hv; simpl; [|discriminate].
      destruct (validateTree_paths t Hv) as (items & _ & _ & Hne & Hvalid).
      destruct (findMissingRequiredFile t (in_requiredFiles input)) as [m|] eqn:Hfind.
      * destruct (String.eqb_spec m EmptyString) as [->|]; simpl; [|discriminate].
        intros [= <- <- <-].
        split; [exists d, out; auto|]. split; [exact Hne|]. split; [exact Hvalid|].
        intros rs Hrs Hnonempty. rewrite Hrs in Hfind. simpl in Hfind.
        apply find_some in Hfind as [Hin _].
        rewrite List.Forall_forall in Hnonempty. now destruct (Hnonempty _ Hin).
      * intros [= <- <- <-].
        split; [exists d, out; auto|]. split; [exact Hne|]. split; [exact Hvalid|].
        intros rs Hrs _. rewrite Hrs in Hfind.
        now apply findMissingRequiredFile_none.
  - split; [discriminate|]. split; [split; discriminate|].
    split; [|discriminate]. intros d' e' [= _ <-]. reflexivity.
  - split; [discriminate|]. split; [split; reflexivity|].
    split; discriminate.
Qed.

End TreePhaseExtras.

Section TreePhaseRuns.
Import Types JsString Parser Orchestrator TreePhase TreePhaseCall Examples.

Lemma enforceTreePhase_outcomes_witness :
  enforceTreePhase (fun _ => "{}") (fun e => e) treeInput rejectingModel
    = Fulfilled (TreeFailure ModelCallFailed "401 Unauthorized"
                   (Some "401 Unauthorized") []) /\
  In "index.html"
     (extractPaths (Js.fileTree [("index.html", "file"); ("main.js", "file")])).
Proof.
  destruct (enforceTreePhase_outcomes (fun _ => "{}") (fun e => e) treeInput
              rejectingModel) as (_ & _ & Hrej & _).
  destruct (enforceTreePhase_outcomes (fun _ => "{}") (fun e => e) treeInput
              treeModel) as (_ & _ & _ & Hok).
  split.
  - apply (Hrej 120). reflexivity.
  - destruct (Hok (Js.fileTree [("index.html", "file"); ("main.js", "file")])
                "{}" ["planned"] eq_refl) as (_ & _ & _ & Hreq).
    specialize (Hreq ["index.html"] eq_refl).
    assert (Hne : Forall (fun r => r <> EmptyString) ["index.html"])
      by (repeat constructor; discriminate).
    specialize (Hreq Hne). now inversion Hreq.
Defined.

End TreePhaseRuns.

Section SandboxMoreFacts.
Import Types JsString StaticEval Sandbox Views.

Variable host : Host.

Local Abbreviation body_ok := (sandbox_body_ok host).

Lemma runCommand_cases (command cwd : string) (timeoutMs : Z) :
  (exists code out, runCommand host command cwd timeoutMs = (Fulfilled code, out)) \/
  (exists message out, runCommand host command cwd timeoutMs = (Rejected message, out) /\
                       spawn host command cwd = SpawnThrows message) \/
  (exists output out, runCommand host command cwd timeoutMs = (Pending, out) /\
                      spawn host command cwd = NeverCloses output).
Proof.
  unfold runCommand. destruct (spawn host command cwd); eauto 10.
Qed.

Lemma runtimeStep_ok (dir : string) (taskSpec : TaskSpec)
    (manifest : option SandboxManifest) (logs : list string) :
  body_ok manifest (runtimeStep host dir taskSpec manifest logs).
Proof.
  unfold sandbox_body_ok, runtimeStep.
  destruct (negb (is_truthy_string _)); simpl; [auto|].
  destruct (match runtime taskSpec with Some r => rt_type r | None => None end)
    as [[|]|]; simpl.
  - destruct (negb (fs_existsSync host _)); simpl; [split; [reflexivity|discriminate]|].
    destruct (runInBrowser host _) as [result|e|] eqn:Hb; simpl.
    + split; [reflexivity|]. intros Hok. apply Nat.eqb_eq in Hok.
      split; [|reflexivity]. right.
      destruct (br_browserErrors result); [reflexivity|discriminate].
    + split; [reflexivity|discriminate].
    + split; [reflexivity|]. right. right. eauto.
  - match goal with |- context [runCommand host ?c ?d ?t] =>
      destruct (runCommand_cases c d t)
        as [(code & out & ->)|[(message & out & -> & Hs)|(output & out & -> & Hs)]]
    end; simpl.
    + split; [reflexivity|]. auto.
    + split; [reflexivity|]. left. eauto.
    + split; [reflexivity|]. right. left. eauto.
  - split; [reflexivity|discriminate].
Qed.

Lemma asyncBody_ok (dir : string) (taskSpec : TaskSpec)
    (manifest : option SandboxManifest) :
  body_ok manifest (asyncBody host dir taskSpec manifest).
Proof.
  unfold asyncBody.
  destruct (is_truthy_string _); [|apply runtimeStep_ok].
  match goal with |- context [runCommand host ?c ?d ?t] =>
    destruct (runCommand_cases c d t)
      as [(code & out & ->)|[(message & out & -> & Hs)|(output & out & -> & Hs)]]
  end.
  - destruct (negb (code =? 0)); [|apply runtimeStep_ok].
    unfold sandbox_body_ok. simpl. split; [reflexivity|discriminate].
  - unfold sandbox_body_ok. simpl. split; [reflexivity|]. left. eauto.
  - unfold sandbox_body_ok. simpl. split; [reflexivity|]. right. left. eauto.
Qed.

End SandboxMoreFacts.

Section SandboxExtras.
Import Types JsString StaticEval Sandbox RuntimeEval Views.

(** X19: how the promise of [runInSandbox] settles.  It rejects
    exactly when [tmp.dirSync] throws, and with that exception.  The
    deletion of the scratch directory is scheduled exactly when the
    promise fulfils, never more than twice.  The promise stays pending
    only when starting a subprocess threw, when a started process
    emitted neither [close] nor [error] (the timeout of [runCommand]
    only kills it), or when the browser runner never settled; then
    nothing deletes the scratch directory.  A build process that
    never closes does leave the promise pending. *)
Theorem runInSandbox_settlement (host : Host) (files : option Files)
    (taskSpec : TaskSpec) (manifest : option SandboxManifest) :
  let run := runInSandbox host files taskSpec manifest in
  (forall e, settled run = Rejected e <-> tmp_dirSync host = Thrown e) /\
  ((exists r, settled run = Fulfilled r) <-> (1 <= cleanups run)%nat) /\
  (cleanups run <= 2)%nat /\
  (settled run = Pending ->
   cleanups run = 0%nat /\
   ((exists command cwd message, spawn host command cwd = SpawnThrows message) \/
    (exists command cwd output, spawn host command cwd = NeverCloses output) \/
    (exists htmlPath, runInBrowser host htmlPath = Pending))) /\
  (forall dir r command output,
     tmp_dirSync host = Returned dir ->
     writeFiles host dir (default [] files) = None ->
     runtime taskSpec = Some r -> rt_buildCommand r = Some command ->
     command <> EmptyString ->
     spawn host command dir = NeverCloses output ->
     settled run = Pending).
Proof.
  cbv zeta.
  assert (Hhang : forall dir r command output,
     tmp_dirSync host = Returned dir ->
     writeFiles host dir (default [] files) = None ->
     runtime taskSpec = Some r -> rt_buildCommand r = Some command ->
     command <> EmptyString ->
     spawn host command dir = NeverCloses output ->
     settled (runInSandbox host files taskSpec manifest) = Pending).
  { intros dir r command output Hdir Hwrite Hrt Hcmd Hne Hspawn.
    unfold runInSandbox. rewrite Hdir, Hwrite.
    unfold asyncBody. rewrite Hrt, Hcmd. simpl.
    destruct (String.eqb_spec command EmptyString) as [->|_]; [congruence|].
    simpl. unfold runCommand. now rewrite Hspawn. }
  revert Hhang. unfold runInSandbox.
  destruct (tmp_dirSync host) as [dir|thrown]; simpl; intros Hhang.
  2:{ split; [intros e; split; congruence|].
      split; [split; [intros [r Hr]; discriminate|lia]|].
      split; [lia|]. split; [discriminate|exact Hhang]. }
  destruct (writeFiles host dir (default [] files)) as [e|] eqn:Hwrite; simpl in *.
  { split; [intros e'; split; discriminate|].
    split; [split; [lia|eauto]|]. split; [lia|].
    split; [discriminate|]. intros dir' r command output [= <-] Hw. congruence. }
  pose proof (asyncBody_ok host dir taskSpec manifest) as Hok.
  unfold sandbox_body_ok in Hok.
  destruct (settled (asyncBody host dir taskSpec manifest)) as [r|e|].
  - destruct Hok as [-> _].
    split; [intros e'; split; discriminate|].
    split; [split; [lia|eauto]|]. split; [lia|]. split; [discriminate|exact Hhang].
  - destruct Hok.
  - destruct Hok as [-> Hcause].
    split; [intros e'; split; discriminate|].
    split; [split; [intros [r Hr]; discriminate|lia]|].
    split; [lia|]. split; [|exact Hhang].
    intros _. split; [reflexivity|exact Hcause].
Qed.

(** X20: the runtime verdict on a result that [runInSandbox] produced
    is its success flag: the score is 1 when the flag is set and 0
    otherwise.  A result that reports success carries no browser error
    and the manifest it was given, so one browser error of any type,
    fatal for the classifier or not, gives the score 0. *)
Theorem sandbox_result_verdict (host : Host) (files : option Files)
    (taskSpec : TaskSpec) (manifest : option SandboxManifest) (r : SandboxResult) :
  settled (runInSandbox host files taskSpec manifest) = Fulfilled r ->
  score (evaluateRuntime r taskSpec) = (if success r then 1 else 0) /\
  (success r = true ->
   (browserErrors r = None \/ browserErrors r = Some []) /\
   Types.manifest r = manifest).
Proof.
  intros Hrun.
  assert (Hclean : success r = true ->
            (browserErrors r = None \/ browserErrors r = Some []) /\
            Types.manifest r = manifest).
  { unfold runInSandbox in Hrun.
    destruct (tmp_dirSync host) as [dir|thrown]; [|discriminate].
    destruct (writeFiles host dir (default [] files)) as [e|].
    { simpl in Hrun. injection Hrun as <-. discriminate. }
    pose proof (asyncBody_ok host dir taskSpec manifest) as Hok.
    unfold sandbox_body_ok in Hok. rewrite Hrun in Hok. apply Hok. }
  split; [|exact Hclean].
  destruct (evaluateRuntime_verdict r taskSpec) as (_ & -> & _).
  destruct (success r); simpl; [|reflexivity].
  destruct (Hclean eq_refl) as [[-> | ->] _]; reflexivity.
Qed.

End SandboxExtras.

Section SandboxRuns.
Import Types JsString StaticEval Sandbox RuntimeEval Views Examples.

(** Without a scratch directory the promise rejects; with a build
    that never closes it stays pending. *)
Lemma runInSandbox_settlement_witness :
  settled (runInSandbox host_without_tmp None anyTask None)
    = Rejected "ENOSPC: no space left on device, mkdir" /\
  settled (runInSandbox hangingHost (Some barePage) builtTask None) = Pending.
Proof.
  split.
  - apply (runInSandbox_settlement host_without_tmp None anyTask None).
    reflexivity.
  - destruct (runInSandbox_settlement hangingHost (Some barePage) builtTask None)
      as (_ & _ & _ & _ & Hhang).
    apply (Hhang "/tmp/tmp-3"
             (mkRuntime (Some browser) (Some "npm run build") (Some "index.html"))
             "npm run build" ["> build"]);
      try reflexivity.
    discriminate.
Defined.

Lemma sandbox_result_verdict_witness :
  score (evaluateRuntime
           (mkSandboxResult true
              ["[Sandbox] Browser Runtime: index.html";
               "[Sandbox] Browser completed: 0 errors, 0 logs"]
              None (Some []) (Some []) (Some []))
           anyTask) = 1.
Proof.
  apply (sandbox_result_verdict quiet_host (Some barePage) anyTask None).
  reflexivity.
Defined.

End SandboxRuns.

Section OrchestratorMoreFacts.
Import Types JsString StaticEval FinalEval Orchestrator Views.

Variable evaluateStatic :
  ExecutionArtifacts -> TaskSpec -> option SandboxManifest -> Settled ScoreBreakdown.
Variable host : Sandbox.Host.
Variable JSON_stringify : JsValue -> string.
Variable sha256 : string -> string.
Variable toISOString : Z -> string.

Local Abbreviation runTask' :=
  (runTask evaluateStatic host JSON_stringify sha256 toISOString).
Local Abbreviation gradeArtifacts' :=
  (gradeArtifacts evaluateStatic host JSON_stringify sha256 toISOString).

Lemma evaluateFinal_passes_through (s : ScoreBreakdown) (rs : option Q)
    (m : FailureMetadata) :
  final_failureAnnotations (evaluateFinal s rs m)
    = default [] (meta_failureAnnotations m) /\
  breakdown_static (evaluateFinal s rs m) = s /\
  infrastructureTimeout (evaluateFinal s rs m) = false.
Proof using Type.
  unfold evaluateFinal. destruct (resolveFailureLayer _ _).
  destruct (meta_failureAnnotations m); auto.
Qed.

Lemma evaluateFinal_in_range (s : ScoreBreakdown) (rs : option Q)
    (m : FailureMetadata) :
  0 <= totalScore (evaluateFinal s rs m) <= 100.
Proof using Type.
  destruct (evaluateFinal_fields s rs m) as (_ & _ & ->).
  pose proof (getScoreCap_range (failureLayer (evaluateFinal s rs m))) as Hcap.
  match goal with |- _ <= clampScore ?c ?x <= _ =>
    pose proof (clampScore_range c x) end.
  lia.
Qed.

(** The verdict of a fulfilled run: the final evaluation of the
    recorded sub-scores over some metadata, and the calls that led to
    it. *)
Lemma gradeArtifacts_result (taskSpec : TaskSpec) (now : Z)
    (treeOutput filesOutput : ModelGenerateFnOutput) (tree artifactsSpec : JsValue)
    (inf : bool) (tok : Z) (made : list Call) (res : ExecutionResult) :
  outcome (gradeArtifacts' taskSpec now treeOutput filesOutput
             tree artifactsSpec inf tok made) = Fulfilled res ->
  exists m before anns,
    finalResult (metadata res) =
      with_timeout_flag inf
        (evaluateFinal (staticScore (metadata res)) (runtimeScore (metadata res)) m) /\
    difficulty m = Some (size taskSpec) /\ parseStatus m = None /\
    meta_failureAnnotations m =
      Some (failureAnnotations (staticScore (metadata res)) ++ anns)%list /\
    (md_browserErrors (metadata res) <> None \/ md_browserLogs (metadata res) <> None ->
     anns = []) /\
    md_infrastructureTimeout (metadata res) = inf /\
    calls (gradeArtifacts' taskSpec now treeOutput filesOutput
             tree artifactsSpec inf tok made) =
      (made ++ before ++
       CallFinal (runtimeScore (metadata res)) ::
       (if inf then []
        else [CallBenchmark (totalScore (finalResult (metadata res)))]))%list /\
    Forall before_verdict before.
Proof.
  unfold gradeArtifacts.
  destruct (Parser.parseModelOutput JSON_stringify tree artifactsSpec) as [cmb|];
    cbv zeta.
  - destruct (evaluateStatic _ taskSpec _) as [st|e|]; simpl; try discriminate.
    destruct (needsRuntime taskSpec); simpl.
    + destruct (Sandbox.settled _) as [sr|e|]; simpl; try discriminate.
      intros [= <-]. simpl.
      eexists; exists [CallParse; CallStatic; CallSandbox; CallRuntimeEval]; eexists.
      split; [reflexivity|]. split; [reflexivity|]. split; [reflexivity|].
      split; [reflexivity|].
      split.
      { intros Hrep. destruct (browserErrors sr), (browserLogs sr); try reflexivity.
        destruct Hrep; congruence. }
      split; [reflexivity|].
      split; [destruct inf; simpl; rewrite <- !app_assoc; reflexivity|].
      repeat constructor.
    + intros [= <-]. simpl.
      eexists; exists [CallParse; CallStatic], [].
      split; [reflexivity|]. split; [reflexivity|]. split; [reflexivity|].
      split; [simpl; now rewrite app_nil_r|].
      split; [reflexivity|]. split; [reflexivity|].
      split; [destruct inf; simpl; rewrite <- !app_assoc; reflexivity|].
      repeat constructor.
  - rewrite andb_false_r. simpl. intros [= <-]. simpl.
    eexists; exists [CallParse], [].
    split; [reflexivity|]. split; [reflexivity|]. split; [reflexivity|].
    split; [reflexivity|].
    split; [reflexivity|]. split; [reflexivity|].
    split; [destruct inf; simpl; rewrite <- !app_assoc; reflexivity|].
    repeat constructor.
Qed.

Lemma generationFailure_result (taskSpec : TaskSpec) (phaseName : string)
    (tree : option JsValue) (inf : bool) (tok : Z) (made : list Call) :
  exists res,
    outcome (generationFailure taskSpec phaseName tree inf tok made) = Fulfilled res /\
    finalResult (metadata res) =
      with_timeout_note inf
        (evaluateFinal zeroStatic (fallbackRuntimeScore taskSpec) no_metadata) /\
    staticScore (metadata res) = zeroStatic /\
    runtimeScore (metadata res) = fallbackRuntimeScore taskSpec /\
    md_infrastructureTimeout (metadata res) = inf /\
    md_browserErrors (metadata res) = None /\ md_browserLogs (metadata res) = None /\
    art_errors (artifacts res) =
      (if inf then Some ["Infrastructure Timeout during " ++ phaseName ++ " Phase"]
       else None) /\
    calls (generationFailure taskSpec phaseName tree inf tok made) =
      (made ++ CallFinal (runtimeScore (metadata res)) ::
       (if inf then []
        else [CallBenchmark (totalScore (finalResult (metadata res)))]))%list.
Proof using Type.
  unfold generationFailure. eexists. split; [reflexivity|]. simpl.
  repeat (split; [reflexivity|]).
  destruct inf; simpl; rewrite <- ?app_assoc; reflexivity.
Qed.

Lemma isModelCall_before_verdict (made : list Call) :
  Forall isModelCall made -> Forall before_verdict made.
Proof using Type.
  intros Hmade. eapply Forall_impl; [exact Hmade|].
  intros [] H; simpl in *; auto.
Qed.

End OrchestratorMoreFacts.

Section OrchestratorExtras.
Import Types JsString StaticEval FinalEval Orchestrator Views.

Variable evaluateStatic :
  ExecutionArtifacts -> TaskSpec -> option SandboxManifest -> Settled ScoreBreakdown.
Variable host : Sandbox.Host.
Variable JSON_stringify : JsValue -> string.
Variable sha256 : string -> string.
Variable toISOString : Z -> string.

Local Abbreviation runTask' :=
  (runTask evaluateStatic host JSON_stringify sha256 toISOString).

(** X21: the race of [callWithTimeout].  Outside the XL tier the
    generation call is simply awaited and no timeout is ever reported.
    In the XL tier the wrapper always settles, no later than the
    deadline (or at once when the deadline has passed).  A fulfilled
    wrapper carries either a result or the timeout flag, never both
    and never neither; a timeout is reported only in the XL tier, when
    the deadline has passed or the call outlasts what remains; a
    result or a rejection is the call's own. *)
Theorem callWithTimeout_race (isXL : bool) (deadline now : Z) (call : ModelCall) :
  let settlement := fst (callWithTimeout isXL deadline now call) in
  let settledAt := snd (callWithTimeout isXL deadline now call) in
  (isXL = true -> settlement <> Pending /\ settledAt <= Z.max now deadline) /\
  (isXL = false ->
   settlement = match call with
                | Resolves _ o => Fulfilled (mkCallResult (Some o) false)
                | Rejects _ e => Rejected e
                | NeverSettles => Pending
                end) /\
  (forall r, settlement = Fulfilled r ->
     (timeout r = true <-> result r = None) /\
     (timeout r = true ->
      isXL = true /\ settledAt = Z.max now deadline /\
      (deadline <= now \/ outlasts (deadline - now) call)) /\
     (forall o, result r = Some o ->
        exists d, call = Resolves d o /\ settledAt = now + d)) /\
  (forall e, settlement = Rejected e ->
     exists d, call = Rejects d e /\ settledAt = now + d).
Proof using Type.
  cbv zeta. unfold callWithTimeout, outlasts.
  destruct isXL; simpl.
  - destruct (Z.leb_spec (deadline - now) 0) as [Hpast|Hleft]; simpl.
    { split; [intros _; split; [discriminate|lia]|].
      split; [discriminate|].
      split; [|discriminate].
      intros r [= <-]. simpl.
      split; [split; reflexivity|].
      split; [intros _; split; [reflexivity|split; [lia|left; lia]]|discriminate]. }
    destruct call as [d o|d e|]; simpl.
    + destruct (Z.ltb_spec d (deadline - now)); simpl.
      * split; [intros _; split; [discriminate|lia]|].
        split; [discriminate|]. split; [|discriminate].
        intros r [= <-]. simpl.
        split; [split; discriminate|]. split; [discriminate|].
        intros o' [= <-]. eauto.
      * split; [intros _; split; [discriminate|lia]|].
        split; [discriminate|]. split; [|discriminate].
        intros r [= <-]. simpl.
        split; [split; reflexivity|].
        split; [intros _; split; [reflexivity|split; [lia|right; lia]]|discriminate].
    + destruct (Z.ltb_spec d (deadline - now)); simpl.
      * split; [intros _; split; [discriminate|lia]|].
        split; [discriminate|]. split; [discriminate|].
        intros e' [= <-]. eauto.
      * split; [intros _; split; [discriminate|lia]|].
        split; [discriminate|]. split; [|discriminate].
        intros r [= <-]. simpl.
        split; [split; reflexivity|].
        split; [intros _; split; [reflexivity|split; [lia|right; lia]]|discriminate].
    + split; [intros _; split; [discriminate|lia]|].
      split; [discriminate|]. split; [|discriminate].
      intros r [= <-]. simpl.
      split; [split; reflexivity|].
      split; [intros _; split; [reflexivity|split; [lia|right; exact I]]|discriminate].
  - split; [discriminate|].
    destruct call as [d o|d e|]; simpl.
    + split; [reflexivity|]. split; [|discriminate].
      intros r [= <-]. simpl.
      split; [split; discriminate|]. split; [discriminate|].
      intros o' [= <-]. eauto.
    + split; [reflexivity|]. split; [discriminate|].
      intros e' [= <-]. eauto.
    + split; [reflexivity|]. split; discriminate.
Qed.

(** X22: in the XL tier a tree request that outlasts the time budget
    does not hang the run: [runTask] fulfils with the infrastructure
    timeout recorded in the metadata, in the final result and in the
    artifacts' errors, the total score is 0, the files request is
    never sent and the benchmark accumulator is not updated. *)
Theorem runTask_XL_generation_timeout (taskSpec : TaskSpec)
    (modelGenerateFn : ModelGenerateFn) (startMs : Z) :
  let budget := default (getTimeBudget (size taskSpec)) (timeBudgetMs taskSpec) in
  let run := runTask' taskSpec modelGenerateFn startMs in
  size taskSpec = XL ->
  budget <= 0 \/ outlasts budget (modelGenerateFn (treeRequest taskSpec)) ->
  exists res,
    outcome run = Fulfilled res /\
    md_infrastructureTimeout (metadata res) = true /\
    infrastructureTimeout (finalResult (metadata res)) = true /\
    totalScore (finalResult (metadata res)) = 0 /\
    art_errors (artifacts res) = Some ["Infrastructure Timeout during Tree Phase"] /\
    In "Infrastructure Timeout Triggered" (notes (finalResult (metadata res))) /\
    calls run =
      ((if budget <=? 0 then [] else [CallModel (treeRequest taskSpec)])
       ++ [CallFinal (fallbackRuntimeScore taskSpec)])%list.
Proof using Type.
  cbv zeta. intros Hsize Hlate. unfold runTask.
  set (budget := default (getTimeBudget (size taskSpec)) (timeBudgetMs taskSpec)) in *.
  replace (startMs + budget - startMs) with budget by lia.
  assert (Hcall : exists at_,
    callWithTimeout (is_XL (size taskSpec)) (startMs + budget) startMs
      (modelGenerateFn (treeRequest taskSpec))
    = (Fulfilled (mkCallResult None true), at_)).
  { unfold callWithTimeout. rewrite Hsize. simpl.
    replace (startMs + budget - startMs) with budget by lia.
    destruct (Z.leb_spec budget 0); [eauto|].
    destruct Hlate as [Hlate|Hlate]; [lia|].
    destruct (modelGenerateFn (treeRequest taskSpec)) as [d o|d e|];
      simpl in Hlate; [| |eauto];
      (destruct (Z.ltb_spec d budget); [lia|eauto]). }
  destruct Hcall as [at_ ->]. simpl.
  rewrite Hsize. simpl.
  assert (Hzero : totalScore
            (with_timeout_note true
               (evaluateFinal zeroStatic (fallbackRuntimeScore taskSpec) no_metadata)) = 0).
  { unfold fallbackRuntimeScore. destruct (runtime taskSpec) as [r|]; [|reflexivity].
    destruct (_ || _); reflexivity. }
  eexists. split; [reflexivity|]. simpl.
  split; [reflexivity|]. split; [reflexivity|]. split; [exact Hzero|].
  split; [reflexivity|].
  split; [right; now left|reflexivity].
Qed.

(** X23: what every fulfilled run of [runTask] satisfies.  The total
    score lies between 0 and 100; the final result repeats the static
    and runtime scores of the metadata and its timeout flag; the final
    evaluation is called once, with the recorded runtime score, after
    every other collaborator; and the benchmark accumulator is updated
    exactly when no infrastructure timeout occurred, once, last, and
    with the total score of the result. *)
Theorem runTask_result_invariants (taskSpec : TaskSpec)
    (modelGenerateFn : ModelGenerateFn) (startMs : Z) (res : ExecutionResult) :
  let run := runTask' taskSpec modelGenerateFn startMs in
  let final := finalResult (metadata res) in
  outcome run = Fulfilled res ->
  0 <= totalScore final <= 100 /\
  breakdown_static final = staticScore (metadata res) /\
  breakdown_runtime final = runtimeScore (metadata res) /\
  infrastructureTimeout final = md_infrastructureTimeout (metadata res) /\
  exists before,
    Forall before_verdict before /\
    calls run =
      (before ++ CallFinal (runtimeScore (metadata res)) ::
       (if md_infrastructureTimeout (metadata res) then []
        else [CallBenchmark (totalScore final)]))%list.
Proof.
  cbv zeta. intros Hres.
  destruct (runTask_shape evaluateStatic host JSON_stringify sha256 toISOString
              taskSpec modelGenerateFn startMs)
    as [(made & _ & _ & [Hp|[e He]])
       |[(phaseName & tree & inf & tok & made & Hmade & Hrun)
        |(d1 & to & d2 & fo & t & a & now & inf & tok & made & Hmade & _ & _ & _ & _ & Hrun)]].
  - congruence.
  - congruence.
  - rewrite Hrun in *.
    destruct (generationFailure_result taskSpec phaseName tree inf tok made)
      as (res' & Hout & Hfinal & Hstatic & Hrt & Hinf & _ & _ & _ & Hcalls).
    rewrite Hout in Hres. injection Hres as Heq. subst res'.
    rewrite Hfinal, Hstatic, Hrt, Hinf in *.
    destruct (evaluateFinal_passes_through zeroStatic (fallbackRuntimeScore taskSpec)
                no_metadata) as (_ & Hbs & Hto).
    pose proof (evaluateFinal_in_range zeroStatic (fallbackRuntimeScore taskSpec)
                  no_metadata) as Hrange.
    pose proof (evaluateFinal_runtime zeroStatic (fallbackRuntimeScore taskSpec)
                  no_metadata) as Hbr.
    split; [destruct inf; exact Hrange|].
    split; [destruct inf; exact Hbs|].
    split; [destruct inf; exact Hbr|].
    split; [destruct inf; [reflexivity|exact Hto]|].
    exists made. split; [now apply isModelCall_before_verdict|].
    exact Hcalls.
  - rewrite Hrun in *.
    destruct (gradeArtifacts_result evaluateStatic host JSON_stringify sha256 toISOString
                taskSpec now to fo t a inf tok made res Hres)
      as (m & before & anns & Hfinal & _ & _ & _ & _ & Hinf & Hcalls & Hbefore).
    rewrite Hinf.
    destruct (evaluateFinal_passes_through (staticScore (metadata res))
                (runtimeScore (metadata res)) m) as (_ & Hbs & Hto).
    pose proof (evaluateFinal_in_range (staticScore (metadata res))
                  (runtimeScore (metadata res)) m) as Hrange.
    pose proof (evaluateFinal_runtime (staticScore (metadata res))
                  (runtimeScore (metadata res)) m) as Hbr.
    rewrite Hfinal.
    split; [destruct inf; exact Hrange|].
    split; [destruct inf; exact Hbs|].
    split; [destruct inf; exact Hbr|].
    split; [destruct inf; [reflexivity|exact Hto]|].
    exists (made ++ before)%list. split.
    + apply Forall_app. split; [now apply isModelCall_before_verdict|exact Hbefore].
    + rewrite Hcalls, Hfinal, <- app_assoc. reflexivity.
Qed.

(** X24: when both generation calls deliver in time and the parsing
    gate rejects what they delivered, [runTask] calls neither the
    static evaluator nor the sandbox.  It records the literal static
    score with completeness 0.5, no runtime score, no files and no
    failure layer, and the total score is 30 times the tier weight:
    18, 24, 30, 36 and 42 from XS to XL. *)
Theorem runTask_gate_rejection (taskSpec : TaskSpec)
    (modelGenerateFn : ModelGenerateFn) (startMs d1 d2 : Z)
    (treeOutput filesOutput : ModelGenerateFnOutput) (tree artifactsSpec : JsValue) :
  let budget := default (getTimeBudget (size taskSpec)) (timeBudgetMs taskSpec) in
  let run := runTask' taskSpec modelGenerateFn startMs in
  modelGenerateFn (treeRequest taskSpec) = Resolves d1 treeOutput ->
  out_tree treeOutput = Some tree -> Js.truthy tree = true ->
  modelGenerateFn (filesRequest taskSpec) = Resolves d2 filesOutput ->
  out_artifacts filesOutput = Some artifactsSpec -> Js.truthy artifactsSpec = true ->
  (size taskSpec = XL -> 0 <= d1 /\ 0 <= d2 /\ d1 + d2 < budget) ->
  Parser.parseModelOutput JSON_stringify tree artifactsSpec = None ->
  exists res,
    outcome run = Fulfilled res /\
    combined (metadata res) = None /\
    staticScore (metadata res) = invalidStatic /\
    runtimeScore (metadata res) = None /\
    files (artifacts res) = [] /\
    failureLayer (finalResult (metadata res)) = None /\
    totalScore (finalResult (metadata res)) =
      match size taskSpec with XS => 18 | S => 24 | M => 30 | L => 36 | XL => 42 end /\
    calls run =
      [CallModel (treeRequest taskSpec); CallModel (filesRequest taskSpec);
       CallParse; CallFinal None;
       CallBenchmark (totalScore (finalResult (metadata res)))].
Proof.
  cbv zeta. intros Htree Ht Htt Hfiles Ha Hat Htime Hparse.
  set (budget := default (getTimeBudget (size taskSpec)) (timeBudgetMs taskSpec)) in *.
  assert (H1 : callWithTimeout (is_XL (size taskSpec)) (startMs + budget) startMs
                 (modelGenerateFn (treeRequest taskSpec))
               = (Fulfilled (mkCallResult (Some treeOutput) false), startMs + d1)).
  { unfold callWithTimeout. rewrite Htree.
    destruct (size taskSpec) eqn:Hs; simpl; try reflexivity.
    destruct (Htime eq_refl) as (? & ? & ?).
    destruct (Z.leb_spec (startMs + budget - startMs) 0); [lia|].
    destruct (Z.ltb_spec d1 (startMs + budget - startMs)); [reflexivity|lia]. }
  assert (H2 : callWithTimeout (is_XL (size taskSpec)) (startMs + budget) (startMs + d1)
                 (modelGenerateFn (filesRequest taskSpec))
               = (Fulfilled (mkCallResult (Some filesOutput) false),
                  startMs + d1 + d2)).
  { unfold callWithTimeout. rewrite Hfiles.
    destruct (size taskSpec) eqn:Hs; simpl; try reflexivity.
    destruct (Htime eq_refl) as (? & ? & ?).
    destruct (Z.leb_spec (startMs + budget - (startMs + d1)) 0); [lia|].
    destruct (Z.ltb_spec d2 (startMs + budget - (startMs + d1))); [reflexivity|lia]. }
  assert (Hc1 : is_XL (size taskSpec) && (startMs + budget - startMs <=? 0) = false).
  { destruct (size taskSpec) eqn:Hs; simpl; try reflexivity.
    destruct (Htime eq_refl) as (? & ? & ?). apply Z.leb_gt. lia. }
  assert (Hc2 : is_XL (size taskSpec) && (startMs + budget - (startMs + d1) <=? 0) = false).
  { destruct (size taskSpec) eqn:Hs; simpl; try reflexivity.
    destruct (Htime eq_refl) as (? & ? & ?). apply Z.leb_gt. lia. }
  assert (Hrun : runTask' taskSpec modelGenerateFn startMs =
            gradeArtifacts evaluateStatic host JSON_stringify sha256 toISOString
              taskSpec (startMs + d1 + d2) treeOutput filesOutput tree artifactsSpec
              false (tokens (mkCallResult (Some treeOutput) false)
                     + tokens (mkCallResult (Some filesOutput) false))
              [CallModel (treeRequest taskSpec); CallModel (filesRequest taskSpec)]).
  { unfold runTask. fold budget. rewrite H1.
    cbv beta iota zeta delta [result timeout]. rewrite Ht.
    cbv beta iota delta [present]. rewrite Htt. cbv beta iota delta [negb orb].
    rewrite H2.
    cbv beta iota zeta delta [result timeout]. rewrite Ha.
    cbv beta iota delta [present]. rewrite Hat. cbv beta iota delta [negb orb].
    rewrite Hc1, Hc2. reflexivity. }
  rewrite Hrun.
  unfold gradeArtifacts. rewrite Hparse. cbv zeta. rewrite andb_false_r. simpl.
  eexists. split; [reflexivity|]. simpl.
  split; [reflexivity|]. split; [reflexivity|]. split; [reflexivity|].
  split; [reflexivity|].
  split; [reflexivity|].
  split; [destruct (size taskSpec); reflexivity|reflexivity].
Qed.

(** X25: whenever the sandbox result carries the browser's error or
    log list, the annotations of [evaluateRuntime] do not reach the
    final evaluation: the annotations of the final result are those
    of the static score alone, and so is the failure layer.  When the
    static score raised no failure of severity critical or error, no
    failure layer is reported, whatever the browser observed. *)
Theorem runTask_drops_runtime_annotations (taskSpec : TaskSpec)
    (modelGenerateFn : ModelGenerateFn) (startMs : Z) (res : ExecutionResult) :
  let run := runTask' taskSpec modelGenerateFn startMs in
  let static := staticScore (metadata res) in
  outcome run = Fulfilled res ->
  md_browserErrors (metadata res) <> None \/ md_browserLogs (metadata res) <> None ->
  final_failureAnnotations (finalResult (metadata res)) = failureAnnotations static /\
  failureLayer (finalResult (metadata res))
    = fst (resolveFailureLayer (failureAnnotations static) None) /\
  (failureCandidates (failureAnnotations static) = [] ->
   failureLayer (finalResult (metadata res)) = None).
Proof.
  cbv zeta. intros Hres Hreported.
  destruct (runTask_shape evaluateStatic host JSON_stringify sha256 toISOString
              taskSpec modelGenerateFn startMs)
    as [(made & _ & _ & [Hp|[e He]])
       |[(phaseName & tree & inf & tok & made & Hmade & Hrun)
        |(d1 & to & d2 & fo & t & a & now & inf & tok & made & Hmade & _ & _ & _ & _ & Hrun)]].
  - congruence.
  - congruence.
  - rewrite Hrun in *.
    destruct (generationFailure_result taskSpec phaseName tree inf tok made)
      as (res' & Hout & _ & _ & _ & _ & He & Hl & _).
    rewrite Hout in Hres. injection Hres as Heq. subst res'.
    destruct Hreported; congruence.
  - rewrite Hrun in *.
    destruct (gradeArtifacts_result evaluateStatic host JSON_stringify sha256 toISOString
                taskSpec now to fo t a inf tok made res Hres)
      as (m & before & anns & Hfinal & _ & Hps & Hanns & Hdrop & _).
    rewrite (Hdrop Hreported), app_nil_r in Hanns.
    destruct (evaluateFinal_passes_through (staticScore (metadata res))
                (runtimeScore (metadata res)) m) as (Hfa & _ & _).
    destruct (evaluateFinal_fields (staticScore (metadata res))
                (runtimeScore (metadata res)) m) as (Hfl & _ & _).
    rewrite Hanns, Hps in *. simpl in Hfa, Hfl.
    assert (Hlayer : failureLayer (finalResult (metadata res))
              = fst (resolveFailureLayer
                       (failureAnnotations (staticScore (metadata res))) None)).
    { rewrite Hfinal. destruct inf; exact Hfl. }
    split; [rewrite Hfinal; destruct inf; exact Hfa|].
    split; [exact Hlayer|].
    intros Hnone. rewrite Hlayer. unfold resolveFailureLayer. rewrite Hnone. reflexivity.
Qed.

End OrchestratorExtras.

Section OrchestratorExtrasRuns.
Import Types JsString StaticEval FinalEval Orchestrator Views Examples.

Local Abbreviation run_on h :=
  (runTask generousStatic h stringify digest isoTime).

Lemma runTask_XL_generation_timeout_witness :
  exists res,
    outcome (run_on Sandbox.quiet_host xlTask stalledModel 0) = Fulfilled res /\
    md_infrastructureTimeout (metadata res) = true /\
    totalScore (finalResult (metadata res)) = 0.
Proof.
  destruct (runTask_XL_generation_timeout generousStatic Sandbox.quiet_host
              stringify digest isoTime xlTask stalledModel 0)
    as (res & Hout & Hflag & _ & Hzero & _).
  - reflexivity.
  - right. exact I.
  - exists res. auto.
Defined.

Lemma runTask_result_invariants_witness :
  exists res,
    outcome (run_on Sandbox.quiet_host anyTask goodModel 0) = Fulfilled res /\
    0 <= totalScore (finalResult (metadata res)) <= 100.
Proof.
  eexists. split; [reflexivity|].
  refine (proj1 (runTask_result_invariants generousStatic Sandbox.quiet_host
                   stringify digest isoTime anyTask goodModel 0 _ _)).
  reflexivity.
Defined.

Lemma runTask_gate_rejection_witness :
  exists res,
    outcome (run_on Sandbox.quiet_host anyTask blankTreeModel 0) = Fulfilled res /\
    staticScore (metadata res) = invalidStatic /\
    totalScore (finalResult (metadata res)) = 30.
Proof.
  destruct (runTask_gate_rejection generousStatic Sandbox.quiet_host
              stringify digest isoTime anyTask blankTreeModel 0 100 200
              (mkOutput (Some blankPathTree) None [] None)
              (mkOutput None (Some escapingArtifacts) [] None)
              blankPathTree escapingArtifacts)
    as (res & Hout & _ & Hstatic & _ & _ & _ & Htotal & _);
    try reflexivity.
  - discriminate.
  - exists res. auto.
Defined.

(** The page crashes in the browser: the runtime score is 0, no
    failure layer is reported and the total is 70. *)
Lemma runTask_drops_runtime_annotations_witness :
  exists res,
    outcome (run_on crashHost anyTask goodModel 0) = Fulfilled res /\
    runtimeScore (metadata res) = Some (inject_Z 0) /\
    failureLayer (finalResult (metadata res)) = None /\
    totalScore (finalResult (metadata res)) = 70.
Proof.
  eexists. split; [reflexivity|]. split; [reflexivity|].
  split; [|reflexivity].
  refine (proj2 (proj2 (runTask_drops_runtime_annotations generousStatic crashHost
                          stringify digest isoTime anyTask goodModel 0 _ _ _)) _).
  - reflexivity.
  - left. discriminate.
  - reflexivity.
Defined.

End OrchestratorExtrasRuns.

Section BenchmarkFacts.
Import Types FinalEval Benchmark Views.

Lemma DIFFICULTY_WEIGHTS_pos (size : Difficulty) : (0 < DIFFICULTY_WEIGHTS size)%Q.
Proof. destruct size; reflexivity. Qed.

Lemma sumQ_map_snoc {A} (f : A -> Q) (l : list A) (x : A) :
  (sumQ (map f (l ++ [x])) == sumQ (map f l) + f x)%Q.
Proof.
  induction l as [|y l IH]; simpl; [lra|]. rewrite IH. lra.
Qed.

(** [Math.round] of a number between two integers stays between
    them. *)
Lemma Math_round_between (lo hi : Z) (x : Q) :
  (inject_Z lo <= x)%Q -> (x <= inject_Z hi)%Q -> lo <= Math_round x <= hi.
Proof.
  intros Hlo Hhi. unfold Math_round. split.
  - rewrite <- (Qfloor_Z lo). apply Qfloor_resp_le. lra.
  - match goal with |- Qfloor ?y <= _ => pose proof (Qfloor_le y) as Hf end.
    assert (Hlt : (inject_Z (Qfloor (x + (1 # 2))) < inject_Z (hi + 1))%Q).
    { rewrite inject_Z_plus. change (inject_Z 1) with 1%Q. lra. }
    rewrite <- Zlt_Qlt in Hlt. lia.
Qed.

(** What the additions preserve: the totals are the sums over the two
    breakdown lists, and the weighted sum stays between the bounds of
    the scores. *)
Lemma addAll_invariant (lo hi : Z) (runs : list TaskCompletion) :
  Forall (fun r => lo <= done_score r <= hi) runs ->
  forall acc,
    (0 <= totalWeight acc)%Q ->
    (inject_Z lo * totalWeight acc <= weightedSum acc)%Q ->
    (weightedSum acc <= inject_Z hi * totalWeight acc)%Q ->
    (0 <= totalWeight (addAll acc runs))%Q /\
    (runs <> [] -> 0 < totalWeight (addAll acc runs))%Q /\
    (inject_Z lo * totalWeight (addAll acc runs) <= weightedSum (addAll acc runs))%Q /\
    (weightedSum (addAll acc runs) <= inject_Z hi * totalWeight (addAll acc runs))%Q.
Proof.
  induction 1 as [|r runs Hr Hruns IH]; intros acc Hw Hlo Hhi; simpl.
  - repeat split; try assumption. congruence.
  - pose proof (DIFFICULTY_WEIGHTS_pos (done_size r)) as Hpos.
    assert (Hs1 : (inject_Z lo * DIFFICULTY_WEIGHTS (done_size r)
                   <= inject_Z (done_score r) * DIFFICULTY_WEIGHTS (done_size r))%Q).
    { apply Qmult_le_compat_r; [rewrite <- Zle_Qle; lia|lra]. }
    assert (Hs2 : (inject_Z (done_score r) * DIFFICULTY_WEIGHTS (done_size r)
                   <= inject_Z hi * DIFFICULTY_WEIGHTS (done_size r))%Q).
    { apply Qmult_le_compat_r; [rewrite <- Zle_Qle; lia|lra]. }
    destruct (IH (addToBenchmark acc (done_taskId r) (done_size r)
                    (done_score r) (done_esg r)))
      as (Hw' & _ & Hlo' & Hhi'); simpl; try lra.
    split; [exact Hw'|]. split; [|split; assumption].
    intros _.
    assert (Hgrow : forall rs a,
      (totalWeight a <= totalWeight (addAll a rs))%Q).
    { clear. induction rs as [|x rs IHrs]; intros a; simpl; [lra|].
      eapply Qle_trans; [|apply IHrs]. simpl.
      pose proof (DIFFICULTY_WEIGHTS_pos (done_size x)). lra. }
    eapply Qlt_le_trans; [|apply Hgrow]. simpl. lra.
Qed.

Lemma addAll_totals (runs : list TaskCompletion) :
  forall acc,
    (weightedSum acc ==
       sumQ (map (fun e => inject_Z (pt_score e) * pt_weight e) (perTask acc)))%Q ->
    (totalWeight acc == sumQ (map pt_weight (perTask acc)))%Q ->
    (eciTotal acc == sumQ (map ea_eciIndex (esgBreakdown acc)))%Q ->
    (acc_evalTokens acc == sumQ (map ea_evalTokens (esgBreakdown acc)))%Q ->
    let acc' := addAll acc runs in
    (weightedSum acc' ==
       sumQ (map (fun e => inject_Z (pt_score e) * pt_weight e) (perTask acc')))%Q /\
    (totalWeight acc' == sumQ (map pt_weight (perTask acc')))%Q /\
    (eciTotal acc' == sumQ (map ea_eciIndex (esgBreakdown acc')))%Q /\
    (acc_evalTokens acc' == sumQ (map ea_evalTokens (esgBreakdown acc')))%Q /\
    map (fun e => (pt_taskId e, pt_size e, pt_score e)) (perTask acc') =
      (map (fun e => (pt_taskId e, pt_size e, pt_score e)) (perTask acc) ++
       map (fun r => (done_taskId r, done_size r, done_score r)) runs)%list /\
    length (esgBreakdown acc') =
      (length (esgBreakdown acc)
       + length (List.filter (fun r => match done_esg r with Some _ => true | None => false end)
                   runs))%nat.
Proof.
  induction runs as [|r runs IH]; intros acc H1 H2 H3 H4; cbv zeta; simpl.
  - rewrite app_nil_r. repeat split; try assumption. lia.
  - match goal with |- context [addAll ?a runs] => specialize (IH a) end.
    cbv zeta in IH.
    destruct IH as (I1 & I2 & I3 & I4 & I5 & I6);
      cbn [weightedSum totalWeight eciTotal acc_evalTokens perTask esgBreakdown
           addToBenchmark].
    + rewrite sumQ_map_snoc. cbn [pt_score pt_weight]. lra.
    + rewrite sumQ_map_snoc. cbn [pt_score pt_weight]. lra.
    + destruct (done_esg r); [|exact H3].
      rewrite sumQ_map_snoc. cbn [ea_eciIndex]. lra.
    + destruct (done_esg r); [|exact H4].
      rewrite sumQ_map_snoc. cbn [ea_evalTokens]. lra.
    + repeat split; try assumption.
      * rewrite I5. simpl. rewrite map_app, <- app_assoc. reflexivity.
      * rewrite I6. destruct (done_esg r); simpl; rewrite ?length_app; simpl; lia.
Qed.

End BenchmarkFacts.

Section BenchmarkExtras.
Import Types FinalEval Benchmark Esg Views.

(** X26: the benchmark score is the rounded weighted mean of the
    recorded scores, so it stays within their bounds: after any
    non-empty sequence of [addToBenchmark] calls on the fresh
    accumulator, scores between [lo] and [hi] give a benchmark score
    between [lo] and [hi]; in particular total scores, which lie in
    0..100, give a benchmark score in 0..100.  With nothing recorded,
    or after [resetBenchmark], the score is 0. *)
Theorem getBenchmarkScore_within_scores (lo hi : Z) (runs : list TaskCompletion) :
  Forall (fun r => lo <= done_score r <= hi) runs ->
  (runs <> [] -> lo <= getBenchmarkScore (addAll benchmarkAccumulator runs) <= hi) /\
  getBenchmarkScore benchmarkAccumulator = 0 /\
  getBenchmarkScore (resetBenchmark (addAll benchmarkAccumulator runs)) = 0.
Proof.
  intros Hruns. split; [|split; reflexivity].
  intros Hne.
  destruct (addAll_invariant lo hi runs Hruns benchmarkAccumulator)
    as (_ & Hpos & Hlo & Hhi); simpl; try lra.
  specialize (Hpos Hne). unfold getBenchmarkScore.
  destruct (Qeq_bool (totalWeight (addAll benchmarkAccumulator runs)) 0) eqn:Hz.
  { apply Qeq_bool_iff in Hz. lra. }
  apply Math_round_between.
  - apply Qle_shift_div_l; assumption.
  - apply Qle_shift_div_r; assumption.
Qed.

(** X27: the totals of the accumulator agree with its breakdown
    lists: after any sequence of [addToBenchmark] calls on the fresh
    accumulator, the weighted sum and the total weight are the sums
    over [perTask], the ECI total and the token total are the sums
    over [esgBreakdown], [perTask] holds one entry per call in call
    order, and [esgBreakdown] one per call that came with ESG data. *)
Theorem accumulator_totals_match_breakdown (runs : list TaskCompletion) :
  let acc := addAll benchmarkAccumulator runs in
  (weightedSum acc ==
     sumQ (map (fun e => inject_Z (pt_score e) * pt_weight e) (perTask acc)))%Q /\
  (totalWeight acc == sumQ (map pt_weight (perTask acc)))%Q /\
  (eciTotal acc == sumQ (map ea_eciIndex (esgBreakdown acc)))%Q /\
  (acc_evalTokens acc == sumQ (map ea_evalTokens (esgBreakdown acc)))%Q /\
  map (fun e => (pt_taskId e, pt_size e, pt_score e)) (perTask acc) =
    map (fun r => (done_taskId r, done_size r, done_score r)) runs /\
  length (esgBreakdown acc) =
    length (List.filter (fun r => match done_esg r with Some _ => true | None => false end)
              runs).
Proof.
  cbv zeta.
  destruct (addAll_totals runs benchmarkAccumulator) as (H1 & H2 & H3 & H4 & H5 & H6);
    simpl; try lra.
  repeat split; assumption.
Qed.

(** X28: [computeECI] returns [null] exactly when the parameter scale
    is absent or negative; otherwise the index is never negative, it
    is tokens times scale over 10000 for a non-negative token count
    and 0 for a negative one, and it does not decrease when the token
    count grows. *)
Theorem computeECI_cases (evalTokens : Q) (parameterScale : option Q) :
  (computeECI evalTokens parameterScale = None <->
   match parameterScale with Some scale => (scale < 0)%Q | None => True end) /\
  (forall eci, computeECI evalTokens parameterScale = Some eci -> (0 <= eci)%Q) /\
  (forall scale, parameterScale = Some scale -> (0 <= scale)%Q ->
     exists eci, computeECI evalTokens parameterScale = Some eci /\
       ((0 <= evalTokens)%Q -> (eci == evalTokens * scale / 10000)%Q) /\
       ((evalTokens < 0)%Q -> (eci == 0)%Q) /\
       forall more eci', (evalTokens <= more)%Q ->
         computeECI more parameterScale = Some eci' -> (eci <= eci')%Q).
Proof.
  unfold computeECI. destruct parameterScale as [scale|].
  2:{ split; [split; auto|]. split; [discriminate|]. intros scale H. discriminate. }
  destruct (Qle_bool 0 scale) eqn:Hs; simpl.
  - apply Qle_bool_iff in Hs.
    assert (Hprod : forall t, (0 <= t)%Q -> (0 <= t * scale / 10000)%Q).
    { intros t Ht. apply Qle_shift_div_l; [reflexivity|].
      rewrite Qmult_0_l. now apply Qmult_le_0_compat. }
    assert (Hnonneg : forall t eci,
              (if negb (Qle_bool 0 t) then Some 0%Q
               else Some (t * scale / 10000)%Q) = Some eci -> (0 <= eci)%Q).
    { intros t eci. destruct (Qle_bool 0 t) eqn:Ht; simpl; intros [= <-]; [|lra].
      apply Qle_bool_iff in Ht. now apply Hprod. }
    split.
    { split; [destruct (negb (Qle_bool 0 evalTokens)); discriminate|lra]. }
    split; [apply Hnonneg|].
    intros scale' [= <-] _.
    destruct (Qle_bool 0 evalTokens) eqn:Ht; simpl.
    + apply Qle_bool_iff in Ht. eexists. split; [reflexivity|].
      split; [reflexivity|]. split; [lra|].
      intros more eci' Hmore.
      destruct (Qle_bool 0 more) eqn:Hm; simpl; intros [= <-].
      * apply Qmult_le_compat_r; [|discriminate].
        apply Qmult_le_compat_r; assumption.
      * assert (~ (0 <= more)%Q) by (rewrite <- Qle_bool_iff; congruence). lra.
    + assert (Hneg : ~ (0 <= evalTokens)%Q) by (rewrite <- Qle_bool_iff; congruence).
      eexists. split; [reflexivity|].
      split; [lra|]. split; [reflexivity|].
      intros more eci' Hmore Heci. exact (Hnonneg more eci' Heci).
  - assert (Hneg : ~ (0 <= scale)%Q) by (rewrite <- Qle_bool_iff; congruence).
    split; [split; [lra|reflexivity]|].
    split; [discriminate|]. intros scale' [= <-] H. lra.
Qed.

End BenchmarkExtras.

Section BenchmarkRuns.
Import Types FinalEval Benchmark Esg Views Examples.

Lemma getBenchmarkScore_within_scores_witness :
  0 <= getBenchmarkScore (addAll benchmarkAccumulator threeRuns) <= 100.
Proof.
  apply (getBenchmarkScore_within_scores 0 100 threeRuns).
  - repeat constructor; simpl; lia.
  - discriminate.
Defined.

Lemma computeECI_cases_witness :
  exists eci, computeECI 1200 (Some 7%Q) = Some eci /\ (eci == 84 # 100)%Q.
Proof.
  destruct (computeECI_cases 1200 (Some 7%Q)) as (_ & _ & H).
  destruct (H 7%Q eq_refl) as (eci & Heq & Hval & _).
  - discriminate.
  - exists eci. split; [exact Heq|]. rewrite Hval; [reflexivity|discriminate].
Defined.

End BenchmarkRuns.

Section TierAndRegistryExtras.
Import Registry Types JsString FinalEval Views.

(** X29: the registry and the final evaluator agree on what a rule
    costs.  An annotation built from a registered definition of
    severity critical or error holds the total score at or below the
    cap of the definition's category: 30 for a runtime rule, 50 for a
    parse rule, 70 for a connectivity rule and 85 for a lint rule.
    The model rule sits in layer L1, which carries no cap. *)
Theorem registered_failure_caps_total
    (d : FailureDefinition) (msg : string)
    (s : ScoreBreakdown) (rs : option Q) (m : FailureMetadata) :
  In d registry_entries ->
  is_failure_severity (def_severity d) = true ->
  In (makeFail d msg) (default [] (meta_failureAnnotations m)) ->
  totalScore (evaluateFinal s rs m) <=
    match def_category d with
    | Registry.runtime => 30
    | Registry.parse => 50
    | Registry.connectivity => 70
    | Registry.lint => 85
    | Registry.model => 100
    end.
Proof.
  intros Hd Hsev Hin.
  pose proof (evaluateFinal_le_cap s rs m (makeFail d msg) Hin Hsev) as Hcap.
  simpl in Hcap.
  assert (Htable : getScoreCap (Some (def_layer d)) =
            match def_category d with
            | Registry.runtime => 30
            | Registry.parse => 50
            | Registry.connectivity => 70
            | Registry.lint => 85
            | Registry.model => 100
            end).
  { unfold registry_entries in Hd. simpl in Hd.
    repeat (destruct Hd as [<-|Hd]; [first [reflexivity|discriminate]|]).
    destruct Hd. }
  rewrite <- Htable. exact Hcap.
Qed.

(** X30: the tier weight is a ceiling.  With sub-scores between 0 and
    1 the total score is at most 100 times the weight of the tier,
    whatever the annotations: a task of tier XS never scores above 60
    and a task of tier S never above 80. *)
Theorem evaluateFinal_tier_ceiling
    (s : ScoreBreakdown) (rs : option Q) (m : FailureMetadata) :
  (0 <= completeness s <= 1)%Q ->
  (0 <= structure s <= 1)%Q ->
  (0 <= survivability s <= 1)%Q ->
  (forall r, rs = Some r -> 0 <= r <= 1)%Q ->
  totalScore (evaluateFinal s rs m) <=
    match default M (difficulty m) with
    | XS => 60
    | S => 80
    | M | L | XL => 100
    end.
Proof.
  intros Hc Hs Hv Hr. rewrite evaluateFinal_total.
  set (annotations := default [] (meta_failureAnnotations m)).
  pose proof (getScoreCap_range (fst (resolveFailureLayer annotations (parseStatus m))))
    as Hcap.
  fold (cap_of annotations (parseStatus m)) in Hcap.
  assert (Hpen : (0 <= inject_Z (penalty_of annotations))%Q).
  { unfold penalty_of. rewrite penalty_fold.
    pose proof (spec_penalty_nonneg annotations).
    change 0%Q with (inject_Z 0). rewrite <- Zle_Qle. lia. }
  assert (Hbase : (0 <= baseScore01 s rs <= 1)%Q).
  { unfold baseScore01. destruct rs as [r|]; [|lra].
    specialize (Hr r eq_refl). lra. }
  set (p := inject_Z (penalty_of annotations)) in *.
  set (b := baseScore01 s rs) in *. clearbody p b.
  unfold clampScore.
  destruct (default M (difficulty m)); unfold DIFFICULTY_WEIGHTS.
  1,2: match goal with |- Z.max 0 (Z.min _ (Math_round ?x)) <= ?bound =>
         assert (Hround : Math_round x <= bound)
           by (change bound with (Math_round (inject_Z bound));
               apply Math_round_mono; unfold inject_Z; lra)
       end; lia.
  all: lia.
Qed.

End TierAndRegistryExtras.

Section TierAndRegistryRuns.
Import Registry Types JsString FinalEval Views Examples.

Lemma registered_failure_caps_total_witness :
  totalScore (evaluateFinal perfectStatic (Some 1%Q)
                (with_annotations no_metadata [lintWarning; brokenLink])) <= 70.
Proof.
  apply (registered_failure_caps_total def_CONNECTIVITY_BROKEN_LINK
           "Missing references to required files: main.js").
  - simpl. auto 20.
  - reflexivity.
  - simpl. auto.
Defined.

Lemma evaluateFinal_tier_ceiling_witness :
  totalScore (evaluateFinal perfectStatic (Some 1%Q)
                (mkMetadata (Some XS) None None None None None)) <= 60.
Proof.
  apply (evaluateFinal_tier_ceiling perfectStatic (Some 1%Q)
           (mkMetadata (Some XS) None None None None None)).
  - simpl. lra.
  - simpl. lra.
  - simpl. lra.
  - intros r [= <-]. lra.
Defined.

End TierAndRegistryRuns.

Section FurtherRuns.
Import Registry Types JsString FinalEval RuntimeEval Parser Orchestrator Views Examples.

Lemma evaluateRuntime_annotations_follow_registry_witness :
  Forall (fun a => from_registry a /\ category a = Registry.runtime /\
                   (is_failure_severity (severity a) = true ->
                    layer a = "L5/BrowserRuntime"))
         (rt_failureAnnotations (evaluateRuntime noisyResult anyTask)).
Proof.
  apply (evaluateRuntime_annotations_follow_registry noisyResult anyTask).
Defined.

Lemma parseModelOutput_checks_names_only_witness :
  parseModelOutput stringify (Js.fileTree [("src/app.js", "file")])
    (Js.fileArtifacts unrelatedArtifacts) <> None /\
  parseModelOutput stringify (Js.fileTree [(nbsp, "file")])
    (Js.fileArtifacts unrelatedArtifacts) = None.
Proof.
  split.
  - apply (parseModelOutput_checks_names_only stringify
             [("src/app.js", "file")] unrelatedArtifacts).
    split; [repeat constructor|]. split; [discriminate|repeat constructor].
  - destruct (parseModelOutput_checks_names_only stringify
                [(nbsp, "file")] unrelatedArtifacts) as [H _].
    destruct (parseModelOutput stringify (Js.fileTree [(nbsp, "file")])
                (Js.fileArtifacts unrelatedArtifacts)); [|reflexivity].
    destruct H as [Hnb _]; [discriminate|].
    inversion Hnb as [|x l Htrim _]. discriminate.
Defined.

Lemma callWithTimeout_race_witness :
  fst (callWithTimeout true 600000 0 NeverSettles) <> Pending /\
  snd (callWithTimeout true 600000 0 NeverSettles) <= Z.max 0 600000.
Proof.
  apply (callWithTimeout_race true 600000 0 NeverSettles). reflexivity.
Defined.

End FurtherRuns.
